(** * A shallow embedding of the deno-api-server router

    The repository holds two near-duplicate variants of one design:

    - [mod.js]: routes opt in to the process-wide hooks [AUTH_VERIFY] and
      [AUTH_SIGN] through boolean-like flags (module [ModJs] below);
    - the second source file: every route carries its own [verify], [sign]
      and [login] hooks, checked for callability at registration (module
      [PerRoute] below).

    Both are embedded here.  Static class fields become the fields of a
    record [Router]; the closure handed to [Deno.serve] becomes
    [on_request], a computation in a small monad [Js] that threads the
    statics (the only state shared between requests), records the calls
    made to hooks and handlers in a trace, and distinguishes a returned
    value from a thrown error.

    Modelling boundary.  Plain objects used as dictionaries are finite maps
    of their own properties; where the dispatcher reads a table of methods
    by a name the client chooses, the names every plain object inherits
    from [Object.prototype] are found as well, as in the source.  [Route]
    fills the tables by assignment, which gives a table a property of its
    own for every name but [__proto__]; registrations under that method,
    or under a path that is itself an inherited name, reach objects that
    are not part of the statics and are not modelled.  Handlers
    and configured hooks are functions, they terminate, and the only thing
    a post-handler hook can change on a response is its headers.  Thrown
    values are [Error] instances.  The headers of a response are the ones
    it was constructed with, names and values as written, plus the content
    type the constructor adds to a text body that has none (names are
    compared without regard to case for that test only). *)

From Stdlib Require Import ZArith String Ascii List Bool Lia.
From stdpp Require Import base option gmap strings pretty.

Local Open Scope string_scope.
Local Open Scope list_scope.

(* ===================================================================== *)
(** ** Text helpers: the string primitives the router calls *)
(* ===================================================================== *)

(** The double-quote character, for messages that quote an option name. *)
Definition dquote : string := String (ascii_of_nat 34) EmptyString.

(** [s.slice(n)] *)
Fixpoint string_drop (n : nat) (s : string) : string :=
  match n, s with
  | O, _ => s
  | S n', String _ s' => string_drop n' s'
  | S _, EmptyString => EmptyString
  end.

(** [s.replace(pat, rep)] for a string pattern: only the first occurrence
    is replaced; without an occurrence [s] is returned as it is. *)
Fixpoint String_replace (s pat rep : string) : string :=
  if String.prefix pat s then rep +:+ string_drop (String.length pat) s
  else match s with
       | EmptyString => EmptyString
       | String c s' => String c (String_replace s' pat rep)
       end.

(** [s.split(sep)] for a one-character separator: never the empty list. *)
Fixpoint String_split (sep : ascii) (s : string) : list string :=
  match s with
  | EmptyString => [EmptyString]
  | String c s' =>
      if Ascii.eqb c sep then EmptyString :: String_split sep s'
      else match String_split sep s' with
           | x :: xs => String c x :: xs
           | [] => [String c EmptyString]
           end
  end.

(** Cut [s] in front of the first character satisfying [p]. *)
Fixpoint string_break (p : ascii -> bool) (s : string) : string * string :=
  match s with
  | EmptyString => (EmptyString, EmptyString)
  | String c s' =>
      if p c then (EmptyString, s)
      else let '(a, b) := string_break p s' in (String c a, b)
  end.

Fixpoint string_drop_while (p : ascii -> bool) (s : string) : string :=
  match s with
  | EmptyString => EmptyString
  | String c s' => if p c then string_drop_while p s' else s
  end.

(** JavaScript truthiness of a string: every string but the empty one. *)
Definition truthy_string (s : string) : bool :=
  match s with EmptyString => false | _ => true end.

(* ===================================================================== *)
(** ** Errors and completions *)
(* ===================================================================== *)

(** What a [throw] carries.  [CustomError] is the exported class of the
    repository (a message and an HTTP status); [Error] stands for every
    other error instance, [TypeError] and [RangeError] included. *)
Inductive JsError : Type :=
| CustomError (message : string) (httpStatusCode : Z)
| Error (message : string).

(** [new CustomError(message, httpStatusCode = 400)] *)
Definition CustomError_new (message : string) (httpStatusCode : option Z) : JsError :=
  CustomError message (default 400%Z httpStatusCode).

Definition message (e : JsError) : string :=
  match e with CustomError m _ => m | Error m => m end.

(** The outcome of evaluating an expression or awaiting a promise. *)
Inductive Completion (A : Type) : Type :=
| Normal (a : A)
| Throw (e : JsError).
Arguments Normal {A} a.
Arguments Throw {A} e.

(* ===================================================================== *)
(** ** Responses *)
(* ===================================================================== *)

(** A plain object of header names to values; also the header list of a
    response. *)
Abbreviation Headers := (gmap string string).

Record Response : Type := mkResponse {
  body : option string;        (* [None] is the null body *)
  status : Z;
  headers : Headers
}.

(** Statuses whose responses cannot carry a body. *)
Definition null_body_status (s : Z) : bool :=
  ((s =? 101) || (s =? 204) || (s =? 205) || (s =? 304))%Z.

Definition has_body (b : option string) : bool :=
  match b with Some _ => true | None => false end.

(** The check of the [Response] constructor on [init.status]: the value is
    first converted to an unsigned 16-bit integer, must then be 101 or lie
    in 200..599, and must not be a null-body status when a body is given. *)
Definition status_accepted (b : option string) (s : Z) : bool :=
  let s16 := (s mod 65536)%Z in
  (((200 <=? s16) && (s16 <=? 599)) || (s16 =? 101))%Z
  && negb (has_body b && null_body_status s16).

(** Header names are compared without regard to case. *)
Definition ascii_lower (c : ascii) : ascii :=
  let n := nat_of_ascii c in
  if ((65 <=? n) && (n <=? 90))%nat then ascii_of_nat (n + 32) else c.

Fixpoint String_toLowerCase (s : string) : string :=
  match s with
  | EmptyString => EmptyString
  | String c s' => String (ascii_lower c) (String_toLowerCase s')
  end.

(** [headers.has(name)], for a lower-case [name]. *)
Definition Headers_has (h : Headers) (name : string) : bool :=
  existsb (fun kv => String_toLowerCase kv.1 =? name) (map_to_list h).

(** The headers the constructor leaves on a response: a body given as a
    string gets the content type of text when the headers given have no
    content type; a null body gets nothing. *)
Definition Response_headers (b : option string) (h : Headers) : Headers :=
  if has_body b && negb (Headers_has h "content-type")
  then <["content-type" := "text/plain;charset=UTF-8"]> h
  else h.

(** [new Response(body, { status, headers })] *)
Definition new_Response (b : option string) (s : Z) (h : Headers) : Completion Response :=
  let s16 := (s mod 65536)%Z in
  if negb ((((200 <=? s16) && (s16 <=? 599)) || (s16 =? 101))%Z) then
    Throw (Error "The status provided is not equal to 101 and outside the range [200, 599]")
  else if has_body b && null_body_status s16 then
    Throw (Error "Response with null body status cannot have body")
  else Normal (mkResponse b s16 (Response_headers b h)).

(** The in-place effect of a hook on a response it was handed. *)
Definition with_headers (r : Response) (h : Headers) : Response :=
  mkResponse (body r) (status r) h.

(* ===================================================================== *)
(** ** Values, requests and payloads *)
(* ===================================================================== *)

(** The runtime values a handler or a verify hook can produce, by the
    distinctions the encoder makes ([typeof], [instanceof], nullness).  An
    object other than a [String] wrapper or a [Response] is represented by
    what [JSON.stringify] does with it: a text, [undefined], or a throw. *)
Inductive JsValue : Type :=
| VUndefined
| VNull
| VBoolean (b : bool)
| VNumber (n : Z)
| VBigInt (n : Z)
| VString (s : string)
| VStringObject (s : string)
| VSymbol (description : string)
| VFunction (name : string)
| VResponse (r : Response)
| VObject (stringified : Completion (option string)).

(** The request object the listener hands over: method, URL, the value of
    [headers.get("content-type")] ([None] for [null]), and what each
    body-reading operation yields when the dispatcher awaits it ([None]
    when the promise rejects). *)
Record Request : Type := mkRequest {
  method : string;
  url : string;
  content_type : option string;
  json : option JsValue;
  text : option string;
  formData : option (list (string * string))
}.

(** What a handler receives as its first argument. *)
Inductive Payload : Type :=
| PQuery (params : gmap string string)
| PJson (v : JsValue)
| PText (s : string)
| PFormData (fields : list (string * string))
| PRaw (req : Request).

(** The two fields of a parsed URL the router reads. *)
Record URL : Type := mkURL {
  pathname : string;
  searchParams : list (string * string)
}.

(** [Object.fromEntries(params)]: a later pair overwrites an earlier one. *)
Definition Object_fromEntries (l : list (string * string)) : gmap string string :=
  fold_left (fun m kv => <[kv.1 := kv.2]> m) l ∅.

(** Hooks and handlers.  A handler gets the decoded payload, the value the
    verify hook produced and the raw request.  A post-handler hook gets the
    response and one more value and leaves the response with the headers it
    returns. *)
Definition Handler : Type := Payload -> JsValue -> Request -> Completion JsValue.
Definition VerifyHook : Type := Request -> Completion JsValue.
Definition ResponseHook : Type := Response -> JsValue -> Completion Headers.

(** An option value as [Route] sees it: falsy (omitted, [undefined],
    [null], [false], ...), a function, or a truthy value that is not a
    function. *)
Inductive OptionValue (F : Type) : Type :=
| Falsy
| Function (f : F)
| NotAFunction.
Arguments Falsy {F}.
Arguments Function {F} f.
Arguments NotAFunction {F}.

(** The guard [option && ...]: the option counts as provided. *)
Definition provided {F} (o : OptionValue F) : bool :=
  match o with Falsy => false | _ => true end.

(** [typeof option === 'function'] *)

Definition typeof_function {F} (o : OptionValue F) : bool :=
  match o with Function _ => true | _ => false end.

Definition as_hook {F} (o : OptionValue F) : option F :=
  match o with Function f => Some f | _ => None end.

(* ===================================================================== *)
(** ** The trace and the monad *)
(* ===================================================================== *)

Inductive BodyKind : Type := AsJson | AsText | AsFormData.

(** What the dispatcher does to its collaborators, in order. *)
Inductive Event : Type :=
| CallVerify (req : Request)
| ReadBody (kind : BodyKind)
| CallHandler (data : Payload) (payload : JsValue) (req : Request)
| CallSign (response : Response) (arg : JsValue)
| CallLogin (response : Response) (arg : JsValue)
| ConsoleError (e : JsError).

(** A computation over the statics [S]: it ends normally or by a throw, and
    leaves the statics and the extended trace behind in both cases. *)
Definition Js (S A : Type) : Type :=
  S -> list Event -> Completion A * S * list Event.

Definition ret {S A} (a : A) : Js S A := fun s t => (Normal a, s, t).

Definition throw {S A} (e : JsError) : Js S A := fun s t => (Throw e, s, t).

Definition bind {S A B} (m : Js S A) (k : A -> Js S B) : Js S B :=
  fun s t =>
    match m s t with
    | (Normal a, s', t') => k a s' t'
    | (Throw e, s', t') => (Throw e, s', t')
    end.

(** [try { m } catch (e) { h e }] *)
Definition try_catch {S A} (m : Js S A) (h : JsError -> Js S A) : Js S A :=
  fun s t =>
    match m s t with
    | (Normal a, s', t') => (Normal a, s', t')
    | (Throw e, s', t') => h e s' t'
    end.

Definition gets {S A} (f : S -> A) : Js S A := fun s t => (Normal (f s), s, t).

Definition modify {S} (f : S -> S) : Js S unit := fun s t => (Normal tt, f s, t).

Definition emit {S} (ev : Event) : Js S unit := fun s t => (Normal tt, s, (t ++ [ev])%list).

Definition lift {S A} (c : Completion A) : Js S A := fun s t => (c, s, t).

Notation "'let!' x ':=' m 'in' k" := (bind m (fun x => k))
  (at level 10, x name, m at level 100, k at level 200, only parsing).
Notation "'do!' m 'in' k" := (bind m (fun _ => k))
  (at level 10, m at level 100, k at level 200, only parsing).

(** Projections of a finished run. *)
Definition outcome {S A} (r : Completion A * S * list Event) : Completion A := r.1.1.
Definition statics {S A} (r : Completion A * S * list Event) : S := r.1.2.
Definition trace {S A} (r : Completion A * S * list Event) : list Event := r.2.

(** The value a run returned, if it returned, and the error it threw, if
    it threw. *)
Definition returned {S A} (r : Completion A * S * list Event) : option A :=
  match outcome r with Normal a => Some a | Throw _ => None end.
Definition thrown {S A} (r : Completion A * S * list Event) : option JsError :=
  match outcome r with Normal _ => None | Throw e => Some e end.

(** The calls made to the handler, with their three arguments, in order. *)
Definition handler_calls (t : list Event) : list (Payload * JsValue * Request) :=
  omap (fun ev => match ev with CallHandler d p r => Some (d, p, r) | _ => None end) t.

(** The body-reading operations started, in order. *)
Definition body_reads (t : list Event) : list BodyKind :=
  omap (fun ev => match ev with ReadBody k => Some k | _ => None end) t.

(** The calls made to post-handler hooks, in order. *)
Definition hook_calls (t : list Event) : list Event :=
  omap (fun ev => match ev with CallSign _ _ | CallLogin _ _ => Some ev | _ => None end) t.

(** [typeof v] *)
Definition typeof (v : JsValue) : string :=
  match v with
  | VUndefined => "undefined"
  | VNull => "object"
  | VBoolean _ => "boolean"
  | VNumber _ => "number"
  | VBigInt _ => "bigint"
  | VString _ => "string"
  | VStringObject _ => "object"
  | VSymbol _ => "symbol"
  | VFunction _ => "function"
  | VResponse _ => "object"
  | VObject _ => "object"
  end.

(* ===================================================================== *)
(** ** The platform and the blocks both variants share *)
(* ===================================================================== *)

(** [new URL(s)] belongs to the runtime, not to the repository: it either
    yields a parsed URL or throws a [TypeError]. *)
Class Platform : Type := {
  URL_new : string -> Completion URL;
  (* the message of the [TypeError] raised by calling a property that
     holds no function *)
  not_a_function : string
}.

(** The names every plain object inherits from [Object.prototype].  Each
    holds a truthy value, a function or the prototype itself, and none of
    these values has a [handler], [verify], [sign] or [login] property. *)
Definition Object_prototype_names : list string :=
  ["constructor"; "__defineGetter__"; "__defineSetter__"; "hasOwnProperty";
   "__lookupGetter__"; "__lookupSetter__"; "isPrototypeOf"; "propertyIsEnumerable";
   "toString"; "valueOf"; "__proto__"; "toLocaleString"].

Definition inherited (name : string) : bool :=
  existsb (String.eqb name) Object_prototype_names.

(** What [table[name]] yields when [table] is a plain object filled by
    [Route]: an entry of its own, a value found on the prototype, or
    [undefined]. *)
Inductive Property (E : Type) : Type :=
| Own (entry : E)
| Inherited
| Undefined.
Arguments Own {E} entry.
Arguments Inherited {E}.
Arguments Undefined {E}.

Definition Object_get {E} (table : gmap string E) (name : string) : Property E :=
  match table !! name with
  | Some entry => Own entry
  | None => if inherited name then Inherited else Undefined
  end.

(** ["/" + U.pathname.split("/")[1]]; a missing second element is
    [undefined], which the concatenation prints. *)
Definition route_key (U : URL) : string :=
  "/" +:+ default "undefined" (String_split "/" (pathname U) !! 1%nat).

(** [req.method === "POST" ? 201 : 200] *)
Definition responseStatus (req : Request) : Z :=
  if method req =? "POST" then 201%Z else 200%Z.

(** [result.toString()] for a boolean. *)
Definition Boolean_toString (b : bool) : string := if b then "true" else "false".

(** The [switch (true)] over the handler's result: the first case that
    holds builds the response; the headers are the request's own clone. *)
Definition encode (result : JsValue) (responseStatus : Z) (responseHeaders : Headers)
  : Completion Response :=
  match result with
  | VBigInt n =>                       (* typeof result === "bigint" *)
      new_Response (Some (pretty n)) responseStatus
        (<["Content-Type" := "text/plain"]> responseHeaders)
  | VString s | VStringObject s =>     (* "string", or instanceof String *)
      new_Response (Some s) responseStatus
        (<["Content-Type" := "text/plain"]> responseHeaders)
  | VNull | VUndefined =>              (* result === null || result === undefined *)
      new_Response None responseStatus
        (<["Content-Type" := "text/plain"]> responseHeaders)
  | VResponse r => Normal r            (* result instanceof Response *)
  | VObject stringified =>             (* typeof result === "object" *)
      match stringified with
      | Normal b =>
          new_Response b responseStatus
            (<["Content-Type" := "application/json"]> responseHeaders)
      | Throw e => Throw e
      end
  | VBoolean b =>                      (* typeof result === "boolean" *)
      new_Response (Some (Boolean_toString b)) responseStatus
        (<["Content-Type" := "text/plain"]> responseHeaders)
  | VNumber _ | VSymbol _ | VFunction _ =>   (* default *)
      Throw (Error "Return type of controller has no defined processor")
  end.

(** [try { x = await req.read() } catch { throw new CustomError(msg, 400) }] *)
Definition read_body {S A} (kind : BodyKind) (read : option A) (msg : string) : Js S A :=
  do! emit (ReadBody kind) in
  match read with
  | Some a => ret a
  | None => throw (CustomError_new msg (Some 400%Z))
  end.

(** [await handler(data, ...)] *)
Definition call_handler {S} (handler : Handler) (data : Payload) (payload : JsValue)
    (req : Request) : Js S JsValue :=
  do! emit (CallHandler data payload req) in
  lift (handler data payload req).

(** The [if (req.method === "GET") ... else switch (content-type) ...]
    block: each branch decodes its payload and calls the handler. *)
Definition decode_and_handle `{Platform} {S} (handler : Handler) (payload : JsValue)
    (req : Request) : Js S JsValue :=
  if method req =? "GET" then
    let! params := lift (URL_new (url req)) in
    call_handler handler (PQuery (Object_fromEntries (searchParams params))) payload req
  else
    match content_type req with
    | Some ct =>
        if ct =? "application/json" then
          let! body := read_body AsJson (json req) "Request body is not a valid JSON" in
          call_handler handler (PJson body) payload req
        else if ct =? "text/plain" then
          let! text := read_body AsText (text req) "Request body is not a valid STRING" in
          call_handler handler (PText text) payload req
        else if ct =? "multipart/form-data" then
          let! formdata :=
            read_body AsFormData (formData req) "Request body is not a valid FORMDATA" in
          call_handler handler (PFormData formdata) payload req
        else call_handler handler (PRaw req) payload req
    | None => call_handler handler (PRaw req) payload req
    end.

(** [await hook(response, arg)] for a post-handler hook. *)
Definition call_sign {S} (hook : ResponseHook) (response : Response) (arg : JsValue)
  : Js S Response :=
  do! emit (CallSign response arg) in
  let! h := lift (hook response arg) in
  ret (with_headers response h).

Definition call_login {S} (hook : ResponseHook) (response : Response) (arg : JsValue)
  : Js S Response :=
  do! emit (CallLogin response arg) in
  let! h := lift (hook response arg) in
  ret (with_headers response h).

(** [await hook(req)] for the verify hook. *)
Definition call_verify {S} (hook : VerifyHook) (req : Request) : Js S JsValue :=
  do! emit (CallVerify req) in
  lift (hook req).

(** [await value.handler(data, ...)] for a value that has no [handler]:
    the call itself is a [TypeError], no function runs. *)
Definition call_missing_handler `{Platform} {S} : Js S JsValue :=
  throw (Error not_a_function).

(** The decoding block again, for a value found on the prototype: each
    branch decodes its payload and then fails to call the handler. *)
Definition decode_and_fail `{Platform} {S} (req : Request) : Js S JsValue :=
  if method req =? "GET" then
    let! params := lift (URL_new (url req)) in
    call_missing_handler
  else
    match content_type req with
    | Some ct =>
        if ct =? "application/json" then
          let! body := read_body AsJson (json req) "Request body is not a valid JSON" in
          call_missing_handler
        else if ct =? "text/plain" then
          let! text := read_body AsText (text req) "Request body is not a valid STRING" in
          call_missing_handler
        else if ct =? "multipart/form-data" then
          let! formdata :=
            read_body AsFormData (formData req) "Request body is not a valid FORMDATA" in
          call_missing_handler
        else call_missing_handler
    | None => call_missing_handler
    end.

(** [Router.#API_PREFIX ? new URL(req.url.replace(prefix, '')) : new URL(req.url)]:
    an absent or empty prefix is falsy. *)
Definition request_URL `{Platform} (API_PREFIX : option string) (req : Request)
  : Completion URL :=
  match API_PREFIX with
  | Some prefix =>
      if truthy_string prefix then URL_new (String_replace (url req) prefix EmptyString)
      else URL_new (url req)
  | None => URL_new (url req)
  end.

(* ===================================================================== *)
(** ** Vocabulary for the statements *)
(* ===================================================================== *)

(** The three rows of the decoder table in which the body does not decode,
    with the message each one throws. *)
Definition decode_failure (req : Request) (msg : string) : Prop :=
  (content_type req = Some "application/json" /\ json req = None /\
   msg = "Request body is not a valid JSON") \/
  (content_type req = Some "text/plain" /\ text req = None /\
   msg = "Request body is not a valid STRING") \/
  (content_type req = Some "multipart/form-data" /\ formData req = None /\
   msg = "Request body is not a valid FORMDATA").

(** The content type is none of the three the decoder knows. *)
Definition undecoded (req : Request) : Prop :=
  content_type req <> Some "application/json" /\
  content_type req <> Some "text/plain" /\
  content_type req <> Some "multipart/form-data".

(** The [Response] constructor accepts the status the error carries. *)
Definition error_accepted (e : JsError) : bool :=
  match e with
  | CustomError msg c => status_accepted (Some msg) c
  | Error _ => true
  end.

(** The status of the response the [catch] block builds for [e]. *)
Definition error_status (e : JsError) : Z :=
  match e with
  | CustomError _ c => (c mod 65536)%Z
  | Error _ => 500%Z
  end.

(** Traces made of body reads only. *)
Definition only_reads (t : list Event) : Prop :=
  Forall (fun ev => exists k, ev = ReadBody k) t.

(** Traces without a handler call and without a body read. *)
Definition quiet (t : list Event) : Prop :=
  Forall (fun ev => match ev with CallHandler _ _ _ | ReadBody _ => False | _ => True end) t.

(* ===================================================================== *)
(** ** The variant with per-route hooks *)
(* ===================================================================== *)

Module PerRoute.

(** What [Route] stores for one (path, method) pair. *)
Record MethodEntry : Type := mkEntry {
  handler : Handler;
  verify : option VerifyHook;
  sign : option ResponseHook;
  login : option ResponseHook;
  raw : JsValue
}.

(** The fourth argument of [Route]; [{}] by default. *)
Record RouteOptions : Type := mkOptions {
  opt_verify : OptionValue VerifyHook;
  opt_sign : OptionValue ResponseHook;
  opt_login : OptionValue ResponseHook;
  opt_raw : JsValue
}.

Definition no_options : RouteOptions := mkOptions Falsy Falsy Falsy VUndefined.

(** The static fields of the class. *)
Record Router : Type := mkRouter {
  DEFAULT_HEADERS : Headers;
  API_PREFIX : option string;
  ROUTER_MAP : gmap string (gmap string MethodEntry)
}.

Definition set_ROUTER_MAP (m : gmap string (gmap string MethodEntry)) (R : Router) : Router :=
  mkRouter (DEFAULT_HEADERS R) (API_PREFIX R) m.

Definition set_DEFAULT_HEADERS (h : Headers) (R : Router) : Router :=
  mkRouter h (API_PREFIX R) (ROUTER_MAP R).

(** The statics as the class declares them. *)
Definition initial : Router :=
  mkRouter
    (<["Access-Control-Allow-Origin" := "*"]>
     (<["Access-Control-Allow-Headers" := "*"]>
      (<["Access-Control-Allow-Methods" := "*"]>
       (<["Access-Control-Allow-Credentials" := "true"]> ∅))))
    None ∅.

Definition must_be_a_function (option_name : string) : JsError :=
  Error ("The " +:+ dquote +:+ option_name +:+ dquote +:+ " option must be a function").

(** [static Route(path, method, handler, { verify, sign, login, raw } = {})] *)
Definition Route (path method : string) (handler : Handler) (o : RouteOptions)
  : Js Router unit :=
  if provided (opt_verify o) && negb (typeof_function (opt_verify o)) then
    throw (must_be_a_function "verify")
  else if provided (opt_sign o) && negb (typeof_function (opt_sign o)) then
    throw (must_be_a_function "sign")
  else if provided (opt_login o) && negb (typeof_function (opt_login o)) then
    throw (must_be_a_function "login")
  else
    modify (fun R =>
      set_ROUTER_MAP
        (<[path :=
             <[method := mkEntry handler (as_hook (opt_verify o)) (as_hook (opt_sign o))
                                 (as_hook (opt_login o)) (opt_raw o)]>
               (default ∅ (ROUTER_MAP R !! path))]>
           (ROUTER_MAP R))
        R).

(** The options of [Run]; the port only reaches the listener. *)
Record RunOptions : Type := mkRunOptions {
  port : option Z;
  default_headers : option Headers;
  api_prefix : option string
}.

(** The assignments at the head of [Run], before the listener starts. *)
Definition Run (o : RunOptions) : Js Router unit :=
  modify (fun R =>
    mkRouter (default (DEFAULT_HEADERS R) (default_headers o))
             (match api_prefix o with Some p => Some p | None => API_PREFIX R end)
             (ROUTER_MAP R)).

(** [Object.assign(Router.#DEFAULT_HEADERS, { "Content-Type": "text/plain" })]:
    writes into the first argument and returns it. *)
Definition Object_assign_DEFAULT_HEADERS (key value : string) : Js Router Headers :=
  do! modify (fun R => set_DEFAULT_HEADERS (<[key := value]> (DEFAULT_HEADERS R)) R) in
  gets DEFAULT_HEADERS.

(** The [catch (e)] block: [e instanceof CustomError] or not. *)
Definition on_error (e : JsError) : Js Router Response :=
  match e with
  | CustomError msg httpStatusCode =>
      let! h := Object_assign_DEFAULT_HEADERS "Content-Type" "text/plain" in
      lift (new_Response (Some msg) httpStatusCode h)
  | Error msg =>
      do! emit (ConsoleError e) in
      let! h := gets DEFAULT_HEADERS in
      lift (new_Response (Some msg) 500%Z h)
  end.

(** The second half of the [try] block: encode the handler's result,
    run the post-handler hooks, return the response. *)
Definition respond (entry : MethodEntry) (req : Request) (responseHeaders : Headers)
    (payload result : JsValue) : Js Router Response :=
  let! response := lift (encode result (responseStatus req) responseHeaders) in
  let! response :=
    match sign entry with
    | Some hook => call_sign hook response payload
    | None => ret response
    end in
  let! response :=
    match login entry with
    | Some hook => call_login hook response result
    | None => ret response
    end in
  ret response.

(** The [try] block, for the entry the lookup found. *)
Definition process `{Platform} (entry : MethodEntry) (req : Request) : Js Router Response :=
  let! responseHeaders := gets DEFAULT_HEADERS in      (* structuredClone *)
  let! payload :=
    match verify entry with
    | Some hook => call_verify hook req
    | None => ret VNull
    end in
  let! result := decode_and_handle (handler entry) payload req in
  respond entry req responseHeaders payload result.

(** The [try] block for a value found on the prototype: it has no
    hooks, and the call of its [handler] throws once the payload is
    decoded. *)
Definition process_inherited `{Platform} (req : Request) : Js Router Response :=
  let! responseHeaders := gets DEFAULT_HEADERS in      (* structuredClone *)
  let! result := decode_and_fail req in
  lift (encode result (responseStatus req) responseHeaders).

(** The closure [async (req) => { ... }] handed to [Deno.serve].  A
    [Throw] of the whole computation is an error that reaches the
    listener.  The registry is read by route keys, which start with a
    slash and so are never found on the prototype; a table of methods is
    read by the method the client sent. *)
Definition on_request `{Platform} (req : Request) : Js Router Response :=
  let! prefix := gets API_PREFIX in
  let! U := lift (request_URL prefix req) in
  if method req =? "OPTIONS" then
    let! h := gets DEFAULT_HEADERS in
    lift (new_Response None 200%Z h)
  else
    let path := route_key U in
    let! map := gets ROUTER_MAP in
    match map !! path with
    | None =>
        let! h := gets DEFAULT_HEADERS in
        lift (new_Response (Some ("Request path " +:+ path +:+ " does not exist")) 404%Z h)
    | Some methods =>
        match Object_get methods (method req) with
        | Undefined =>
            let! h := gets DEFAULT_HEADERS in
            lift (new_Response
                    (Some ("Request method " +:+ method req +:+ " does not exist on path "
                           +:+ path)) 405%Z h)
        | Own entry => try_catch (process entry req) on_error
        | Inherited => try_catch (process_inherited req) on_error
        end
    end.

(** A request is matched to [entry] when the dispatcher gets past the
    preflight shortcut and both lookups succeed. *)
Definition matched `{Platform} (R : Router) (req : Request) (entry : MethodEntry) : Prop :=
  method req <> "OPTIONS" /\
  exists U methods,
    request_URL (API_PREFIX R) req = Normal U /\
    ROUTER_MAP R !! route_key U = Some methods /\
    methods !! method req = Some entry.

(** The verify step of [process] ends normally and leaves [payload]. *)
Definition verified (entry : MethodEntry) (req : Request) (payload : JsValue) : Prop :=
  match verify entry with
  | Some hook => hook req = Normal payload
  | None => payload = VNull
  end.

(** The post-handler hooks attached to [entry] complete on this request:
    the sign hook on the encoded response and the verify result, then the
    login hook on the response as sign left it and the handler's result. *)
Definition hooks_complete_on (entry : MethodEntry) (encoded : Response)
    (payload result : JsValue) : Prop :=
  match sign entry with
  | Some s =>
      exists h, s encoded payload = Normal h /\
        match login entry with
        | Some l => exists h', l (with_headers encoded h) result = Normal h'
        | None => True
        end
  | None =>
      match login entry with
      | Some l => exists h', l encoded result = Normal h'
      | None => True
      end
  end.

(** [Router.#ROUTER_MAP[path][method]] as a read. *)
Definition lookup_entry (R : Router) (path method : string) : option MethodEntry :=
  ROUTER_MAP R !! path ≫= (.!! method).

(** No option of [o] trips one of the three checks of [Route]. *)
Definition hooks_callable (o : RouteOptions) : bool :=
  negb (provided (opt_verify o) && negb (typeof_function (opt_verify o)))
  && negb (provided (opt_sign o) && negb (typeof_function (opt_sign o)))
  && negb (provided (opt_login o) && negb (typeof_function (opt_login o))).

(** The trace the verify step leaves. *)
Definition verify_trace (entry : MethodEntry) (req : Request) : list Event :=
  match verify entry with Some _ => [CallVerify req] | None => [] end.

End PerRoute.

(* ===================================================================== *)
(** ** The variant of mod.js: process-wide hooks, per-route flags *)
(* ===================================================================== *)

Module ModJs.

(** What [Route] stores: the handler and the two flags, of which only the
    truthiness is ever read. *)
Record MethodEntry : Type := mkEntry {
  handler : Handler;
  verify : bool;
  sign : bool
}.

Record Router : Type := mkRouter {
  DEFAULT_HEADERS : Headers;
  API_PREFIX : option string;
  AUTH_VERIFY : option VerifyHook;
  AUTH_SIGN : option ResponseHook;
  ROUTER_MAP : gmap string (gmap string MethodEntry)
}.

Definition set_ROUTER_MAP (m : gmap string (gmap string MethodEntry)) (R : Router) : Router :=
  mkRouter (DEFAULT_HEADERS R) (API_PREFIX R) (AUTH_VERIFY R) (AUTH_SIGN R) m.

Definition set_DEFAULT_HEADERS (h : Headers) (R : Router) : Router :=
  mkRouter h (API_PREFIX R) (AUTH_VERIFY R) (AUTH_SIGN R) (ROUTER_MAP R).

Definition initial : Router :=
  mkRouter
    (<["Access-Control-Allow-Origin" := "*"]>
     (<["Access-Control-Allow-Headers" :=
          "Origin, Referer, Content-Type, Content-SHA256, Content-Filename, Content-Duration, Accept, Authorization, User-Agent, Cache-Control, X-Api-Key"]>
      (<["Access-Control-Allow-Methods" := "GET, OPTION, POST, PUT, DELETE, PATCH, TEST"]>
       (<["Access-Control-Expose-Headers" := "Authorization, Content-SHA256"]>
        (<["Access-Control-Allow-Credentials" := "true"]>
         (<["Access-Control-Max-Age" := "300"]> ∅))))))
    None None None ∅.

(** [static Route(path, method, handler, { verify, sign } = {})]: no check
    of any kind. *)
Definition Route (path method : string) (handler : Handler) (verify sign : bool)
  : Js Router unit :=
  modify (fun R =>
    set_ROUTER_MAP
      (<[path := <[method := mkEntry handler verify sign]>
                   (default ∅ (ROUTER_MAP R !! path))]>
         (ROUTER_MAP R))
      R).

Record RunOptions : Type := mkRunOptions {
  port : option Z;
  auth_verify : option VerifyHook;
  auth_sign : option ResponseHook;
  default_headers : option Headers;
  api_prefix : option string
}.

Definition Run (o : RunOptions) : Js Router unit :=
  modify (fun R =>
    mkRouter (default (DEFAULT_HEADERS R) (default_headers o))
             (match api_prefix o with Some p => Some p | None => API_PREFIX R end)
             (match auth_verify o with Some f => Some f | None => AUTH_VERIFY R end)
             (match auth_sign o with Some f => Some f | None => AUTH_SIGN R end)
             (ROUTER_MAP R)).

Definition Object_assign_DEFAULT_HEADERS (key value : string) : Js Router Headers :=
  do! modify (fun R => set_DEFAULT_HEADERS (<[key := value]> (DEFAULT_HEADERS R)) R) in
  gets DEFAULT_HEADERS.

Definition on_error (e : JsError) : Js Router Response :=
  match e with
  | CustomError msg httpStatusCode =>
      let! h := Object_assign_DEFAULT_HEADERS "Content-Type" "text/plain" in
      lift (new_Response (Some msg) httpStatusCode h)
  | Error msg =>
      do! emit (ConsoleError e) in
      let! h := gets DEFAULT_HEADERS in
      lift (new_Response (Some msg) 500%Z h)
  end.

(** The hook a flag selects: [flag && Router.#AUTH_...]. *)
Definition selected {F} (flag : bool) (hook : option F) : option F :=
  if flag then hook else None.

(** The second half of the [try] block. *)
Definition respond (entry : MethodEntry) (req : Request) (responseHeaders : Headers)
    (result : JsValue) : Js Router Response :=
  let! response := lift (encode result (responseStatus req) responseHeaders) in
  let! auth_sign := gets AUTH_SIGN in
  let! response :=
    match selected (sign entry) auth_sign with
    | Some hook => call_sign hook response result
    | None => ret response
    end in
  ret response.

(** The [try] block, for the entry the lookup found. *)
Definition process `{Platform} (entry : MethodEntry) (req : Request) : Js Router Response :=
  let! responseHeaders := gets DEFAULT_HEADERS in      (* structuredClone *)
  let! auth_verify := gets AUTH_VERIFY in
  let! user :=
    match selected (verify entry) auth_verify with
    | Some hook => call_verify hook req
    | None => ret VNull
    end in
  let! result := decode_and_handle (handler entry) user req in
  respond entry req responseHeaders result.

(** The [try] block for a value found on the prototype. *)
Definition process_inherited `{Platform} (req : Request) : Js Router Response :=
  let! responseHeaders := gets DEFAULT_HEADERS in      (* structuredClone *)
  let! result := decode_and_fail req in
  lift (encode result (responseStatus req) responseHeaders).

Definition on_request `{Platform} (req : Request) : Js Router Response :=
  let! prefix := gets API_PREFIX in
  let! U := lift (request_URL prefix req) in
  if method req =? "OPTIONS" then
    let! h := gets DEFAULT_HEADERS in
    lift (new_Response None 200%Z h)
  else
    let path := route_key U in
    let! map := gets ROUTER_MAP in
    match map !! path with
    | None =>
        let! h := gets DEFAULT_HEADERS in
        lift (new_Response (Some ("Request path " +:+ path +:+ " does not exist")) 404%Z h)
    | Some methods =>
        match Object_get methods (method req) with
        | Undefined =>
            let! h := gets DEFAULT_HEADERS in
            lift (new_Response
                    (Some ("Request method " +:+ method req +:+ " does not exist on path "
                           +:+ path)) 405%Z h)
        | Own entry => try_catch (process entry req) on_error
        | Inherited => try_catch (process_inherited req) on_error
        end
    end.

Definition matched `{Platform} (R : Router) (req : Request) (entry : MethodEntry) : Prop :=
  method req <> "OPTIONS" /\
  exists U methods,
    request_URL (API_PREFIX R) req = Normal U /\
    ROUTER_MAP R !! route_key U = Some methods /\
    methods !! method req = Some entry.

(** The verify step of [process] ends normally and leaves [user]. *)
Definition verified (R : Router) (entry : MethodEntry) (req : Request) (user : JsValue)
  : Prop :=
  match selected (verify entry) (AUTH_VERIFY R) with
  | Some hook => hook req = Normal user
  | None => user = VNull
  end.

(** The sign hook selected for [entry] completes on this request: on the
    encoded response and the handler's result. *)
Definition hooks_complete_on (R : Router) (entry : MethodEntry) (encoded : Response)
    (result : JsValue) : Prop :=
  match selected (sign entry) (AUTH_SIGN R) with
  | Some s => exists h, s encoded result = Normal h
  | None => True
  end.

(** [Router.#ROUTER_MAP[path][method]] as a read. *)
Definition lookup_entry (R : Router) (path method : string) : option MethodEntry :=
  ROUTER_MAP R !! path ≫= (.!! method).

(** The trace the verify step leaves. *)
Definition verify_trace (R : Router) (entry : MethodEntry) (req : Request) : list Event :=
  match selected (verify entry) (AUTH_VERIFY R) with
  | Some _ => [CallVerify req]
  | None => []
  end.

End ModJs.

(* ===================================================================== *)
(** ** A concrete platform and concrete routers, for the examples *)
(* ===================================================================== *)

Definition is_alpha (c : ascii) : bool :=
  let n := nat_of_ascii c in
  ((65 <=? n) && (n <=? 90) || (97 <=? n) && (n <=? 122))%nat.

Definition is_scheme_char (c : ascii) : bool :=
  let n := nat_of_ascii c in
  is_alpha c || ((48 <=? n) && (n <=? 57))%nat
  || Ascii.eqb c "+" || Ascii.eqb c "-" || Ascii.eqb c ".".

Definition is_slash (c : ascii) : bool := Ascii.eqb c "/" || Ascii.eqb c "\".

(** The scheme of an absolute URL and what follows its colon. *)
Definition parse_scheme (s : string) : option (string * string) :=
  match s with
  | String c _ =>
      if is_alpha c then
        match string_break (fun c => negb (is_scheme_char c)) s with
        | (scheme, String ":" rest) => Some (scheme, rest)
        | _ => None
        end
      else None
  | EmptyString => None
  end.

Definition is_special (scheme : string) : bool :=
  (scheme =? "http") || (scheme =? "https") || (scheme =? "ws") || (scheme =? "wss")
  || (scheme =? "ftp").

(** [name=value] pairs separated by [&]. *)
Definition parse_query (q : string) : list (string * string) :=
  if q =? EmptyString then []
  else map (fun kv => let '(k, v) := string_break (Ascii.eqb "=") kv in (k, string_drop 1 v))
           (String_split "&" q).

(** A URL parser for the plain cases: a string without a scheme is
    refused (there is no base URL), and so is a special-scheme URL without
    a host; path and query are cut at [?] and [#].  Dot segments,
    percent-encoding, credentials and ports are left as written. *)
Definition simple_URL (s : string) : Completion URL :=
  match parse_scheme s with
  | None => Throw (Error "Invalid URL")
  | Some (scheme, rest) =>
      let '(hier, q) := string_break (Ascii.eqb "?") (string_break (Ascii.eqb "#") rest).1 in
      let query := parse_query (string_drop 1 q) in
      if is_special scheme then
        let '(authority, path) := string_break is_slash (string_drop_while is_slash hier) in
        if authority =? EmptyString then Throw (Error "Invalid URL")
        else Normal (mkURL (if path =? EmptyString then "/" else path) query)
      else if String.prefix "//" hier then
        Normal (mkURL (string_break (Ascii.eqb "/") (string_drop 2 hier)).2 query)
      else Normal (mkURL hier query)
  end.

Definition simple_platform : Platform :=
  {| URL_new := simple_URL; not_a_function := "handler is not a function" |}.


(** Hooks and handlers used by the examples. *)
Definition list_users : Handler := fun _ _ _ => Normal (VString "alice,bob").
Definition create_user : Handler := fun _ _ _ => Normal (VString "created").
Definition update_user : Handler := fun _ _ _ => Normal (VString "updated").
Definition count_users : Handler := fun _ _ _ => Normal (VNumber 2).
Definition teapot : Handler := fun _ _ _ => Throw (CustomError "short and stout" 99).
Definition forbid : VerifyHook := fun _ => Throw (CustomError "Forbidden" 403).
Definition allow : VerifyHook := fun _ => Normal (VString "alice").
Definition add_token : ResponseHook :=
  fun r _ => Normal (<["Authorization" := "token"]> (headers r)).
Definition set_cookie : ResponseHook :=
  fun r _ => Normal (<["Set-Cookie" := "sid=1"]> (headers r)).

(** Requests used by the examples. *)
Definition get_users : Request :=
  mkRequest "GET" "http://localhost:8000/users?page=2" None None None None.
Definition get_count : Request :=
  mkRequest "GET" "http://localhost:8000/count" None None None None.
Definition get_admin : Request :=
  mkRequest "GET" "http://localhost:8000/admin" None None None None.
Definition options_users : Request :=
  mkRequest "OPTIONS" "http://localhost:8000/users" None None None None.
Definition put_user : Request :=
  mkRequest "PUT" "http://localhost:8000/users/7" (Some "text/plain") None (Some "bob") None.
Definition post_user : Request :=
  mkRequest "POST" "http://localhost:8000/users" (Some "text/plain") None (Some "carol") None.
Definition post_bad_json : Request :=
  mkRequest "POST" "http://localhost:8000/users" (Some "application/json") None
            (Some "{oops") None.
Definition post_charset : Request :=
  mkRequest "POST" "http://localhost:8000/users" (Some "application/json; charset=utf-8")
            (Some (VString "carol")) (Some "carol") None.
Definition post_login : Request :=
  mkRequest "POST" "http://localhost:8000/login" (Some "text/plain") None (Some "secret") None.
Definition get_api_users : Request :=
  mkRequest "GET" "http://localhost:8000/api/users" None None None None.
Definition get_teapot : Request :=
  mkRequest "GET" "http://localhost:8000/teapot" None None None None.
Definition constructor_users : Request :=
  mkRequest "constructor" "http://localhost:8000/users" None None None None.

Module PerRouteDemo.
Import PerRoute.

Definition guarded : RouteOptions := mkOptions (Function forbid) Falsy Falsy VUndefined.
Definition session : RouteOptions :=
  mkOptions (Function allow) (Function add_token) (Function set_cookie) VUndefined.

(** The configuration calls of a small application. *)
Definition configure : Js Router unit :=
  do! Route "/users" "GET" list_users no_options in
  do! Route "/users" "POST" create_user no_options in
  do! Route "/users" "PUT" update_user no_options in
  do! Route "/count" "GET" count_users no_options in
  do! Route "/teapot" "GET" teapot no_options in
  do! Route "/admin" "GET" list_users guarded in
  Route "/login" "POST" create_user session.

Definition registered : Router := statics (configure initial []).

(** The same application behind a prefix that is a whole origin. *)
Definition prefixed : Router :=
  statics (Run (mkRunOptions None None (Some "http://localhost:8000/api")) registered []).

Definition guarded_entry : MethodEntry := mkEntry list_users (Some forbid) None None VUndefined.
Definition session_entry : MethodEntry :=
  mkEntry create_user (Some allow) (Some add_token) (Some set_cookie) VUndefined.
Definition plain_entry (h : Handler) : MethodEntry := mkEntry h None None None VUndefined.
End PerRouteDemo.

Module ModJsDemo.
Import ModJs.

Definition configure : Js Router unit :=
  do! Route "/users" "GET" list_users false false in
  do! Route "/users" "POST" create_user false false in
  do! Route "/users" "PUT" update_user false false in
  do! Route "/count" "GET" count_users false false in
  do! Route "/teapot" "GET" teapot false false in
  do! Route "/admin" "GET" list_users true false in
  do! Route "/login" "POST" create_user true true in
  Run (mkRunOptions None (Some forbid) (Some add_token) None None).

Definition registered : Router := statics (configure initial []).

(** The same application with a verify hook that lets everybody in. *)
Definition trusting : Router :=
  statics (Run (mkRunOptions None (Some allow) None None None) registered []).


Definition prefixed : Router :=
  statics (Run (mkRunOptions None None None None (Some "http://localhost:8000/api"))
               registered []).
End ModJsDemo.

(* ===================================================================== *)
(** ** Vocabulary for the properties beyond the claims *)
(* ===================================================================== *)

(** The character [c] occurs in [s]. *)
Fixpoint string_has (c : ascii) (s : string) : bool :=
  match s with
  | EmptyString => false
  | String x s' => Ascii.eqb x c || string_has c s'
  end.

(** The string [pat] occurs in [s], at some position. *)
Fixpoint occurs (pat s : string) : bool :=
  String.prefix pat s
  || match s with
     | EmptyString => false
     | String _ s' => occurs pat s'
     end.

(** The place of an event in the dispatcher's pipeline. *)
Definition stage (ev : Event) : nat :=
  match ev with
  | CallVerify _ => 0
  | ReadBody _ => 1
  | CallHandler _ _ _ => 2
  | CallSign _ _ => 3
  | CallLogin _ _ => 4
  | ConsoleError _ => 5
  end.

(** The stages of a trace go strictly up: every step happens at most once
    and in the order verify, read, handler, sign, login, log. *)
Fixpoint in_pipeline_order (t : list Event) : bool :=
  match t with
  | a :: rest =>
      match rest with
      | b :: _ => (stage a <? stage b)%nat && in_pipeline_order rest
      | [] => true
      end
  | [] => true
  end.

(** The calls made to a verify hook, and the errors logged, in order. *)
Definition verify_calls (t : list Event) : list Request :=
  omap (fun ev => match ev with CallVerify r => Some r | _ => None end) t.
Definition logged (t : list Event) : list JsError :=
  omap (fun ev => match ev with ConsoleError e => Some e | _ => None end) t.

(** The listener calls the closure once per request; taken one after the
    other, the requests leave these statics. *)
Definition PerRoute_after_requests `{Platform} (R : PerRoute.Router) (reqs : list Request)
  : PerRoute.Router :=
  fold_left (fun R req => statics (PerRoute.on_request req R [])) reqs R.

Definition ModJs_after_requests `{Platform} (R : ModJs.Router) (reqs : list Request)
  : ModJs.Router :=
  fold_left (fun R req => statics (ModJs.on_request req R [])) reqs R.

(** The header template after the [CustomError] branch has written to it. *)
Definition with_text_type (h : Headers) : Headers := <["Content-Type" := "text/plain"]> h.

(** More requests and handlers for the examples. *)
Definition post_json : Request :=
  mkRequest "POST" "http://localhost:8000/users" (Some "application/json")
            (Some (VString "dave")) (Some "dave") None.
Definition get_boom : Request :=
  mkRequest "GET" "http://localhost:8000/boom" None None None None.
Definition get_strict : Request :=
  mkRequest "GET" "http://localhost:8000/strict" None None None None.
Definition boom : Handler := fun _ _ _ => Throw (Error "boom").
Definition strict : Handler := fun _ _ _ => Throw (CustomError_new "Bad input" None).

(** A stretch of trace that is in pipeline order and stays within the
    stages [lo] (included) to [hi] (excluded). *)
Definition within (lo hi : nat) (t : list Event) : Prop :=
  in_pipeline_order t = true /\ Forall (fun ev => (lo <= stage ev < hi)%nat) t.

(** The computation [m] only appends to the trace, and what it appends is
    such a stretch. *)
Definition appends {S A} (lo hi : nat) (m : Js S A) : Prop :=
  forall s t, exists ext, trace (m s t) = t ++ ext /\ within lo hi ext.

(** The computation [m] leaves the statics as they are, and its outcome
    and trace depend on them through [view] only. *)
Definition observes {S V A} (view : S -> V) (m : Js S A) : Prop :=
  forall s s' t, view s = view s' -> m s' t = (outcome (m s t), s', trace (m s t)).

(** The outcome and the trace of [m] depend on the statics through [view]
    only; [m] may write to them. *)
Definition answers_by {S V A} (view : S -> V) (m : Js S A) : Prop :=
  forall s s' t, view s = view s' ->
    outcome (m s' t) = outcome (m s t) /\ trace (m s' t) = trace (m s t).


(** The first occurrence of [pat] in [s] starts at position [n]. *)
Fixpoint first_at (n : nat) (pat s : string) : bool :=
  match n with
  | O => String.prefix pat s
  | S n' =>
      negb (String.prefix pat s)
      && match s with
         | EmptyString => false
         | String _ s' => first_at n' pat s'
         end
  end.

(** The three rows of the decoder table in which the body decodes: the
    read that is made and the payload the handler gets. *)
Definition decoded (req : Request) (k : BodyKind) (d : Payload) : Prop :=
  (content_type req = Some "application/json" /\ k = AsJson /\
   exists v, json req = Some v /\ d = PJson v) \/
  (content_type req = Some "text/plain" /\ k = AsText /\
   exists s, text req = Some s /\ d = PText s) \/
  (content_type req = Some "multipart/form-data" /\ k = AsFormData /\
   exists f, formData req = Some f /\ d = PFormData f).

(** The entry of the variant with per-route hooks that does what an entry
    of mod.js does under the hooks given to [Run]: the selected verify
    hook as the route's own, and the selected sign hook in the place of
    [login], the hook that is handed the handler's result. *)
Definition as_per_route_entry (R : ModJs.Router) (e : ModJs.MethodEntry)
  : PerRoute.MethodEntry :=
  PerRoute.mkEntry (ModJs.handler e)
    (ModJs.selected (ModJs.verify e) (ModJs.AUTH_VERIFY R)) None
    (ModJs.selected (ModJs.sign e) (ModJs.AUTH_SIGN R)) VUndefined.

Definition as_per_route (R : ModJs.Router) : PerRoute.Router :=
  PerRoute.mkRouter (ModJs.DEFAULT_HEADERS R) (ModJs.API_PREFIX R)
    ((fun methods : gmap string ModJs.MethodEntry => as_per_route_entry R <$> methods)
       <$> ModJs.ROUTER_MAP R).

(** The call of the login hook, read as a call of the sign hook. *)
Definition login_as_sign (ev : Event) : Event :=
  match ev with CallLogin r a => CallSign r a | _ => ev end.

(** The run [x] of mod.js and the run [y] of the other variant agree. *)
Definition agree {A} (x : Completion A * ModJs.Router * list Event)
    (y : Completion A * PerRoute.Router * list Event) : Prop :=
  outcome x = outcome y /\ as_per_route (statics x) = statics y /\
  trace x = map login_as_sign (trace y).

(** What the [try] block of mod.js reads of the statics. *)
Definition mod_view (R : ModJs.Router) :=
  (ModJs.DEFAULT_HEADERS R, ModJs.AUTH_VERIFY R, ModJs.AUTH_SIGN R).

(** A request whose host contains the characters of a prefix. *)
Definition get_api_host : Request :=
  mkRequest "GET" "http://api.example.com/api/users" None None None None.

(** Applications whose handlers fail, and one of mod.js whose routes are
    flagged while [Run] was given no hook. *)
Definition PerRoute_failing : PerRoute.Router :=
  statics ((do! PerRoute.Route "/boom" "GET" boom PerRoute.no_options in
            PerRoute.Route "/strict" "GET" strict PerRoute.no_options) PerRoute.initial []).

Definition ModJs_failing : ModJs.Router :=
  statics ((do! ModJs.Route "/boom" "GET" boom false false in
            ModJs.Route "/strict" "GET" strict false false) ModJs.initial []).

Definition ModJs_hookless : ModJs.Router :=
  statics (ModJs.Route "/admin" "GET" list_users true true ModJs.initial []).

(** The statics of the example application after a [CustomError]. *)
Definition PerRoute_written : PerRoute.Router :=
  PerRoute.set_DEFAULT_HEADERS
    (with_text_type (PerRoute.DEFAULT_HEADERS PerRouteDemo.registered)) PerRouteDemo.registered.

(** A sign hook that fails, and an application that attaches it. *)
Definition refuse : ResponseHook := fun _ _ => Throw (Error "no key").

Definition unsigned_entry : PerRoute.MethodEntry :=
  PerRoute.mkEntry create_user None (Some refuse) (Some set_cookie) VUndefined.

Definition PerRoute_unsigned : PerRoute.Router :=
  statics (PerRoute.Route "/login" "POST" create_user
             (PerRoute.mkOptions Falsy (Function refuse) (Function set_cookie) VUndefined)
             PerRoute.initial []).

(* ===================================================================== *)
(** ** Facts about the shared blocks *)
(* ===================================================================== *)

Ltac run_js :=
  cbv [bind try_catch gets ret throw lift emit modify
       call_verify call_handler call_sign call_login read_body
       outcome statics trace fst snd] in *.

Lemma Headers_has_insert (h : Headers) k v name :
  String_toLowerCase k = name -> Headers_has (<[k := v]> h) name = true.
Proof.
  intros Hk. unfold Headers_has. apply existsb_exists. exists (k, v). split.
  - apply list_elem_of_In, elem_of_map_to_list, lookup_insert_eq.
  - cbn. rewrite Hk. apply String.eqb_refl.
Qed.

(** A response built with an explicit content type keeps its headers. *)
Lemma Response_headers_typed b (h : Headers) v :
  Response_headers b (<["Content-Type" := v]> h) = <["Content-Type" := v]> h.
Proof.
  unfold Response_headers. rewrite (Headers_has_insert h "Content-Type" v "content-type" eq_refl).
  now rewrite andb_false_r.
Qed.

Lemma Response_headers_null h : Response_headers None h = h.
Proof. reflexivity. Qed.

Lemma new_Response_accepted b s h :
  status_accepted b s = true ->
  new_Response b s h = Normal (mkResponse b (s mod 65536)%Z (Response_headers b h)).
Proof.
  unfold status_accepted, new_Response. cbv zeta.
  intros [Hr Hn]%andb_true_iff. rewrite Hr. cbn [negb].
  apply negb_true_iff in Hn. now rewrite Hn.
Qed.

Lemma new_Response_refused b s h :
  status_accepted b s = false -> exists e, new_Response b s h = Throw e.
Proof.
  unfold status_accepted, new_Response. cbv zeta.
  destruct (_ || _)%bool; cbn [negb andb]; [|eauto].
  intros ->%negb_false_iff. eauto.
Qed.

Lemma responseStatus_mod req : (responseStatus req mod 65536)%Z = responseStatus req.
Proof. unfold responseStatus. destruct (method req =? "POST"); reflexivity. Qed.

Lemma handler_calls_app t1 t2 : handler_calls (t1 ++ t2) = handler_calls t1 ++ handler_calls t2.
Proof. apply omap_app. Qed.

Lemma body_reads_app t1 t2 : body_reads (t1 ++ t2) = body_reads t1 ++ body_reads t2.
Proof. apply omap_app. Qed.

Lemma hook_calls_app t1 t2 : hook_calls (t1 ++ t2) = hook_calls t1 ++ hook_calls t2.
Proof. apply omap_app. Qed.

Lemma only_reads_handler_calls t : only_reads t -> handler_calls t = [].
Proof. induction 1 as [|ev t [k ->] _ IH]; [reflexivity|exact IH]. Qed.

Lemma only_reads_hook_calls t : only_reads t -> hook_calls t = [].
Proof. induction 1 as [|ev t [k ->] _ IH]; [reflexivity|exact IH]. Qed.

Lemma quiet_handler_calls t : quiet t -> handler_calls t = [].
Proof. induction 1 as [|[] t Hev _ IH]; try done. Qed.

Lemma quiet_body_reads t : quiet t -> body_reads t = [].
Proof. induction 1 as [|[] t Hev _ IH]; try done. Qed.

(** The status the encoder gives: the default one, except for a response
    the handler built itself. *)
Lemma encode_status v st hd r :
  encode v st hd = Normal r ->
  (st mod 65536)%Z = st ->
  status r = match v with VResponse r0 => status r0 | _ => st end.
Proof.
  intros He Hst. unfold encode, new_Response in He. cbv zeta in He. rewrite Hst in He.
  destruct v as [| | | | | | | | | |[b|e]]; try discriminate;
    repeat match type of He with
           | (if ?c then _ else _) = _ => destruct c; try discriminate
           end; now inversion He.
Qed.

(** The fallback branch of the encoder. *)
Lemma encode_no_processor v st hd :
  typeof v = "number" \/ typeof v = "symbol" \/ typeof v = "function" ->
  encode v st hd = Throw (Error "Return type of controller has no defined processor").
Proof. destruct v; cbn; intros [|[|]]; try discriminate; reflexivity. Qed.

Section Decoding.
Context `{Platform} {S : Type}.
Implicit Types (h : Handler) (p : JsValue) (req : Request) (s : S) (t : list Event).

(** The decode-and-call block either throws before the handler runs,
    having at most read the body, or calls the handler once and passes
    its completion on. *)
Lemma decode_and_handle_spec h p req s t :
  (exists reads e,
      only_reads reads /\
      decode_and_handle h p req s t = (Throw e, s, t ++ reads)) \/
  (exists reads d,
      only_reads reads /\
      decode_and_handle h p req s t = (h d p req, s, t ++ reads ++ [CallHandler d p req])).
Proof.
  unfold decode_and_handle.
  assert (Hnone : forall d, exists reads d0, only_reads reads /\
    call_handler h d p req s t = (h d0 p req, s, t ++ reads ++ [CallHandler d0 p req])).
  { intros d. exists [], d. split; [constructor|]. run_js. reflexivity. }
  assert (Hread : forall A k (r : option A) msg (f : A -> Payload),
    (exists reads e, only_reads reads /\
       bind (read_body k r msg) (fun a => call_handler h (f a) p req) s t
       = (Throw e, s, t ++ reads)) \/
    (exists reads d, only_reads reads /\
       bind (read_body k r msg) (fun a => call_handler h (f a) p req) s t
       = (h d p req, s, t ++ reads ++ [CallHandler d p req]))).
  { intros A k [a|] msg f.
    - right. exists [ReadBody k], (f a). split; [repeat constructor; eauto|].
      run_js. rewrite <- app_assoc. reflexivity.
    - left. exists [ReadBody k], (CustomError_new msg (Some 400%Z)).
      split; [repeat constructor; eauto|]. run_js. reflexivity. }
  destruct (method req =? "GET").
  - destruct (URL_new (url req)) as [U|e] eqn:HU.
    + right. exists [], (PQuery (Object_fromEntries (searchParams U))).
      split; [constructor|]. run_js. reflexivity.
    + left. exists [], e. split; [constructor|]. run_js. now rewrite app_nil_r.
  - destruct (content_type req) as [ct|]; [|right; apply Hnone].
    destruct (ct =? "application/json"); [apply Hread with (f := PJson)|].
    destruct (ct =? "text/plain"); [apply Hread with (f := PText)|].
    destruct (ct =? "multipart/form-data"); [apply Hread with (f := PFormData)|].
    right; apply Hnone.
Qed.

(** A body that does not decode: the read is attempted, the matching
    [CustomError] is thrown, the handler is not called. *)
Lemma decode_failure_run h p req msg s t :
  method req <> "GET" -> decode_failure req msg ->
  exists k,
    decode_and_handle h p req s t = (Throw (CustomError msg 400), s, t ++ [ReadBody k]).
Proof.
  intros Hget Hfail. unfold decode_and_handle.
  destruct (String.eqb_spec (method req) "GET") as [|_]; [contradiction|].
  destruct Hfail as [(-> & -> & ->)|[(-> & -> & ->)|(-> & -> & ->)]]; cbn;
    eexists; reflexivity.
Qed.

(** Any other content type: the handler gets the request itself. *)
Lemma undecoded_run h p req s t :
  method req <> "GET" -> undecoded req ->
  decode_and_handle h p req s t
  = (h (PRaw req) p req, s, t ++ [CallHandler (PRaw req) p req]).
Proof.
  intros Hget (Hj & Ht & Hf). unfold decode_and_handle.
  destruct (String.eqb_spec (method req) "GET") as [|_]; [contradiction|].
  destruct (content_type req) as [ct|]; [|reflexivity].
  destruct (String.eqb_spec ct "application/json") as [->|_]; [contradiction|].
  destruct (String.eqb_spec ct "text/plain") as [->|_]; [contradiction|].
  destruct (String.eqb_spec ct "multipart/form-data") as [->|_]; [contradiction|].
  reflexivity.
Qed.
(** With no handler to call the block always throws, having at most read
    the body once. *)
Lemma decode_and_fail_spec req s t :
  exists reads e,
    only_reads reads /\ (length reads <= 1)%nat /\
    decode_and_fail req s t = (Throw e, s, t ++ reads).
Proof.
  unfold decode_and_fail, call_missing_handler.
  assert (Hnone : exists reads e, only_reads reads /\ (length reads <= 1)%nat /\
    throw (Error not_a_function) s t = (Throw e : Completion JsValue, s, t ++ reads)).
  { exists [], (Error not_a_function). rewrite app_nil_r. repeat split; [constructor|cbn; lia]. }
  assert (Hread : forall A k (r : option A) msg,
    exists reads e, only_reads reads /\ (length reads <= 1)%nat /\
      bind (read_body k r msg) (fun _ => throw (Error not_a_function)) s t
      = (Throw e : Completion JsValue, s, t ++ reads)).
  { intros A k [a|] msg; eexists [ReadBody k], _;
      (split; [repeat constructor; eauto|]); (split; [cbn; lia|]); run_js; reflexivity. }
  destruct (method req =? "GET").
  - destruct (URL_new (url req)) as [U|e] eqn:HU.
    + run_js. exists [], (Error not_a_function). rewrite app_nil_r.
      repeat split; [constructor|cbn; lia].
    + run_js. exists [], e. rewrite app_nil_r.
      repeat split; [constructor|cbn; lia].
  - destruct (content_type req) as [ct|]; [|apply Hnone].
    destruct (ct =? "application/json"); [apply Hread|].
    destruct (ct =? "text/plain"); [apply Hread|].
    destruct (ct =? "multipart/form-data"); [apply Hread|].
    apply Hnone.
Qed.




Lemma decode_and_fail_undecoded req s t :
  method req <> "GET" -> undecoded req ->
  decode_and_fail req s t = (Throw (Error not_a_function), s, t).
Proof.
  intros Hget (Hj & Ht & Hf). unfold decode_and_fail, call_missing_handler.
  destruct (String.eqb_spec (method req) "GET") as [|_]; [contradiction|].
  destruct (content_type req) as [ct|]; [|reflexivity].
  destruct (String.eqb_spec ct "application/json") as [->|_]; [contradiction|].
  destruct (String.eqb_spec ct "text/plain") as [->|_]; [contradiction|].
  destruct (String.eqb_spec ct "multipart/form-data") as [->|_]; [contradiction|].
  reflexivity.
Qed.
End Decoding.

(* ===================================================================== *)
(** ** The dispatcher with per-route hooks, step by step *)
(* ===================================================================== *)

Module PerRouteFacts.
Import PerRoute.

Section Steps.
Context `{Platform}.
Implicit Types (R : Router) (req : Request) (entry : MethodEntry) (t : list Event).

(** Past the preflight shortcut and the two lookups only the [try]
    statement is left. *)
Lemma on_request_matched R req entry t :
  matched R req entry ->
  on_request req R t = try_catch (process entry req) on_error R t.
Proof.
  intros (Hopt & U & methods & HU & Hpath & Hentry).
  unfold on_request. run_js. rewrite HU.
  destruct (String.eqb_spec (method req) "OPTIONS") as [|_]; [contradiction|].
  unfold Object_get. rewrite Hpath, Hentry. reflexivity.
Qed.

Lemma matched_unique R req entry entry' :
  matched R req entry -> matched R req entry' -> entry' = entry.
Proof.
  intros (_ & U & ms & HU & Hp & He) (_ & U' & ms' & HU' & Hp' & He'). congruence.
Qed.

(** Every request is either matched or answered without a trace and
    without a change of the statics. *)
Lemma on_request_cases R req t :
  (exists entry, matched R req entry) \/
  ((forall entry, ~ matched R req entry) /\
   (on_request req R t = try_catch (process_inherited req) on_error R t \/
    exists c, on_request req R t = (c, R, t))).
Proof.
  unfold on_request, matched, Object_get. unfold bind, gets, lift.
  destruct (request_URL (API_PREFIX R) req) as [U|e] eqn:HU;
    [|right; split; [intros ? (_ & ? & ? & [=] & _)|eauto]].
  destruct (String.eqb_spec (method req) "OPTIONS") as [|Hopt];
    [right; split; [intros ? (? & _); contradiction|eauto]|].
  destruct (ROUTER_MAP R !! route_key U) as [methods|] eqn:Hp;
    [|right; split; [intros ? (_ & ? & ? & [= <-] & ? & _); congruence|eauto]].
  destruct (methods !! method req) as [entry|] eqn:He.
  - left. exists entry. split; [assumption|]. eauto.
  - right. split; [intros ? (_ & ? & ? & [= <-] & ? & ?); congruence|].
    destruct (inherited (method req)); eauto.
Qed.

(** The [try] block for a value found on the prototype always throws,
    having at most read the body, and writes nothing. *)
Lemma process_inherited_run req R t :
  exists reads e,
    only_reads reads /\ (length reads <= 1)%nat /\
    process_inherited req R t = (Throw e, R, t ++ reads).
Proof.
  destruct (decode_and_fail_spec req R t) as (reads & e & Hr & Hl & Hd).
  exists reads, e. repeat split; [assumption..|].
  unfold process_inherited. run_js. now rewrite Hd.
Qed.

(** The three ways the first half of the [try] block can go. *)
Lemma process_cases entry req R t :
  (exists hook e,
      verify entry = Some hook /\ hook req = Throw e /\
      process entry req R t = (Throw e, R, t ++ [CallVerify req])) \/
  (exists u reads e,
      verified entry req u /\ only_reads reads /\
      process entry req R t = (Throw e, R, t ++ verify_trace entry req ++ reads)) \/
  (exists u reads d,
      verified entry req u /\ only_reads reads /\
      process entry req R t =
        bind (lift (handler entry d u req)) (respond entry req (DEFAULT_HEADERS R) u) R
             (t ++ verify_trace entry req ++ reads ++ [CallHandler d u req])).
Proof.
  unfold process, verified, verify_trace.
  destruct (verify entry) as [hook|].
  - destruct (hook req) as [u|e] eqn:Hv.
    + right.
      destruct (decode_and_handle_spec (handler entry) u req R (t ++ [CallVerify req]))
        as [(reads & e & Hr & Hd)|(reads & d & Hr & Hd)].
      * left. exists u, reads, e. repeat split; [assumption..|].
        run_js. rewrite Hv, Hd. now rewrite <- app_assoc.
      * right. exists u, reads, d. repeat split; [assumption..|].
        run_js. rewrite Hv, Hd. now rewrite <- !app_assoc.
    + left. exists hook, e. repeat split; try assumption.
      run_js. now rewrite Hv.
  - right.
    destruct (decode_and_handle_spec (handler entry) VNull req R t)
      as [(reads & e & Hr & Hd)|(reads & d & Hr & Hd)].
    + left. exists VNull, reads, e. repeat split; [assumption|].
      run_js. now rewrite Hd.
    + right. exists VNull, reads, d. repeat split; [assumption|].
      run_js. now rewrite Hd.
Qed.

(** The [catch] block, computed. *)
Lemma on_error_run e R t :
  on_error e R t =
  match e with
  | CustomError msg c =>
      let h := <["Content-Type" := "text/plain"]> (DEFAULT_HEADERS R) in
      (new_Response (Some msg) c h, set_DEFAULT_HEADERS h R, t)
  | Error msg =>
      (new_Response (Some msg) 500%Z (DEFAULT_HEADERS R), R, t ++ [ConsoleError e])
  end.
Proof. destruct e; reflexivity. Qed.

Lemma on_error_trace e R t : exists t', trace (on_error e R t) = t ++ t' /\ quiet t'.
Proof.
  rewrite on_error_run. destruct e as [msg c|msg].
  - exists []. split; [now rewrite app_nil_r|constructor].
  - exists [ConsoleError (Error msg)]. split; [reflexivity|repeat constructor].
Qed.

(** The second half of the [try] block once the encoder has produced [r]:
    sign first, login second, each seeing what the previous step left. *)
Lemma respond_encoded entry req hd u v r R t :
  encode v (responseStatus req) hd = Normal r ->
  respond entry req hd u v R t =
  match sign entry with
  | None =>
      match login entry with
      | None => (Normal r, R, t)
      | Some l =>
          (match l r v with Normal h => Normal (with_headers r h) | Throw e => Throw e end,
           R, t ++ [CallLogin r v])
      end
  | Some s =>
      match s r u with
      | Throw e => (Throw e, R, t ++ [CallSign r u])
      | Normal h =>
          match login entry with
          | None => (Normal (with_headers r h), R, t ++ [CallSign r u])
          | Some l =>
              (match l (with_headers r h) v with
               | Normal h' => Normal (with_headers (with_headers r h) h')
               | Throw e => Throw e
               end,
               R, t ++ [CallSign r u; CallLogin (with_headers r h) v])
          end
      end
  end.
Proof.
  intros He. unfold respond. run_js. rewrite He.
  destruct (sign entry) as [s|].
  - destruct (s r u) as [h|e]; [|reflexivity].
    destruct (login entry) as [l|]; [|reflexivity].
    rewrite <- app_assoc. cbn [app]. now destruct (l _ v).
  - destruct (login entry) as [l|]; [|reflexivity]. now destruct (l r v).
Qed.

Lemma respond_refused entry req hd u v e R t :
  encode v (responseStatus req) hd = Throw e ->
  respond entry req hd u v R t = (Throw e, R, t).
Proof. intros He. unfold respond. run_js. now rewrite He. Qed.

Lemma respond_trace entry req hd u v R t :
  exists t', trace (respond entry req hd u v R t) = t ++ t' /\ quiet t' /\
             statics (respond entry req hd u v R t) = R.
Proof.
  destruct (encode v (responseStatus req) hd) as [r|e] eqn:He.
  - rewrite (respond_encoded _ _ _ _ _ _ _ _ He).
    destruct (sign entry) as [s|]; [destruct (s r u)|]; destruct (login entry);
      first [ exists []; rewrite app_nil_r; repeat split; constructor
            | eexists; repeat split; repeat constructor ].
  - rewrite (respond_refused _ _ _ _ _ _ _ _ He). exists [].
    rewrite app_nil_r. repeat split. constructor.
Qed.

(** After the handler has been called, nothing calls it again or reads
    the body. *)
Lemma after_handler entry req hd u (c : Completion JsValue) R t :
  exists t',
    trace (try_catch (bind (lift c) (respond entry req hd u)) on_error R t) = t ++ t' /\
    quiet t'.
Proof.
  destruct c as [v|e].
  - destruct (respond_trace entry req hd u v R t) as (t1 & Ht1 & Hq1 & Hs1).
    unfold try_catch, bind, lift.
    destruct (respond entry req hd u v R t) as [[[r|e] R'] t'] eqn:Hr;
      cbn [trace snd fst statics] in *; subst.
    + eauto.
    + destruct (on_error_trace e R (t ++ t1)) as (t2 & Ht2 & Hq2).
      exists (t1 ++ t2). rewrite Ht2, app_assoc. split; [reflexivity|].
      now apply Forall_app.
  - unfold try_catch, bind, lift. apply on_error_trace.
Qed.
End Steps.
End PerRouteFacts.

Module PerRouteRuns.
Import PerRoute PerRouteFacts.

Section Runs.
Context `{Platform}.
Implicit Types (R : Router) (req : Request) (entry : MethodEntry) (t : list Event).

Lemma verify_trace_calls entry req :
  handler_calls (verify_trace entry req) = [] /\ hook_calls (verify_trace entry req) = []
  /\ body_reads (verify_trace entry req) = [].
Proof. unfold verify_trace. now destruct (verify entry). Qed.

(** The run of a matched request, from an empty trace. *)
Lemma matched_cases R req entry :
  matched R req entry ->
  (exists hook e,
      verify entry = Some hook /\ hook req = Throw e /\
      on_request req R [] = on_error e R [CallVerify req]) \/
  (exists u reads e,
      verified entry req u /\ only_reads reads /\
      on_request req R [] = on_error e R (verify_trace entry req ++ reads)) \/
  (exists u reads d,
      verified entry req u /\ only_reads reads /\
      on_request req R [] =
        try_catch (bind (lift (handler entry d u req))
                        (respond entry req (DEFAULT_HEADERS R) u)) on_error R
          (verify_trace entry req ++ reads ++ [CallHandler d u req])).
Proof.
  intros Hm. rewrite (on_request_matched _ _ _ _ Hm).
  destruct (process_cases entry req R [])
    as [(hook & e & Hv & Hh & Hp)|[(u & reads & e & Hv & Hr & Hp)|(u & reads & d & Hv & Hr & Hp)]].
  - left. exists hook, e. repeat split; try assumption.
    unfold try_catch. now rewrite Hp.
  - right; left. exists u, reads, e. repeat split; try assumption.
    unfold try_catch. now rewrite Hp.
  - right; right. exists u, reads, d. repeat split; try assumption.
    unfold try_catch. now rewrite Hp.
Qed.

(** A call of the handler recorded in the trace pins the run down: it is
    the only call, it got the verify result and the request, and what
    follows it is the second half of the [try] block. *)
Lemma handled R req entry d p r :
  matched R req entry ->
  In (d, p, r) (handler_calls (trace (on_request req R []))) ->
  r = req /\ verified entry req p /\
  handler_calls (trace (on_request req R [])) = [(d, p, req)] /\
  exists T,
    handler_calls T = [(d, p, req)] /\ hook_calls T = [] /\
    on_request req R [] =
      try_catch (bind (lift (handler entry d p req))
                      (respond entry req (DEFAULT_HEADERS R) p)) on_error R T.
Proof.
  intros Hm Hin.
  destruct (matched_cases R req entry Hm)
    as [(hook & e & Hv & Hh & Hp)|[(u & reads & e & Hv & Hr & Hp)|(u & reads & d0 & Hv & Hr & Hp)]].
  - exfalso. rewrite Hp in Hin.
    destruct (on_error_trace e R [CallVerify req]) as (t' & -> & Hq) in Hin.
    rewrite handler_calls_app, (quiet_handler_calls _ Hq) in Hin. exact Hin.
  - exfalso. rewrite Hp in Hin.
    destruct (on_error_trace e R (verify_trace entry req ++ reads)) as (t' & -> & Hq) in Hin.
    destruct (verify_trace_calls entry req) as (Hc & _ & _).
    rewrite !handler_calls_app, Hc, (only_reads_handler_calls _ Hr),
      (quiet_handler_calls _ Hq) in Hin. exact Hin.
  - set (T := verify_trace entry req ++ reads ++ [CallHandler d0 u req]) in *.
    destruct (verify_trace_calls entry req) as (Hc & Hk & _).
    assert (HT : handler_calls T = [(d0, u, req)]).
    { unfold T. now rewrite !handler_calls_app, Hc, (only_reads_handler_calls _ Hr). }
    assert (HK : hook_calls T = []).
    { unfold T. now rewrite !hook_calls_app, Hk, (only_reads_hook_calls _ Hr). }
    destruct (after_handler entry req (DEFAULT_HEADERS R) u (handler entry d0 u req) R T)
      as (t' & Ht' & Hq).
    rewrite Hp, Ht', handler_calls_app, HT, (quiet_handler_calls _ Hq) in Hin.
    destruct Hin as [[= <- <- <-]|[]].
    repeat split; try assumption.
    + now rewrite Hp, Ht', handler_calls_app, HT, (quiet_handler_calls _ Hq).
    + exists T. repeat split; assumption.
Qed.

(** The run of a matched request the decoder leaves alone. *)
Lemma undecoded_matched R req entry :
  matched R req entry ->
  method req <> "GET" ->
  undecoded req ->
  (exists hook e,
      verify entry = Some hook /\ hook req = Throw e /\
      on_request req R [] = on_error e R [CallVerify req]) \/
  (exists u,
      verified entry req u /\
      on_request req R [] =
        try_catch (bind (lift (handler entry (PRaw req) u req))
                        (respond entry req (DEFAULT_HEADERS R) u)) on_error R
          (verify_trace entry req ++ [CallHandler (PRaw req) u req])).
Proof.
  intros Hm Hget Hun. rewrite (on_request_matched _ _ _ _ Hm).
  unfold process, verified, verify_trace, try_catch. run_js.
  destruct (verify entry) as [hook|].
  - destruct (hook req) as [u|e] eqn:Hh.
    + right. exists u. split; [reflexivity|].
      now rewrite (undecoded_run _ _ _ _ _ Hget Hun).
    + left. exists hook, e. auto.
  - right. exists VNull. split; [reflexivity|].
    now rewrite (undecoded_run _ _ _ _ _ Hget Hun).
Qed.

(** Whatever the request, the statics come back as they were, except
    that the [CustomError] branch of the [catch] block has written a
    content type into the shared header template. *)
Lemma statics_after_request R req :
  statics (on_request req R []) = R \/
  statics (on_request req R []) =
    set_DEFAULT_HEADERS (<["Content-Type" := "text/plain"]> (DEFAULT_HEADERS R)) R.
Proof.
  assert (Herr : forall e t,
    statics (on_error e R t) = R \/
    statics (on_error e R t) =
      set_DEFAULT_HEADERS (<["Content-Type" := "text/plain"]> (DEFAULT_HEADERS R)) R).
  { intros e t. rewrite on_error_run. destruct e; [right|left]; reflexivity. }
  destruct (on_request_cases R req []) as [[entry Hm]|[_ [->|[c ->]]]]; [| |now left].
  2:{ unfold try_catch.
      destruct (process_inherited_run req R []) as (reads & e & _ & _ & ->). apply Herr. }
  destruct (matched_cases R req entry Hm)
    as [(hook & e & _ & _ & ->)|[(u & reads & e & _ & _ & ->)|(u & reads & d & _ & _ & ->)]];
    [apply Herr..|].
  unfold try_catch, bind, lift.
  destruct (handler entry d u req) as [v|e]; [|apply Herr].
  destruct (respond_trace entry req (DEFAULT_HEADERS R) u v R
              (verify_trace entry req ++ reads ++ [CallHandler d u req]))
    as (t' & _ & _ & Hs).
  destruct (respond _ _ _ _ _ _ _) as [[[r|e] R'] t1]; cbn in Hs; subst R';
    [now left|apply Herr].
Qed.
End Runs.
End PerRouteRuns.

(* ===================================================================== *)
(** ** The dispatcher of mod.js, step by step *)
(* ===================================================================== *)

Module ModJsFacts.
Import ModJs.

Section Steps.
Context `{Platform}.
Implicit Types (R : Router) (req : Request) (entry : MethodEntry) (t : list Event).

Lemma mod_on_request_matched R req entry t :
  matched R req entry ->
  on_request req R t = try_catch (process entry req) on_error R t.
Proof.
  intros (Hopt & U & methods & HU & Hpath & Hentry).
  unfold on_request. run_js. rewrite HU.
  destruct (String.eqb_spec (method req) "OPTIONS") as [|_]; [contradiction|].
  unfold Object_get. rewrite Hpath, Hentry. reflexivity.
Qed.

Lemma mod_matched_unique R req entry entry' :
  matched R req entry -> matched R req entry' -> entry' = entry.
Proof.
  intros (_ & U & ms & HU & Hp & He) (_ & U' & ms' & HU' & Hp' & He'). congruence.
Qed.

Lemma mod_on_request_cases R req t :
  (exists entry, matched R req entry) \/
  ((forall entry, ~ matched R req entry) /\
   (on_request req R t = try_catch (process_inherited req) on_error R t \/
    exists c, on_request req R t = (c, R, t))).
Proof.
  unfold on_request, matched, Object_get. unfold bind, gets, lift.
  destruct (request_URL (API_PREFIX R) req) as [U|e] eqn:HU;
    [|right; split; [intros ? (_ & ? & ? & [=] & _)|eauto]].
  destruct (String.eqb_spec (method req) "OPTIONS") as [|Hopt];
    [right; split; [intros ? (? & _); contradiction|eauto]|].
  destruct (ROUTER_MAP R !! route_key U) as [methods|] eqn:Hp;
    [|right; split; [intros ? (_ & ? & ? & [= <-] & ? & _); congruence|eauto]].
  destruct (methods !! method req) as [entry|] eqn:He.
  - left. exists entry. split; [assumption|]. eauto.
  - right. split; [intros ? (_ & ? & ? & [= <-] & ? & ?); congruence|].
    destruct (inherited (method req)); eauto.
Qed.

(** The [try] block for a value found on the prototype always throws,
    having at most read the body, and writes nothing. *)
Lemma mod_process_inherited_run req R t :
  exists reads e,
    only_reads reads /\ (length reads <= 1)%nat /\
    process_inherited req R t = (Throw e, R, t ++ reads).
Proof.
  destruct (decode_and_fail_spec req R t) as (reads & e & Hr & Hl & Hd).
  exists reads, e. repeat split; [assumption..|].
  unfold process_inherited. run_js. now rewrite Hd.
Qed.

Lemma mod_process_cases entry req R t :
  (exists hook e,
      selected (verify entry) (AUTH_VERIFY R) = Some hook /\ hook req = Throw e /\
      process entry req R t = (Throw e, R, t ++ [CallVerify req])) \/
  (exists u reads e,
      verified R entry req u /\ only_reads reads /\
      process entry req R t = (Throw e, R, t ++ verify_trace R entry req ++ reads)) \/
  (exists u reads d,
      verified R entry req u /\ only_reads reads /\
      process entry req R t =
        bind (lift (handler entry d u req)) (respond entry req (DEFAULT_HEADERS R)) R
             (t ++ verify_trace R entry req ++ reads ++ [CallHandler d u req])).
Proof.
  unfold process, verified, verify_trace.
  destruct (selected (verify entry) (AUTH_VERIFY R)) as [hook|] eqn:Hsel.
  - destruct (hook req) as [u|e] eqn:Hv.
    + right.
      destruct (decode_and_handle_spec (handler entry) u req R (t ++ [CallVerify req]))
        as [(reads & e & Hr & Hd)|(reads & d & Hr & Hd)].
      * left. exists u, reads, e. repeat split; [assumption..|].
        run_js. rewrite Hsel, Hv, Hd. now rewrite <- app_assoc.
      * right. exists u, reads, d. repeat split; [assumption..|].
        run_js. rewrite Hsel, Hv, Hd. now rewrite <- !app_assoc.
    + left. exists hook, e. repeat split; try assumption.
      run_js. now rewrite Hsel, Hv.
  - right.
    destruct (decode_and_handle_spec (handler entry) VNull req R t)
      as [(reads & e & Hr & Hd)|(reads & d & Hr & Hd)].
    + left. exists VNull, reads, e. repeat split; [assumption|].
      run_js. now rewrite Hsel, Hd.
    + right. exists VNull, reads, d. repeat split; [assumption|].
      run_js. now rewrite Hsel, Hd.
Qed.

Lemma mod_on_error_run e R t :
  on_error e R t =
  match e with
  | CustomError msg c =>
      let h := <["Content-Type" := "text/plain"]> (DEFAULT_HEADERS R) in
      (new_Response (Some msg) c h, set_DEFAULT_HEADERS h R, t)
  | Error msg =>
      (new_Response (Some msg) 500%Z (DEFAULT_HEADERS R), R, t ++ [ConsoleError e])
  end.
Proof. destruct e; reflexivity. Qed.

Lemma mod_on_error_trace e R t : exists t', trace (on_error e R t) = t ++ t' /\ quiet t'.
Proof.
  rewrite mod_on_error_run. destruct e as [msg c|msg].
  - exists []. split; [now rewrite app_nil_r|constructor].
  - exists [ConsoleError (Error msg)]. split; [reflexivity|repeat constructor].
Qed.

(** The second half of the [try] block once the encoder has produced [r]:
    the selected sign hook is called with the handler's result. *)
Lemma mod_respond_encoded entry req hd v r R t :
  encode v (responseStatus req) hd = Normal r ->
  respond entry req hd v R t =
  match selected (sign entry) (AUTH_SIGN R) with
  | None => (Normal r, R, t)
  | Some s =>
      (match s r v with Normal h => Normal (with_headers r h) | Throw e => Throw e end,
       R, t ++ [CallSign r v])
  end.
Proof.
  intros He. unfold respond. run_js. rewrite He.
  destruct (selected (sign entry) (AUTH_SIGN R)) as [s|]; [|reflexivity].
  now destruct (s r v).
Qed.

Lemma mod_respond_refused entry req hd v e R t :
  encode v (responseStatus req) hd = Throw e ->
  respond entry req hd v R t = (Throw e, R, t).
Proof. intros He. unfold respond. run_js. now rewrite He. Qed.

Lemma mod_respond_trace entry req hd v R t :
  exists t', trace (respond entry req hd v R t) = t ++ t' /\ quiet t' /\
             statics (respond entry req hd v R t) = R.
Proof.
  destruct (encode v (responseStatus req) hd) as [r|e] eqn:He.
  - rewrite (mod_respond_encoded _ _ _ _ _ _ _ He).
    destruct (selected (sign entry) (AUTH_SIGN R)) as [s|].
    + eexists; repeat split; repeat constructor.
    + exists []. rewrite app_nil_r. repeat split. constructor.
  - rewrite (mod_respond_refused _ _ _ _ _ _ _ He). exists [].
    rewrite app_nil_r. repeat split. constructor.
Qed.

Lemma mod_after_handler entry req hd (c : Completion JsValue) R t :
  exists t',
    trace (try_catch (bind (lift c) (respond entry req hd)) on_error R t) = t ++ t' /\
    quiet t'.
Proof.
  destruct c as [v|e].
  - destruct (mod_respond_trace entry req hd v R t) as (t1 & Ht1 & Hq1 & Hs1).
    unfold try_catch, bind, lift.
    destruct (respond entry req hd v R t) as [[[r|e] R'] t'] eqn:Hr;
      cbn [trace snd fst statics] in *; subst.
    + eauto.
    + destruct (mod_on_error_trace e R (t ++ t1)) as (t2 & Ht2 & Hq2).
      exists (t1 ++ t2). rewrite Ht2, app_assoc. split; [reflexivity|].
      now apply Forall_app.
  - unfold try_catch, bind, lift. apply mod_on_error_trace.
Qed.
End Steps.
End ModJsFacts.

Module ModJsRuns.
Import ModJs ModJsFacts.

Section Runs.
Context `{Platform}.
Implicit Types (R : Router) (req : Request) (entry : MethodEntry) (t : list Event).

Lemma mod_verify_trace_calls R entry req :
  handler_calls (verify_trace R entry req) = [] /\ hook_calls (verify_trace R entry req) = []
  /\ body_reads (verify_trace R entry req) = [].
Proof. unfold verify_trace. now destruct (selected _ _). Qed.

Lemma mod_matched_cases R req entry :
  matched R req entry ->
  (exists hook e,
      selected (verify entry) (AUTH_VERIFY R) = Some hook /\ hook req = Throw e /\
      on_request req R [] = on_error e R [CallVerify req]) \/
  (exists u reads e,
      verified R entry req u /\ only_reads reads /\
      on_request req R [] = on_error e R (verify_trace R entry req ++ reads)) \/
  (exists u reads d,
      verified R entry req u /\ only_reads reads /\
      on_request req R [] =
        try_catch (bind (lift (handler entry d u req))
                        (respond entry req (DEFAULT_HEADERS R))) on_error R
          (verify_trace R entry req ++ reads ++ [CallHandler d u req])).
Proof.
  intros Hm. rewrite (mod_on_request_matched _ _ _ _ Hm).
  destruct (mod_process_cases entry req R [])
    as [(hook & e & Hv & Hh & Hp)|[(u & reads & e & Hv & Hr & Hp)|(u & reads & d & Hv & Hr & Hp)]].
  - left. exists hook, e. repeat split; try assumption.
    unfold try_catch. now rewrite Hp.
  - right; left. exists u, reads, e. repeat split; try assumption.
    unfold try_catch. now rewrite Hp.
  - right; right. exists u, reads, d. repeat split; try assumption.
    unfold try_catch. now rewrite Hp.
Qed.

Lemma mod_handled R req entry d p r :
  matched R req entry ->
  In (d, p, r) (handler_calls (trace (on_request req R []))) ->
  r = req /\ verified R entry req p /\
  handler_calls (trace (on_request req R [])) = [(d, p, req)] /\
  exists T,
    handler_calls T = [(d, p, req)] /\ hook_calls T = [] /\
    on_request req R [] =
      try_catch (bind (lift (handler entry d p req))
                      (respond entry req (DEFAULT_HEADERS R))) on_error R T.
Proof.
  intros Hm Hin.
  destruct (mod_matched_cases R req entry Hm)
    as [(hook & e & Hv & Hh & Hp)|[(u & reads & e & Hv & Hr & Hp)|(u & reads & d0 & Hv & Hr & Hp)]].
  - exfalso. rewrite Hp in Hin.
    destruct (mod_on_error_trace e R [CallVerify req]) as (t' & -> & Hq) in Hin.
    rewrite handler_calls_app, (quiet_handler_calls _ Hq) in Hin. exact Hin.
  - exfalso. rewrite Hp in Hin.
    destruct (mod_on_error_trace e R (verify_trace R entry req ++ reads))
      as (t' & -> & Hq) in Hin.
    destruct (mod_verify_trace_calls R entry req) as (Hc & _ & _).
    rewrite !handler_calls_app, Hc, (only_reads_handler_calls _ Hr),
      (quiet_handler_calls _ Hq) in Hin. exact Hin.
  - set (T := verify_trace R entry req ++ reads ++ [CallHandler d0 u req]) in *.
    destruct (mod_verify_trace_calls R entry req) as (Hc & Hk & _).
    assert (HT : handler_calls T = [(d0, u, req)]).
    { unfold T. now rewrite !handler_calls_app, Hc, (only_reads_handler_calls _ Hr). }
    assert (HK : hook_calls T = []).
    { unfold T. now rewrite !hook_calls_app, Hk, (only_reads_hook_calls _ Hr). }
    destruct (mod_after_handler entry req (DEFAULT_HEADERS R) (handler entry d0 u req) R T)
      as (t' & Ht' & Hq).
    rewrite Hp, Ht', handler_calls_app, HT, (quiet_handler_calls _ Hq) in Hin.
    destruct Hin as [[= <- <- <-]|[]].
    repeat split; try assumption.
    + now rewrite Hp, Ht', handler_calls_app, HT, (quiet_handler_calls _ Hq).
    + exists T. repeat split; assumption.
Qed.

Lemma mod_undecoded_matched R req entry :
  matched R req entry ->
  method req <> "GET" ->
  undecoded req ->
  (exists hook e,
      selected (verify entry) (AUTH_VERIFY R) = Some hook /\ hook req = Throw e /\
      on_request req R [] = on_error e R [CallVerify req]) \/
  (exists u,
      verified R entry req u /\
      on_request req R [] =
        try_catch (bind (lift (handler entry (PRaw req) u req))
                        (respond entry req (DEFAULT_HEADERS R))) on_error R
          (verify_trace R entry req ++ [CallHandler (PRaw req) u req])).
Proof.
  intros Hm Hget Hun. rewrite (mod_on_request_matched _ _ _ _ Hm).
  unfold process, verified, verify_trace, try_catch. run_js.
  destruct (selected (verify entry) (AUTH_VERIFY R)) as [hook|].
  - destruct (hook req) as [u|e] eqn:Hh.
    + right. exists u. split; [reflexivity|].
      now rewrite (undecoded_run _ _ _ _ _ Hget Hun).
    + left. exists hook, e. auto.
  - right. exists VNull. split; [reflexivity|].
    now rewrite (undecoded_run _ _ _ _ _ Hget Hun).
Qed.

Lemma mod_statics_after_request R req :
  statics (on_request req R []) = R \/
  statics (on_request req R []) =
    set_DEFAULT_HEADERS (<["Content-Type" := "text/plain"]> (DEFAULT_HEADERS R)) R.
Proof.
  assert (Herr : forall e t,
    statics (on_error e R t) = R \/
    statics (on_error e R t) =
      set_DEFAULT_HEADERS (<["Content-Type" := "text/plain"]> (DEFAULT_HEADERS R)) R).
  { intros e t. rewrite mod_on_error_run. destruct e; [right|left]; reflexivity. }
  destruct (mod_on_request_cases R req []) as [[entry Hm]|[_ [->|[c ->]]]]; [| |now left].
  2:{ unfold try_catch.
      destruct (mod_process_inherited_run req R []) as (reads & e & _ & _ & ->). apply Herr. }
  destruct (mod_matched_cases R req entry Hm)
    as [(hook & e & _ & _ & ->)|[(u & reads & e & _ & _ & ->)|(u & reads & d & _ & _ & ->)]];
    [apply Herr..|].
  unfold try_catch, bind, lift.
  destruct (handler entry d u req) as [v|e]; [|apply Herr].
  destruct (mod_respond_trace entry req (DEFAULT_HEADERS R) v R
              (verify_trace R entry req ++ reads ++ [CallHandler d u req]))
    as (t' & _ & _ & Hs).
  destruct (respond _ _ _ _ _ _) as [[[r|e] R'] t1]; cbn in Hs; subst R';
    [now left|apply Herr].
Qed.
End Runs.
End ModJsRuns.

(* ===================================================================== *)
(** ** What the variant with per-route hooks guarantees *)
(* ===================================================================== *)

Module PerRouteResults.
Import PerRoute PerRouteFacts PerRouteRuns.

Section Results.
Context `{Platform}.
Implicit Types (R : Router) (req : Request) (entry : MethodEntry) (t : list Event).

(** The status of the response of a request whose handler returned [v]. *)
Lemma status_rule R req entry d p r v r0 :
  matched R req entry ->
  In (d, p, r) (handler_calls (trace (on_request req R []))) ->
  handler entry d p r = Normal v ->
  encode v (responseStatus req) (DEFAULT_HEADERS R) = Normal r0 ->
  hooks_complete_on entry r0 p v ->
  exists resp,
    outcome (on_request req R []) = Normal resp /\
    status resp =
      match v with
      | VResponse given => status given
      | _ => if method req =? "POST" then 201%Z else 200%Z
      end.
Proof.
  intros Hm Hin Hh He Hhooks.
  destruct (handled _ _ _ _ _ _ Hm Hin) as (-> & _ & _ & T & _ & _ & ->).
  unfold try_catch, bind at 1, lift at 1. rewrite Hh.
  rewrite (respond_encoded _ _ _ _ _ _ _ _ He).
  pose proof (encode_status _ _ _ _ He (responseStatus_mod req)) as Hst.
  fold (responseStatus req). unfold hooks_complete_on in Hhooks.
  destruct (sign entry) as [s|] eqn:Hsign.
  - destruct Hhooks as (h & -> & Hl).
    destruct (login entry) as [l|] eqn:Hlogin.
    + destruct Hl as [h' ->]. eexists; split; [reflexivity|exact Hst].
    + eexists; split; [reflexivity|exact Hst].
  - destruct (login entry) as [l|] eqn:Hlogin.
    + destruct Hhooks as [h' ->]. eexists; split; [reflexivity|exact Hst].
    + eexists; split; [reflexivity|exact Hst].
Qed.

(** An error thrown inside the [try] block becomes a response, when the
    [Response] constructor accepts its status. *)
Lemma try_errors_mapped R req entry e t :
  matched R req entry ->
  outcome (process entry req R t) = Throw e ->
  error_accepted e = true ->
  exists resp,
    outcome (on_request req R t) = Normal resp /\
    body resp = Some (message e) /\ status resp = error_status e.
Proof.
  intros Hm Hp Ha. rewrite (on_request_matched _ _ _ _ Hm). unfold try_catch.
  destruct (process entry req R t) as [[c R'] t']. cbn in Hp. subst c.
  rewrite on_error_run. destruct e as [msg c|msg]; cbn in Ha |- *.
  - rewrite (new_Response_accepted _ _ _ Ha). eexists. repeat split.
  - eexists. repeat split.
Qed.

(** A [CustomError] whose status the constructor refuses leaves the
    [catch] block as a new error. *)
Lemma refused_errors_escape R req entry msg c t :
  matched R req entry ->
  outcome (process entry req R t) = Throw (CustomError msg c) ->
  status_accepted (Some msg) c = false ->
  exists e, outcome (on_request req R t) = Throw e.
Proof.
  intros Hm Hp Ha. rewrite (on_request_matched _ _ _ _ Hm). unfold try_catch.
  destruct (process entry req R t) as [[c' R'] t']. cbn in Hp. subst c'.
  rewrite on_error_run. cbn.
  destruct (new_Response_refused _ _
              (<["Content-Type" := "text/plain"]> (DEFAULT_HEADERS R')) Ha) as [e ->].
  eauto.
Qed.

(** The URL is parsed before the [try] statement. *)
Lemma url_errors_escape R req e t :
  request_URL (API_PREFIX R) req = Throw e ->
  on_request req R t = (Throw e, R, t).
Proof. intros HU. unfold on_request. run_js. now rewrite HU. Qed.



(** Sign first, login second, on the encoded response. *)
Lemma sign_then_login R req entry d p r v response s :
  matched R req entry ->
  In (d, p, r) (handler_calls (trace (on_request req R []))) ->
  handler entry d p r = Normal v ->
  encode v (responseStatus req) (DEFAULT_HEADERS R) = Normal response ->
  sign entry = Some s ->
  verified entry req p /\
  hook_calls (trace (on_request req R [])) =
    CallSign response p ::
    match s response p, login entry with
    | Normal h, Some _ => [CallLogin (with_headers response h) v]
    | _, _ => []
    end /\
  (forall h l h',
      s response p = Normal h -> login entry = Some l ->
      l (with_headers response h) v = Normal h' ->
      outcome (on_request req R []) = Normal (with_headers (with_headers response h) h')) /\
  (forall h,
      s response p = Normal h -> login entry = None ->
      outcome (on_request req R []) = Normal (with_headers response h)).
Proof.
  intros Hm Hin Hh He Hs.
  destruct (handled _ _ _ _ _ _ Hm Hin) as (-> & Hv & _ & T & _ & HK & Hrun).
  split; [exact Hv|].
  unfold try_catch, bind, lift in Hrun. rewrite Hh in Hrun.
  rewrite (respond_encoded _ _ _ _ _ _ _ _ He), Hs in Hrun.
  destruct (s response p) as [h|e].
  - destruct (login entry) as [l|].
    + destruct (l (with_headers response h) v) as [h'|e] eqn:Hl.
      * rewrite Hrun. cbn. rewrite hook_calls_app, HK. split; [reflexivity|]. split.
        -- intros ? ? ? [= <-] [= <-]. rewrite Hl. congruence.
        -- discriminate.
      * rewrite on_error_run in Hrun. rewrite Hrun.
        assert (Hk : hook_calls
                       (T ++ [CallSign response p; CallLogin (with_headers response h) v]) =
                     [CallSign response p; CallLogin (with_headers response h) v])
          by now rewrite hook_calls_app, HK.
        destruct e; cbn; rewrite ?hook_calls_app, ?Hk, ?HK;
          (split; [reflexivity|]); (split; [|discriminate]);
          intros ? ? ? [= <-] [= <-]; rewrite Hl; discriminate.
    + rewrite Hrun. cbn. rewrite hook_calls_app, HK. split; [reflexivity|].
      split; [discriminate|]. now intros ? [= <-] _.
  - rewrite on_error_run in Hrun. rewrite Hrun.
    destruct e; cbn; rewrite ?hook_calls_app, HK; (split; [reflexivity|]);
      split; discriminate.
Qed.

(** A body that does not decode: no call of the handler, and 400 as soon
    as the verify step has completed, that is as soon as the body is read. *)
Lemma decode_failure_400 R req entry msg :
  matched R req entry ->
  method req <> "GET" ->
  decode_failure req msg ->
  handler_calls (trace (on_request req R [])) = [] /\
  (forall u, verified entry req u ->
     exists resp,
       outcome (on_request req R []) = Normal resp /\
       status resp = 400%Z /\ body resp = Some msg) /\
  (body_reads (trace (on_request req R [])) <> [] ->
     exists resp,
       outcome (on_request req R []) = Normal resp /\
       status resp = 400%Z /\ body resp = Some msg).
Proof.
  intros Hm Hget Hfail. rewrite (on_request_matched _ _ _ _ Hm).
  unfold try_catch, process, verified. run_js.
  destruct (verify entry) as [hook|].
  - destruct (hook req) as [u|e].
    + destruct (decode_failure_run (handler entry) u req msg R ([] ++ [CallVerify req])
                  Hget Hfail) as [k ->].
      split; [reflexivity|]. split; [intros ? _|intros _]; eexists; repeat split.
    + rewrite on_error_run. split; [now destruct e|]. split; [discriminate|].
      destruct e; cbn; intros Hreads; now destruct Hreads.
  - destruct (decode_failure_run (handler entry) VNull req msg R [] Hget Hfail) as [k ->].
    split; [reflexivity|]. split; [intros ? _|intros _]; eexists; repeat split.
Qed.

(** A verify hook that throws a [CustomError] with status 403. *)
Lemma verify_403 R req entry hook msg :
  matched R req entry ->
  verify entry = Some hook ->
  hook req = Throw (CustomError msg 403) ->
  exists resp,
    outcome (on_request req R []) = Normal resp /\
    status resp = 403%Z /\ body resp = Some msg /\
    handler_calls (trace (on_request req R [])) = [].
Proof.
  intros Hm Hv Hh. rewrite (on_request_matched _ _ _ _ Hm).
  unfold try_catch, process. run_js. rewrite Hv, Hh.
  eexists. repeat split.
Qed.

(** A content type the decoder does not know. *)
Lemma undecoded_raw R req :
  method req <> "GET" ->
  undecoded req ->
  body_reads (trace (on_request req R [])) = [] /\
  (forall d p r, In (d, p, r) (handler_calls (trace (on_request req R []))) -> d = PRaw req) /\
  (forall entry u, matched R req entry -> verified entry req u ->
     handler_calls (trace (on_request req R [])) = [(PRaw req, u, req)]).
Proof.
  intros Hget Hun.
  destruct (on_request_cases R req []) as [[entry Hm]|[Hno [Hc|[c Hc]]]];
    [|rewrite Hc; unfold try_catch, process_inherited; run_js;
      rewrite (decode_and_fail_undecoded req R [] Hget Hun), on_error_run; cbn;
      repeat split; try contradiction;
      intros entry u Hm; now destruct (Hno entry)|].
  - destruct (undecoded_matched R req entry Hm Hget Hun)
      as [(hook & e & Hv & Hh & Hrun)|(u & Hv & Hrun)].
    + rewrite Hrun, on_error_run.
      split; [now destruct e|]. split; [now destruct e|].
      intros entry' u Hm' Hu. rewrite (matched_unique _ _ _ _ Hm Hm') in Hu.
      unfold verified in Hu. rewrite Hv in Hu. congruence.
    + destruct (after_handler entry req (DEFAULT_HEADERS R) u
                  (handler entry (PRaw req) u req) R
                  (verify_trace entry req ++ [CallHandler (PRaw req) u req]))
        as (t' & Ht' & Hq).
      destruct (verify_trace_calls entry req) as (Hc & _ & Hb).
      rewrite Hrun, Ht', !body_reads_app, !handler_calls_app, Hc, Hb,
        (quiet_body_reads _ Hq), (quiet_handler_calls _ Hq).
      split; [reflexivity|]. split.
      * intros d p r [[= <- _ _]|[]]. reflexivity.
      * intros entry' u' Hm' Hu. rewrite (matched_unique _ _ _ _ Hm Hm') in Hu.
        unfold verified in Hv, Hu. destruct (verify entry); cbn; congruence.
  - rewrite Hc. cbn. repeat split; try contradiction.
    intros entry u Hm. now destruct (Hno entry).
Qed.

(** A result no case of the encoder covers. *)
Lemma no_processor_500 R req entry d p r v :
  matched R req entry ->
  In (d, p, r) (handler_calls (trace (on_request req R []))) ->
  handler entry d p r = Normal v ->
  typeof v = "number" \/ typeof v = "symbol" \/ typeof v = "function" ->
  exists resp,
    outcome (on_request req R []) = Normal resp /\
    status resp = 500%Z /\
    body resp = Some "Return type of controller has no defined processor".
Proof.
  intros Hm Hin Hh Hty.
  destruct (handled _ _ _ _ _ _ Hm Hin) as (-> & _ & _ & T & _ & _ & ->).
  unfold try_catch, bind at 1, lift at 1. rewrite Hh.
  rewrite (respond_refused _ _ _ _ _ _ _ _ (encode_no_processor v _ _ Hty)).
  rewrite on_error_run. eexists. repeat split.
Qed.
End Results.

End PerRouteResults.

(* ===================================================================== *)
(** ** What the variant of mod.js guarantees *)
(* ===================================================================== *)

Module ModJsResults.
Import ModJs ModJsFacts ModJsRuns.

Section Results.
Context `{Platform}.
Implicit Types (R : Router) (req : Request) (entry : MethodEntry) (t : list Event).

Lemma mod_status_rule R req entry d p r v r0 :
  matched R req entry ->
  In (d, p, r) (handler_calls (trace (on_request req R []))) ->
  handler entry d p r = Normal v ->
  encode v (responseStatus req) (DEFAULT_HEADERS R) = Normal r0 ->
  hooks_complete_on R entry r0 v ->
  exists resp,
    outcome (on_request req R []) = Normal resp /\
    status resp =
      match v with
      | VResponse given => status given
      | _ => if method req =? "POST" then 201%Z else 200%Z
      end.
Proof.
  intros Hm Hin Hh He Hs.
  destruct (mod_handled _ _ _ _ _ _ Hm Hin) as (-> & _ & _ & T & _ & _ & ->).
  unfold try_catch, bind at 1, lift at 1. rewrite Hh.
  rewrite (mod_respond_encoded _ _ _ _ _ _ _ He).
  pose proof (encode_status _ _ _ _ He (responseStatus_mod req)) as Hst.
  fold (responseStatus req). unfold hooks_complete_on in Hs.
  destruct (selected (sign entry) (AUTH_SIGN R)) as [s|] eqn:Hsign.
  - destruct Hs as [h ->]. eexists; split; [reflexivity|exact Hst].
  - eexists; split; [reflexivity|exact Hst].
Qed.

Lemma mod_try_errors_mapped R req entry e t :
  matched R req entry ->
  outcome (process entry req R t) = Throw e ->
  error_accepted e = true ->
  exists resp,
    outcome (on_request req R t) = Normal resp /\
    body resp = Some (message e) /\ status resp = error_status e.
Proof.
  intros Hm Hp Ha. rewrite (mod_on_request_matched _ _ _ _ Hm). unfold try_catch.
  destruct (process entry req R t) as [[c R'] t']. cbn in Hp. subst c.
  rewrite mod_on_error_run. destruct e as [msg c|msg]; cbn in Ha |- *.
  - rewrite (new_Response_accepted _ _ _ Ha). eexists. repeat split.
  - eexists. repeat split.
Qed.

Lemma mod_refused_errors_escape R req entry msg c t :
  matched R req entry ->
  outcome (process entry req R t) = Throw (CustomError msg c) ->
  status_accepted (Some msg) c = false ->
  exists e, outcome (on_request req R t) = Throw e.
Proof.
  intros Hm Hp Ha. rewrite (mod_on_request_matched _ _ _ _ Hm). unfold try_catch.
  destruct (process entry req R t) as [[c' R'] t']. cbn in Hp. subst c'.
  rewrite mod_on_error_run. cbn.
  destruct (new_Response_refused _ _
              (<["Content-Type" := "text/plain"]> (DEFAULT_HEADERS R')) Ha) as [e ->].
  eauto.
Qed.

Lemma mod_url_errors_escape R req e t :
  request_URL (API_PREFIX R) req = Throw e ->
  on_request req R t = (Throw e, R, t).
Proof. intros HU. unfold on_request. run_js. now rewrite HU. Qed.



Lemma mod_decode_failure_400 R req entry msg :
  matched R req entry ->
  method req <> "GET" ->
  decode_failure req msg ->
  handler_calls (trace (on_request req R [])) = [] /\
  (forall u, verified R entry req u ->
     exists resp,
       outcome (on_request req R []) = Normal resp /\
       status resp = 400%Z /\ body resp = Some msg) /\
  (body_reads (trace (on_request req R [])) <> [] ->
     exists resp,
       outcome (on_request req R []) = Normal resp /\
       status resp = 400%Z /\ body resp = Some msg).
Proof.
  intros Hm Hget Hfail. rewrite (mod_on_request_matched _ _ _ _ Hm).
  unfold try_catch, process, verified. run_js.
  destruct (selected (verify entry) (AUTH_VERIFY R)) as [hook|].
  - destruct (hook req) as [u|e].
    + destruct (decode_failure_run (handler entry) u req msg R ([] ++ [CallVerify req])
                  Hget Hfail) as [k ->].
      split; [reflexivity|]. split; [intros ? _|intros _]; eexists; repeat split.
    + rewrite mod_on_error_run. split; [now destruct e|]. split; [discriminate|].
      destruct e; cbn; intros Hreads; now destruct Hreads.
  - destruct (decode_failure_run (handler entry) VNull req msg R [] Hget Hfail) as [k ->].
    split; [reflexivity|]. split; [intros ? _|intros _]; eexists; repeat split.
Qed.

Lemma mod_verify_403 R req entry hook msg :
  matched R req entry ->
  verify entry = true ->
  AUTH_VERIFY R = Some hook ->
  hook req = Throw (CustomError msg 403) ->
  exists resp,
    outcome (on_request req R []) = Normal resp /\
    status resp = 403%Z /\ body resp = Some msg /\
    handler_calls (trace (on_request req R [])) = [].
Proof.
  intros Hm Hv Ha Hh. rewrite (mod_on_request_matched _ _ _ _ Hm).
  unfold try_catch, process, selected. run_js. rewrite Hv, Ha, Hh.
  eexists. repeat split.
Qed.

Lemma mod_undecoded_raw R req :
  method req <> "GET" ->
  undecoded req ->
  body_reads (trace (on_request req R [])) = [] /\
  (forall d p r, In (d, p, r) (handler_calls (trace (on_request req R []))) -> d = PRaw req) /\
  (forall entry u, matched R req entry -> verified R entry req u ->
     handler_calls (trace (on_request req R [])) = [(PRaw req, u, req)]).
Proof.
  intros Hget Hun.
  destruct (mod_on_request_cases R req []) as [[entry Hm]|[Hno [Hc|[c Hc]]]];
    [|rewrite Hc; unfold try_catch, process_inherited; run_js;
      rewrite (decode_and_fail_undecoded req R [] Hget Hun), mod_on_error_run; cbn;
      repeat split; try contradiction;
      intros entry u Hm; now destruct (Hno entry)|].
  - destruct (mod_undecoded_matched R req entry Hm Hget Hun)
      as [(hook & e & Hv & Hh & Hrun)|(u & Hv & Hrun)].
    + rewrite Hrun, mod_on_error_run.
      split; [now destruct e|]. split; [now destruct e|].
      intros entry' u Hm' Hu. rewrite (mod_matched_unique _ _ _ _ Hm Hm') in Hu.
      unfold verified in Hu. rewrite Hv in Hu. congruence.
    + destruct (mod_after_handler entry req (DEFAULT_HEADERS R)
                  (handler entry (PRaw req) u req) R
                  (verify_trace R entry req ++ [CallHandler (PRaw req) u req]))
        as (t' & Ht' & Hq).
      destruct (mod_verify_trace_calls R entry req) as (Hc & _ & Hb).
      rewrite Hrun, Ht', !body_reads_app, !handler_calls_app, Hc, Hb,
        (quiet_body_reads _ Hq), (quiet_handler_calls _ Hq).
      split; [reflexivity|]. split.
      * intros d p r [[= <- _ _]|[]]. reflexivity.
      * intros entry' u' Hm' Hu. rewrite (mod_matched_unique _ _ _ _ Hm Hm') in Hu.
        unfold verified in Hv, Hu.
        destruct (selected (verify entry) (AUTH_VERIFY R)); cbn; congruence.
  - rewrite Hc. cbn. repeat split; try contradiction.
    intros entry u Hm. now destruct (Hno entry).
Qed.

Lemma mod_no_processor_500 R req entry d p r v :
  matched R req entry ->
  In (d, p, r) (handler_calls (trace (on_request req R []))) ->
  handler entry d p r = Normal v ->
  typeof v = "number" \/ typeof v = "symbol" \/ typeof v = "function" ->
  exists resp,
    outcome (on_request req R []) = Normal resp /\
    status resp = 500%Z /\
    body resp = Some "Return type of controller has no defined processor".
Proof.
  intros Hm Hin Hh Hty.
  destruct (mod_handled _ _ _ _ _ _ Hm Hin) as (-> & _ & _ & T & _ & _ & ->).
  unfold try_catch, bind at 1, lift at 1. rewrite Hh.
  rewrite (mod_respond_refused _ _ _ _ _ _ _ (encode_no_processor v _ _ Hty)).
  rewrite mod_on_error_run. eexists. repeat split.
Qed.

(** In this variant the process-wide sign hook receives the response and
    the handler's result, and no login hook exists. *)
Lemma mod_sign_gets_result R req entry d p r v response s :
  matched R req entry ->
  In (d, p, r) (handler_calls (trace (on_request req R []))) ->
  handler entry d p r = Normal v ->
  encode v (responseStatus req) (DEFAULT_HEADERS R) = Normal response ->
  sign entry = true ->
  AUTH_SIGN R = Some s ->
  verified R entry req p /\
  hook_calls (trace (on_request req R [])) = [CallSign response v] /\
  (forall h, s response v = Normal h ->
     outcome (on_request req R []) = Normal (with_headers response h)).
Proof.
  intros Hm Hin Hh He Hs Ha.
  destruct (mod_handled _ _ _ _ _ _ Hm Hin) as (-> & Hv & _ & T & _ & HK & Hrun).
  split; [exact Hv|].
  unfold try_catch, bind, lift in Hrun. rewrite Hh in Hrun.
  rewrite (mod_respond_encoded _ _ _ _ _ _ _ He) in Hrun.
  unfold selected in Hrun. rewrite Hs, Ha in Hrun.
  destruct (s response v) as [h|e].
  - rewrite Hrun. cbn. rewrite hook_calls_app, HK. split; [reflexivity|].
    now intros ? [= <-].
  - rewrite mod_on_error_run in Hrun. rewrite Hrun.
    destruct e; cbn; rewrite ?hook_calls_app, HK; (split; [reflexivity|discriminate]).
Qed.
End Results.

(** Registration in this variant checks nothing and cannot fail. *)
Lemma mod_Route_spec path method handler verify sign R t :
  let R' := statics (Route path method handler verify sign R t) in
  outcome (Route path method handler verify sign R t) = Normal tt /\
  trace (Route path method handler verify sign R t) = t /\
  DEFAULT_HEADERS R' = DEFAULT_HEADERS R /\
  API_PREFIX R' = API_PREFIX R /\
  AUTH_VERIFY R' = AUTH_VERIFY R /\
  AUTH_SIGN R' = AUTH_SIGN R /\
  lookup_entry R' path method = Some (mkEntry handler verify sign) /\
  forall path' method',
    (path', method') <> (path, method) ->
    lookup_entry R' path' method' = lookup_entry R path' method'.
Proof.
  unfold Route, lookup_entry. cbn. repeat split.
  - now rewrite lookup_insert_eq; cbn; rewrite lookup_insert_eq.
  - intros path' method' Hne.
    destruct (decide (path' = path)) as [->|Hp].
    + rewrite lookup_insert_eq. cbn.
      assert (method' <> method) by congruence.
      rewrite lookup_insert_ne by congruence.
      destruct (ROUTER_MAP R !! path); cbn; [reflexivity|apply lookup_empty].
    + now rewrite lookup_insert_ne by congruence.
Qed.
End ModJsResults.

(* ===================================================================== *)
(** ** The example application, matched *)
(* ===================================================================== *)

Ltac show_matched :=
  split; [discriminate | eexists _, _; repeat split; vm_compute; reflexivity].

Lemma per_route_post_user_matched :
  @PerRoute.matched simple_platform PerRouteDemo.registered post_user
    (PerRouteDemo.plain_entry create_user).
Proof. show_matched. Qed.

Lemma per_route_put_user_matched :
  @PerRoute.matched simple_platform PerRouteDemo.registered put_user
    (PerRouteDemo.plain_entry update_user).
Proof. show_matched. Qed.

Lemma per_route_get_count_matched :
  @PerRoute.matched simple_platform PerRouteDemo.registered get_count
    (PerRouteDemo.plain_entry count_users).
Proof. show_matched. Qed.

Lemma per_route_get_admin_matched :
  @PerRoute.matched simple_platform PerRouteDemo.registered get_admin
    PerRouteDemo.guarded_entry.
Proof. show_matched. Qed.

Lemma per_route_post_login_matched :
  @PerRoute.matched simple_platform PerRouteDemo.registered post_login
    PerRouteDemo.session_entry.
Proof. show_matched. Qed.

Lemma per_route_post_bad_json_matched :
  @PerRoute.matched simple_platform PerRouteDemo.registered post_bad_json
    (PerRouteDemo.plain_entry create_user).
Proof. show_matched. Qed.

Lemma per_route_post_charset_matched :
  @PerRoute.matched simple_platform PerRouteDemo.registered post_charset
    (PerRouteDemo.plain_entry create_user).
Proof. show_matched. Qed.

Lemma mod_post_user_matched :
  @ModJs.matched simple_platform ModJsDemo.registered post_user
    (ModJs.mkEntry create_user false false).
Proof. show_matched. Qed.

Lemma mod_get_count_matched :
  @ModJs.matched simple_platform ModJsDemo.registered get_count
    (ModJs.mkEntry count_users false false).
Proof. show_matched. Qed.

Lemma mod_get_admin_matched :
  @ModJs.matched simple_platform ModJsDemo.registered get_admin
    (ModJs.mkEntry list_users true false).
Proof. show_matched. Qed.

Lemma mod_post_bad_json_matched :
  @ModJs.matched simple_platform ModJsDemo.registered post_bad_json
    (ModJs.mkEntry create_user false false).
Proof. show_matched. Qed.

Lemma mod_post_charset_matched :
  @ModJs.matched simple_platform ModJsDemo.registered post_charset
    (ModJs.mkEntry create_user false false).
Proof. show_matched. Qed.

(* ===================================================================== *)
(** ** The claims *)
(* ===================================================================== *)

(** C1, against the claim as stated: a PUT request is not a retrieval and
    carries a body, its handler is called and returns a string, and the
    response has status 200, not the 201 the claim gives to every
    non-retrieval method.  Both variants. *)
Lemma C1_put_gets_200 :
  method put_user <> "GET" /\
  update_user (PText "bob") VNull put_user = Normal (VString "updated") /\
  (let run := @PerRoute.on_request simple_platform put_user PerRouteDemo.registered [] in
   handler_calls (trace run) = [(PText "bob", VNull, put_user)] /\
   status <$> returned run = Some 200%Z /\
   status <$> returned run <> Some 201%Z) /\
  (let run := @ModJs.on_request simple_platform put_user ModJsDemo.registered [] in
   handler_calls (trace run) = [(PText "bob", VNull, put_user)] /\
   status <$> returned run = Some 200%Z /\
   status <$> returned run <> Some 201%Z).
Proof.
  split; [discriminate|]. split; [reflexivity|].
  split; cbv zeta; (split; [vm_compute; reflexivity|]);
    (split; [vm_compute; reflexivity|]); vm_compute; discriminate.
Qed.

(** C1, as amended: for every dispatched request whose handler returns a
    value the encoder accepts and whose post-handler hooks complete on
    this request (the calls the dispatcher makes, with the arguments it
    makes them with), the response status is 201 when the method is POST
    and 200 for every other method, unless the handler returned a
    response object, whose status is then used as it is.  Both
    variants. *)
Theorem C1_status_rule `{Platform} :
  (forall R req entry d p r v encoded,
      PerRoute.matched R req entry ->
      In (d, p, r) (handler_calls (trace (PerRoute.on_request req R []))) ->
      PerRoute.handler entry d p r = Normal v ->
      encode v (responseStatus req) (PerRoute.DEFAULT_HEADERS R) = Normal encoded ->
      PerRoute.hooks_complete_on entry encoded p v ->
      exists resp,
        outcome (PerRoute.on_request req R []) = Normal resp /\
        status resp =
          match v with
          | VResponse given => status given
          | _ => if method req =? "POST" then 201%Z else 200%Z
          end) /\
  (forall R req entry d p r v encoded,
      ModJs.matched R req entry ->
      In (d, p, r) (handler_calls (trace (ModJs.on_request req R []))) ->
      ModJs.handler entry d p r = Normal v ->
      encode v (responseStatus req) (ModJs.DEFAULT_HEADERS R) = Normal encoded ->
      ModJs.hooks_complete_on R entry encoded v ->
      exists resp,
        outcome (ModJs.on_request req R []) = Normal resp /\
        status resp =
          match v with
          | VResponse given => status given
          | _ => if method req =? "POST" then 201%Z else 200%Z
          end).
Proof.
  split.
  - intros. eapply PerRouteResults.status_rule; eassumption.
  - intros. eapply ModJsResults.mod_status_rule; eassumption.
Qed.

(** An instance of C1: a POST whose handler returns a string, with a sign
    and a login hook that complete on it, and one without hooks. *)
Lemma C1_status_rule_witness :
  (exists resp,
      outcome (@PerRoute.on_request simple_platform post_login PerRouteDemo.registered [])
        = Normal resp /\
      status resp = 201%Z) /\
  (exists resp,
      outcome (@ModJs.on_request simple_platform post_user ModJsDemo.registered [])
        = Normal resp /\
      status resp = 201%Z).
Proof.
  split.
  - apply (proj1 (@C1_status_rule simple_platform)
             PerRouteDemo.registered post_login PerRouteDemo.session_entry
             (PText "secret") (VString "alice") post_login (VString "created")
             (mkResponse (Some "created") 201
                (<["Content-Type" := "text/plain"]>
                   (PerRoute.DEFAULT_HEADERS PerRouteDemo.registered)))).
    + exact per_route_post_login_matched.
    + vm_compute. left. reflexivity.
    + reflexivity.
    + reflexivity.
    + eexists. split; [reflexivity|]. eexists. reflexivity.
  - apply (proj2 (@C1_status_rule simple_platform)
             ModJsDemo.registered post_user (ModJs.mkEntry create_user false false)
             (PText "carol") VNull post_user (VString "created")
             (mkResponse (Some "created") 201
                (<["Content-Type" := "text/plain"]>
                   (ModJs.DEFAULT_HEADERS ModJsDemo.registered)))).
    + exact mod_post_user_matched.
    + vm_compute. left. reflexivity.
    + reflexivity.
    + reflexivity.
    + exact I.
Defined.

(** C2, the code at a failing input: a POST whose JSON body does not parse
    is answered through the [CustomError] branch of the [catch] block, and
    [Object.assign] writes the content type into the shared template
    itself.  The template had no content type before; it has one after, and
    the next preflight answer, built from the template, carries it.  Both
    variants. *)
Theorem C2_error_mapper_writes_template :
  (let R := PerRouteDemo.registered in
   let R' := statics (@PerRoute.on_request simple_platform post_bad_json R []) in
   PerRoute.DEFAULT_HEADERS R !! "Content-Type" = None /\
   PerRoute.DEFAULT_HEADERS R' !! "Content-Type" = Some "text/plain" /\
   (returned (@PerRoute.on_request simple_platform options_users R [])
      ≫= (fun resp => headers resp !! "Content-Type")) = None /\
   (returned (@PerRoute.on_request simple_platform options_users R' [])
      ≫= (fun resp => headers resp !! "Content-Type")) = Some "text/plain") /\
  (let R := ModJsDemo.registered in
   let R' := statics (@ModJs.on_request simple_platform post_bad_json R []) in
   ModJs.DEFAULT_HEADERS R !! "Content-Type" = None /\
   ModJs.DEFAULT_HEADERS R' !! "Content-Type" = Some "text/plain" /\
   (returned (@ModJs.on_request simple_platform options_users R [])
      ≫= (fun resp => headers resp !! "Content-Type")) = None /\
   (returned (@ModJs.on_request simple_platform options_users R' [])
      ≫= (fun resp => headers resp !! "Content-Type")) = Some "text/plain").
Proof.
  split; cbv zeta; repeat split; vm_compute; reflexivity.
Qed.

(** C3, against the claim as stated: with the prefix
    ["http://localhost:8000/api"] configured, the URL of a request to
    [/api/users] is stripped to ["/users"], which [new URL] refuses; that
    happens before the [try] statement, so the error leaves the closure
    uncaught and no response is returned.  And a [CustomError] with status
    99 thrown by a handler is caught, but the [Response] constructor
    refuses the status inside the [catch] block, so a new error leaves the
    closure.  Both variants. *)
Lemma C3_errors_reach_the_listener :
  String_replace (url get_api_users) "http://localhost:8000/api" EmptyString = "/users" /\
  (let run := @PerRoute.on_request simple_platform get_api_users PerRouteDemo.prefixed [] in
   thrown run = Some (Error "Invalid URL") /\ returned run = None) /\
  (let run := @ModJs.on_request simple_platform get_api_users ModJsDemo.prefixed [] in
   thrown run = Some (Error "Invalid URL") /\ returned run = None) /\
  teapot (PQuery ∅) VNull get_teapot = Throw (CustomError "short and stout" 99) /\
  (let run := @PerRoute.on_request simple_platform get_teapot PerRouteDemo.registered [] in
   is_Some (thrown run) /\ returned run = None) /\
  (let run := @ModJs.on_request simple_platform get_teapot ModJsDemo.registered [] in
   is_Some (thrown run) /\ returned run = None).
Proof.
  cbv zeta.
  split; [vm_compute; reflexivity|].
  split; [split; vm_compute; reflexivity|].
  split; [split; vm_compute; reflexivity|].
  split; [reflexivity|].
  split; (split; [vm_compute; eauto|vm_compute; reflexivity]).
Qed.

(** C3, as amended: every error raised inside the [try] block (by the
    verify hook, the body decoding, the handler, the encoder or a
    post-handler hook) is caught and converted into a response carrying its
    message, provided the [Response] constructor accepts the status a
    [CustomError] carries; a [CustomError] with a refused status, and every
    error raised while stripping the prefix and parsing the URL, leaves the
    closure uncaught.  Both variants. *)
Theorem C3_try_block_errors_are_mapped `{Platform} :
  (forall R req entry e t,
      PerRoute.matched R req entry ->
      outcome (PerRoute.process entry req R t) = Throw e ->
      error_accepted e = true ->
      exists resp,
        outcome (PerRoute.on_request req R t) = Normal resp /\
        body resp = Some (message e) /\ status resp = error_status e) /\
  (forall R req entry msg c t,
      PerRoute.matched R req entry ->
      outcome (PerRoute.process entry req R t) = Throw (CustomError msg c) ->
      status_accepted (Some msg) c = false ->
      exists e, outcome (PerRoute.on_request req R t) = Throw e) /\
  (forall R req e t,
      request_URL (PerRoute.API_PREFIX R) req = Throw e ->
      outcome (PerRoute.on_request req R t) = Throw e) /\
  (forall R req entry e t,
      ModJs.matched R req entry ->
      outcome (ModJs.process entry req R t) = Throw e ->
      error_accepted e = true ->
      exists resp,
        outcome (ModJs.on_request req R t) = Normal resp /\
        body resp = Some (message e) /\ status resp = error_status e) /\
  (forall R req entry msg c t,
      ModJs.matched R req entry ->
      outcome (ModJs.process entry req R t) = Throw (CustomError msg c) ->
      status_accepted (Some msg) c = false ->
      exists e, outcome (ModJs.on_request req R t) = Throw e) /\
  (forall R req e t,
      request_URL (ModJs.API_PREFIX R) req = Throw e ->
      outcome (ModJs.on_request req R t) = Throw e).
Proof.
  repeat split.
  - intros. eapply PerRouteResults.try_errors_mapped; eassumption.
  - intros. eapply PerRouteResults.refused_errors_escape; eassumption.
  - intros R req e t HU. now rewrite (PerRouteResults.url_errors_escape R req e t HU).
  - intros. eapply ModJsResults.mod_try_errors_mapped; eassumption.
  - intros. eapply ModJsResults.mod_refused_errors_escape; eassumption.
  - intros R req e t HU. now rewrite (ModJsResults.mod_url_errors_escape R req e t HU).
Qed.

(** An instance of C3: the [CustomError] of a verify hook, mapped to 403,
    and the URL that does not survive the stripping of the prefix. *)
Lemma C3_try_block_errors_are_mapped_witness :
  (exists resp,
      outcome (@PerRoute.on_request simple_platform get_admin PerRouteDemo.registered [])
        = Normal resp /\
      body resp = Some "Forbidden" /\ status resp = 403%Z) /\
  (exists resp,
      outcome (@ModJs.on_request simple_platform get_admin ModJsDemo.registered [])
        = Normal resp /\
      body resp = Some "Forbidden" /\ status resp = 403%Z) /\
  outcome (@PerRoute.on_request simple_platform get_api_users PerRouteDemo.prefixed [])
    = Throw (Error "Invalid URL").
Proof.
  split; [|split].
  - apply (proj1 (@C3_try_block_errors_are_mapped simple_platform)
             PerRouteDemo.registered get_admin PerRouteDemo.guarded_entry
             (CustomError "Forbidden" 403) []).
    + exact per_route_get_admin_matched.
    + vm_compute. reflexivity.
    + vm_compute. reflexivity.
  - apply (proj1 (proj2 (proj2 (proj2 (@C3_try_block_errors_are_mapped simple_platform))))
             ModJsDemo.registered get_admin (ModJs.mkEntry list_users true false)
             (CustomError "Forbidden" 403) []).
    + exact mod_get_admin_matched.
    + vm_compute. reflexivity.
    + vm_compute. reflexivity.
  - apply (proj1 (proj2 (proj2 (@C3_try_block_errors_are_mapped simple_platform)))
             PerRouteDemo.prefixed get_api_users (Error "Invalid URL") []).
    vm_compute. reflexivity.
Defined.

(** C4, against the claim as stated: in mod.js a route opts in to the
    process-wide sign hook by a flag.  On the login route the verify hook
    leaves "alice", the handler is called with it and returns "created", and
    the sign hook is then called with the response and "created", the
    handler's result, not with the verify result; and there is no login
    hook to follow. *)
Lemma C4_mod_js_sign_gets_the_result :
  let run := @ModJs.on_request simple_platform post_login ModJsDemo.trusting [] in
  let response :=
    mkResponse (Some "created") 201
      (<["Content-Type" := "text/plain"]> (ModJs.DEFAULT_HEADERS ModJsDemo.trusting)) in
  handler_calls (trace run) = [(PText "secret", VString "alice", post_login)] /\
  create_user (PText "secret") (VString "alice") post_login = Normal (VString "created") /\
  hook_calls (trace run) = [CallSign response (VString "created")] /\
  hook_calls (trace run) <> [CallSign response (VString "alice")].
Proof.
  cbv zeta. split; [vm_compute; reflexivity|]. split; [reflexivity|].
  split; [vm_compute; reflexivity|]. vm_compute. discriminate.
Qed.

(** C4, as amended.  In the variant with per-route hooks: for a matched
    route with a sign hook attached, once the handler's result [v] is
    encoded into [response], the sign hook is called with [response] and
    the value [p] the verify step left; if it completes and a login hook
    is attached too, that one is called next, with the response as the
    sign hook left it and [v]; no other post-handler call is made, and
    the response returned is the one both hooks have worked on.  In
    mod.js: for a matched route whose sign flag is set, with a sign hook
    given to [Run], that hook is called with [response] and [v], the
    handler's result, and is the only post-handler call. *)
Theorem C4_sign_then_login `{Platform} :
  (forall R req entry d p r v response s,
      PerRoute.matched R req entry ->
      In (d, p, r) (handler_calls (trace (PerRoute.on_request req R []))) ->
      PerRoute.handler entry d p r = Normal v ->
      encode v (responseStatus req) (PerRoute.DEFAULT_HEADERS R) = Normal response ->
      PerRoute.sign entry = Some s ->
      PerRoute.verified entry req p /\
      hook_calls (trace (PerRoute.on_request req R [])) =
        CallSign response p ::
        match s response p, PerRoute.login entry with
        | Normal h, Some _ => [CallLogin (with_headers response h) v]
        | _, _ => []
        end /\
      (forall h l h',
          s response p = Normal h -> PerRoute.login entry = Some l ->
          l (with_headers response h) v = Normal h' ->
          outcome (PerRoute.on_request req R [])
          = Normal (with_headers (with_headers response h) h')) /\
      (forall h,
          s response p = Normal h -> PerRoute.login entry = None ->
          outcome (PerRoute.on_request req R []) = Normal (with_headers response h))) /\
  (forall R req entry d p r v response s,
      ModJs.matched R req entry ->
      In (d, p, r) (handler_calls (trace (ModJs.on_request req R []))) ->
      ModJs.handler entry d p r = Normal v ->
      encode v (responseStatus req) (ModJs.DEFAULT_HEADERS R) = Normal response ->
      ModJs.sign entry = true ->
      ModJs.AUTH_SIGN R = Some s ->
      ModJs.verified R entry req p /\
      hook_calls (trace (ModJs.on_request req R [])) = [CallSign response v] /\
      (forall h, s response v = Normal h ->
         outcome (ModJs.on_request req R []) = Normal (with_headers response h))).
Proof.
  split.
  - intros. eapply PerRouteResults.sign_then_login; eassumption.
  - intros. eapply ModJsResults.mod_sign_gets_result; eassumption.
Qed.

(** An instance of C4: a login route with the three hooks attached, and
    the login route of mod.js with its sign flag set. *)
Lemma C4_sign_then_login_witness :
  (let response :=
     mkResponse (Some "created") 201
       (<["Content-Type" := "text/plain"]>
          (PerRoute.DEFAULT_HEADERS PerRouteDemo.registered)) in
   hook_calls
     (trace (@PerRoute.on_request simple_platform post_login PerRouteDemo.registered [])) =
   [CallSign response (VString "alice");
    CallLogin (with_headers response (<["Authorization" := "token"]> (headers response)))
              (VString "created")]) /\
  (let response :=
     mkResponse (Some "created") 201
       (<["Content-Type" := "text/plain"]> (ModJs.DEFAULT_HEADERS ModJsDemo.trusting)) in
   hook_calls
     (trace (@ModJs.on_request simple_platform post_login ModJsDemo.trusting [])) =
   [CallSign response (VString "created")]).
Proof.
  cbv zeta. split.
  - refine (proj1 (proj2
      (proj1 (@C4_sign_then_login simple_platform) PerRouteDemo.registered post_login
         PerRouteDemo.session_entry (PText "secret") (VString "alice") post_login
         (VString "created")
         (mkResponse (Some "created") 201
            (<["Content-Type" := "text/plain"]>
               (PerRoute.DEFAULT_HEADERS PerRouteDemo.registered)))
         add_token _ _ _ _ _))).
    + exact per_route_post_login_matched.
    + vm_compute. left. reflexivity.
    + reflexivity.
    + reflexivity.
    + reflexivity.
  - refine (proj1 (proj2
      (proj2 (@C4_sign_then_login simple_platform) ModJsDemo.trusting post_login
         (ModJs.mkEntry create_user true true) (PText "secret") (VString "alice")
         post_login (VString "created")
         (mkResponse (Some "created") 201
            (<["Content-Type" := "text/plain"]>
               (ModJs.DEFAULT_HEADERS ModJsDemo.trusting)))
         add_token _ _ _ _ _ _))).
    + show_matched.
    + vm_compute. left. reflexivity.
    + reflexivity.
    + reflexivity.
    + reflexivity.
    + reflexivity.
Defined.





(** C6, against the claim again: a table of methods is a plain object,
    read by the method the client sent, so a method named like a property
    every object inherits passes the guard that answers 405.  A request
    with the method [constructor] for the RouteKey [/users], which has no
    such entry, is answered 500 after a logged [TypeError], with no
    handler called.  Both variants. *)
Lemma C6_inherited_method_is_not_405 :
  (PerRoute.lookup_entry PerRouteDemo.registered "/users" "constructor" = None /\
   let run := @PerRoute.on_request simple_platform constructor_users
                PerRouteDemo.registered [] in
   status <$> returned run = Some 500%Z /\ status <$> returned run <> Some 405%Z /\
   handler_calls (trace run) = [] /\ length (trace run) = 1%nat) /\
  (ModJs.lookup_entry ModJsDemo.registered "/users" "constructor" = None /\
   let run := @ModJs.on_request simple_platform constructor_users ModJsDemo.registered [] in
   status <$> returned run = Some 500%Z /\ status <$> returned run <> Some 405%Z /\
   handler_calls (trace run) = [] /\ length (trace run) = 1%nat).
Proof.
  cbv zeta.
  split; (split; [vm_compute; reflexivity|]); (split; [vm_compute; reflexivity|]);
    (split; [vm_compute; discriminate|]); split; vm_compute; reflexivity.
Qed.



(** C7: for a matched request that is not a GET, whose content type is
    exactly one of the three the decoder knows and whose body does not
    decode, the handler is never called, and the response has status 400
    and the message of that row as soon as the decoding is attempted, that
    is whenever the verify step before it has completed.  Both variants. *)
Theorem C7_undecodable_body_is_400 `{Platform} :
  (forall R req entry msg,
      PerRoute.matched R req entry ->
      method req <> "GET" ->
      decode_failure req msg ->
      handler_calls (trace (PerRoute.on_request req R [])) = [] /\
      (forall u, PerRoute.verified entry req u ->
         exists resp,
           outcome (PerRoute.on_request req R []) = Normal resp /\
           status resp = 400%Z /\ body resp = Some msg) /\
      (body_reads (trace (PerRoute.on_request req R [])) <> [] ->
         exists resp,
           outcome (PerRoute.on_request req R []) = Normal resp /\
           status resp = 400%Z /\ body resp = Some msg)) /\
  (forall R req entry msg,
      ModJs.matched R req entry ->
      method req <> "GET" ->
      decode_failure req msg ->
      handler_calls (trace (ModJs.on_request req R [])) = [] /\
      (forall u, ModJs.verified R entry req u ->
         exists resp,
           outcome (ModJs.on_request req R []) = Normal resp /\
           status resp = 400%Z /\ body resp = Some msg) /\
      (body_reads (trace (ModJs.on_request req R [])) <> [] ->
         exists resp,
           outcome (ModJs.on_request req R []) = Normal resp /\
           status resp = 400%Z /\ body resp = Some msg)).
Proof.
  split.
  - apply @PerRouteResults.decode_failure_400.
  - apply @ModJsResults.mod_decode_failure_400.
Qed.

(** An instance of C7: a JSON content type with a body that does not parse. *)
Lemma C7_undecodable_body_is_400_witness :
  (exists resp,
      outcome (@PerRoute.on_request simple_platform post_bad_json PerRouteDemo.registered [])
        = Normal resp /\
      status resp = 400%Z /\ body resp = Some "Request body is not a valid JSON") /\
  handler_calls
    (trace (@ModJs.on_request simple_platform post_bad_json ModJsDemo.registered [])) = [].
Proof.
  split.
  - apply (proj1 (proj2 (proj1 (@C7_undecodable_body_is_400 simple_platform)
                    PerRouteDemo.registered post_bad_json
                    (PerRouteDemo.plain_entry create_user)
                    "Request body is not a valid JSON"
                    per_route_post_bad_json_matched
                    ltac:(discriminate)
                    ltac:(left; repeat split))) VNull).
    reflexivity.
  - apply (proj1 (proj2 (@C7_undecodable_body_is_400 simple_platform)
                    ModJsDemo.registered post_bad_json
                    (ModJs.mkEntry create_user false false)
                    "Request body is not a valid JSON"
                    mod_post_bad_json_matched
                    ltac:(discriminate)
                    ltac:(left; repeat split))).
Defined.

(** C8: for a matched route with a verify hook attached (in mod.js: a route
    whose verify flag is set, with the process-wide hook configured), if the
    hook throws a [CustomError] with status 403, the response has status
    403 and carries the error's message, and the handler is never called.
    Both variants. *)
Theorem C8_verify_403_skips_the_handler `{Platform} :
  (forall R req entry hook msg,
      PerRoute.matched R req entry ->
      PerRoute.verify entry = Some hook ->
      hook req = Throw (CustomError msg 403) ->
      exists resp,
        outcome (PerRoute.on_request req R []) = Normal resp /\
        status resp = 403%Z /\ body resp = Some msg /\
        handler_calls (trace (PerRoute.on_request req R [])) = []) /\
  (forall R req entry hook msg,
      ModJs.matched R req entry ->
      ModJs.verify entry = true ->
      ModJs.AUTH_VERIFY R = Some hook ->
      hook req = Throw (CustomError msg 403) ->
      exists resp,
        outcome (ModJs.on_request req R []) = Normal resp /\
        status resp = 403%Z /\ body resp = Some msg /\
        handler_calls (trace (ModJs.on_request req R [])) = []).
Proof.
  split.
  - apply @PerRouteResults.verify_403.
  - apply @ModJsResults.mod_verify_403.
Qed.

(** An instance of C8: the guarded route. *)
Lemma C8_verify_403_skips_the_handler_witness :
  (exists resp,
      outcome (@PerRoute.on_request simple_platform get_admin PerRouteDemo.registered [])
        = Normal resp /\
      status resp = 403%Z /\ body resp = Some "Forbidden" /\
      handler_calls
        (trace (@PerRoute.on_request simple_platform get_admin PerRouteDemo.registered []))
        = []) /\
  (exists resp,
      outcome (@ModJs.on_request simple_platform get_admin ModJsDemo.registered [])
        = Normal resp /\
      status resp = 403%Z /\ body resp = Some "Forbidden" /\
      handler_calls
        (trace (@ModJs.on_request simple_platform get_admin ModJsDemo.registered []))
        = []).
Proof.
  split.
  - apply (proj1 (@C8_verify_403_skips_the_handler simple_platform)
             PerRouteDemo.registered get_admin PerRouteDemo.guarded_entry forbid "Forbidden").
    + exact per_route_get_admin_matched.
    + reflexivity.
    + reflexivity.
  - apply (proj2 (@C8_verify_403_skips_the_handler simple_platform)
             ModJsDemo.registered get_admin (ModJs.mkEntry list_users true false)
             forbid "Forbidden").
    + exact mod_get_admin_matched.
    + reflexivity.
    + reflexivity.
    + reflexivity.
Defined.

(** C9: the decoder is chosen by equality of strings.  For every request
    that is not a GET and whose content type is not exactly one of the
    three known ones, no body-reading operation is started, every call of
    the handler gets the request object itself as its payload, and when the
    request is matched and the verify step has completed the handler is
    called, once, with that payload: no decoding error stops the request.
    Both variants. *)
Theorem C9_unknown_content_type_passes_the_request `{Platform} :
  (forall R req,
      method req <> "GET" ->
      undecoded req ->
      body_reads (trace (PerRoute.on_request req R [])) = [] /\
      (forall d p r,
          In (d, p, r) (handler_calls (trace (PerRoute.on_request req R []))) ->
          d = PRaw req) /\
      (forall entry u,
          PerRoute.matched R req entry -> PerRoute.verified entry req u ->
          handler_calls (trace (PerRoute.on_request req R [])) = [(PRaw req, u, req)])) /\
  (forall R req,
      method req <> "GET" ->
      undecoded req ->
      body_reads (trace (ModJs.on_request req R [])) = [] /\
      (forall d p r,
          In (d, p, r) (handler_calls (trace (ModJs.on_request req R []))) ->
          d = PRaw req) /\
      (forall entry u,
          ModJs.matched R req entry -> ModJs.verified R entry req u ->
          handler_calls (trace (ModJs.on_request req R [])) = [(PRaw req, u, req)])).
Proof.
  split.
  - apply @PerRouteResults.undecoded_raw.
  - apply @ModJsResults.mod_undecoded_raw.
Qed.

(** An instance of C9: a content type with a charset parameter. *)
Lemma C9_unknown_content_type_passes_the_request_witness :
  content_type post_charset = Some "application/json; charset=utf-8" /\
  handler_calls
    (trace (@PerRoute.on_request simple_platform post_charset PerRouteDemo.registered []))
  = [(PRaw post_charset, VNull, post_charset)] /\
  body_reads
    (trace (@ModJs.on_request simple_platform post_charset ModJsDemo.registered [])) = [].
Proof.
  assert (Hun : undecoded post_charset) by (repeat split; discriminate).
  split; [reflexivity|]. split.
  - apply (proj2 (proj2 (proj1 (@C9_unknown_content_type_passes_the_request simple_platform)
                           PerRouteDemo.registered post_charset ltac:(discriminate) Hun))
             (PerRouteDemo.plain_entry create_user) VNull).
    + exact per_route_post_charset_matched.
    + reflexivity.
  - apply (proj1 (proj2 (@C9_unknown_content_type_passes_the_request simple_platform)
                    ModJsDemo.registered post_charset ltac:(discriminate) Hun)).
Defined.

(** C10: for every matched request whose handler is called and returns a
    value whose [typeof] is number, symbol or function, the encoder reaches
    its fallback branch and the response has status 500 and the body
    "Return type of controller has no defined processor".  Both variants. *)
Theorem C10_no_processor_is_500 `{Platform} :
  (forall R req entry d p r v,
      PerRoute.matched R req entry ->
      In (d, p, r) (handler_calls (trace (PerRoute.on_request req R []))) ->
      PerRoute.handler entry d p r = Normal v ->
      typeof v = "number" \/ typeof v = "symbol" \/ typeof v = "function" ->
      encode v (responseStatus req) (PerRoute.DEFAULT_HEADERS R)
        = Throw (Error "Return type of controller has no defined processor") /\
      exists resp,
        outcome (PerRoute.on_request req R []) = Normal resp /\
        status resp = 500%Z /\
        body resp = Some "Return type of controller has no defined processor") /\
  (forall R req entry d p r v,
      ModJs.matched R req entry ->
      In (d, p, r) (handler_calls (trace (ModJs.on_request req R []))) ->
      ModJs.handler entry d p r = Normal v ->
      typeof v = "number" \/ typeof v = "symbol" \/ typeof v = "function" ->
      encode v (responseStatus req) (ModJs.DEFAULT_HEADERS R)
        = Throw (Error "Return type of controller has no defined processor") /\
      exists resp,
        outcome (ModJs.on_request req R []) = Normal resp /\
        status resp = 500%Z /\
        body resp = Some "Return type of controller has no defined processor").
Proof.
  split.
  - intros R req entry d p r v Hm Hin Hh Hty. split; [now apply encode_no_processor|].
    eapply PerRouteResults.no_processor_500; eassumption.
  - intros R req entry d p r v Hm Hin Hh Hty. split; [now apply encode_no_processor|].
    eapply ModJsResults.mod_no_processor_500; eassumption.
Qed.

(** An instance of C10: a handler that returns a number. *)
Lemma C10_no_processor_is_500_witness :
  (exists resp,
      outcome (@PerRoute.on_request simple_platform get_count PerRouteDemo.registered [])
        = Normal resp /\
      status resp = 500%Z /\
      body resp = Some "Return type of controller has no defined processor") /\
  (exists resp,
      outcome (@ModJs.on_request simple_platform get_count ModJsDemo.registered [])
        = Normal resp /\
      status resp = 500%Z /\
      body resp = Some "Return type of controller has no defined processor").
Proof.
  split.
  - apply (proj1 (@C10_no_processor_is_500 simple_platform)
             PerRouteDemo.registered get_count (PerRouteDemo.plain_entry count_users)
             (PQuery ∅) VNull get_count (VNumber 2)).
    + exact per_route_get_count_matched.
    + vm_compute. left. reflexivity.
    + reflexivity.
    + left. reflexivity.
  - apply (proj2 (@C10_no_processor_is_500 simple_platform)
             ModJsDemo.registered get_count (ModJs.mkEntry count_users false false)
             (PQuery ∅) VNull get_count (VNumber 2)).
    + exact mod_get_count_matched.
    + vm_compute. left. reflexivity.
    + reflexivity.
    + left. reflexivity.
Defined.

(* ===================================================================== *)
(** ** Beyond the claims: the calculi and the lemmas *)
(* ===================================================================== *)

(** *** Traces in pipeline order *)

Lemma in_pipeline_order_cons a t :
  in_pipeline_order (a :: t) = true <->
  in_pipeline_order t = true /\ Forall (fun ev => (stage a < stage ev)%nat) t.
Proof.
  revert a. induction t as [|b t IH]; intros a.
  - split; [intros _; split; [reflexivity|constructor]|reflexivity].
  - change (in_pipeline_order (a :: b :: t))
      with ((stage a <? stage b)%nat && in_pipeline_order (b :: t)).
    rewrite andb_true_iff, Nat.ltb_lt. split.
    + intros [Hab Hbt]. split; [assumption|]. constructor; [assumption|].
      apply IH in Hbt as [_ Hall]. eapply Forall_impl; [exact Hall|].
      cbn. intros; lia.
    + intros [Hbt Hall]. inversion Hall; subst. auto.
Qed.

Lemma within_nil lo hi : within lo hi [].
Proof. split; [reflexivity|constructor]. Qed.

Lemma within_single lo hi ev : (lo <= stage ev < hi)%nat -> within lo hi [ev].
Proof. split; [reflexivity|]. repeat constructor; lia. Qed.

Lemma within_weaken lo hi lo' hi' t :
  (lo' <= lo)%nat -> (hi <= hi')%nat -> within lo hi t -> within lo' hi' t.
Proof.
  intros Hlo Hhi [Ho Hall]. split; [assumption|].
  eapply Forall_impl; [exact Hall|]. cbn. intros; lia.
Qed.

Lemma within_app a b c t1 t2 :
  within a b t1 -> within b c t2 -> (a <= b <= c)%nat -> within a c (t1 ++ t2).
Proof.
  intros [Ho1 Hall1] [Ho2 Hall2] Habc. split.
  - induction t1 as [|x t1 IH]; [exact Ho2|].
    cbn [app]. apply in_pipeline_order_cons.
    apply in_pipeline_order_cons in Ho1 as [Ho1 Hx].
    inversion Hall1; subst. split; [now apply IH|].
    apply Forall_app. split; [assumption|].
    eapply Forall_impl; [exact Hall2|]. cbn. intros; lia.
  - apply Forall_app. split.
    + eapply Forall_impl; [exact Hall1|]. cbn. intros; lia.
    + eapply Forall_impl; [exact Hall2|]. cbn. intros; lia.
Qed.

Section Appends.
Context {S : Type}.

Lemma appends_weaken {A} lo hi lo' hi' (m : Js S A) :
  (lo' <= lo)%nat -> (hi <= hi')%nat -> appends lo hi m -> appends lo' hi' m.
Proof.
  intros Hlo Hhi Hm s t. destruct (Hm s t) as (ext & Ht & Hw).
  exists ext. split; [assumption|]. eapply within_weaken; eassumption.
Qed.

Lemma appends_silent {A} lo hi (m : Js S A) :
  (forall s t, trace (m s t) = t) -> appends lo hi m.
Proof.
  intros Hm s t. exists []. rewrite Hm, app_nil_r. split; [reflexivity|apply within_nil].
Qed.

Lemma appends_ret {A} lo hi (a : A) : appends lo hi (ret a : Js S A).
Proof. now apply appends_silent. Qed.

Lemma appends_throw {A} lo hi e : appends lo hi (throw e : Js S A).
Proof. now apply appends_silent. Qed.

Lemma appends_lift {A} lo hi (c : Completion A) : appends lo hi (lift c : Js S A).
Proof. now apply appends_silent. Qed.

Lemma appends_gets {A} lo hi (f : S -> A) : appends lo hi (gets f).
Proof. now apply appends_silent. Qed.

Lemma appends_modify lo hi (f : S -> S) : appends lo hi (modify f).
Proof. now apply appends_silent. Qed.

Lemma appends_emit lo hi ev : (lo <= stage ev < hi)%nat -> appends lo hi (emit ev : Js S unit).
Proof. intros Hev s t. exists [ev]. split; [reflexivity|now apply within_single]. Qed.

Lemma appends_bind {A B} a b c (m : Js S A) (k : A -> Js S B) :
  (a <= b <= c)%nat ->
  appends a b m -> (forall x, appends b c (k x)) -> appends a c (bind m k).
Proof.
  intros Habc Hm Hk s t. destruct (Hm s t) as (ext & Ht & Hw).
  unfold bind. destruct (m s t) as [[[x|e] s'] t'] eqn:Hrun; cbn in Ht; subst t'.
  - destruct (Hk x s' (t ++ ext)) as (ext' & Ht' & Hw').
    exists (ext ++ ext'). rewrite Ht', app_assoc. split; [reflexivity|].
    eapply within_app; eassumption.
  - exists ext. split; [reflexivity|]. eapply within_weaken; [| |exact Hw]; lia.
Qed.

Lemma appends_try_catch {A} a b c (m : Js S A) (h : JsError -> Js S A) :
  (a <= b <= c)%nat ->
  appends a b m -> (forall e, appends b c (h e)) -> appends a c (try_catch m h).
Proof.
  intros Habc Hm Hh s t. destruct (Hm s t) as (ext & Ht & Hw).
  unfold try_catch. destruct (m s t) as [[[x|e] s'] t'] eqn:Hrun; cbn in Ht; subst t'.
  - exists ext. split; [reflexivity|]. eapply within_weaken; [| |exact Hw]; lia.
  - destruct (Hh e s' (t ++ ext)) as (ext' & Ht' & Hw').
    exists (ext ++ ext'). rewrite Ht', app_assoc. split; [reflexivity|].
    eapply within_app; eassumption.
Qed.

Lemma appends_read_body {A} kind (read : option A) msg :
  appends 1 2 (read_body kind read msg : Js S A).
Proof.
  unfold read_body. apply appends_bind with (b := 2%nat); [lia|apply appends_emit; cbn; lia|].
  intros _. destruct read; [apply appends_ret|apply appends_throw].
Qed.

Lemma appends_call_handler h d p req : appends 2 3 (call_handler h d p req : Js S JsValue).
Proof.
  unfold call_handler. apply appends_bind with (b := 3%nat); [lia|apply appends_emit; cbn; lia|].
  intros _. apply appends_lift.
Qed.

Lemma appends_call_verify hook req : appends 0 1 (call_verify hook req : Js S JsValue).
Proof.
  unfold call_verify. apply appends_bind with (b := 1%nat); [lia|apply appends_emit; cbn; lia|].
  intros _. apply appends_lift.
Qed.

Lemma appends_call_sign hook r a : appends 3 4 (call_sign hook r a : Js S Response).
Proof.
  unfold call_sign. apply appends_bind with (b := 4%nat); [lia|apply appends_emit; cbn; lia|].
  intros _. apply appends_bind with (b := 4%nat); [lia|apply appends_lift|].
  intros; apply appends_ret.
Qed.

Lemma appends_call_login hook r a : appends 4 5 (call_login hook r a : Js S Response).
Proof.
  unfold call_login. apply appends_bind with (b := 5%nat); [lia|apply appends_emit; cbn; lia|].
  intros _. apply appends_bind with (b := 5%nat); [lia|apply appends_lift|].
  intros; apply appends_ret.
Qed.

Lemma appends_decode_and_handle `{Platform} h p req :
  appends 1 3 (decode_and_handle h p req : Js S JsValue).
Proof.
  assert (Hcall : forall d, appends 1 3 (call_handler h d p req : Js S JsValue)).
  { intros d. eapply appends_weaken; [| |apply appends_call_handler]; lia. }
  assert (Hread : forall A k (r : option A) msg (f : A -> Payload),
    appends 1 3 (bind (read_body k r msg) (fun a => call_handler h (f a) p req) : Js S JsValue)).
  { intros. apply appends_bind with (b := 2%nat); [lia|apply appends_read_body|].
    intros; apply appends_call_handler. }
  unfold decode_and_handle. destruct (method req =? "GET").
  - apply appends_bind with (b := 1%nat); [lia|apply appends_lift|]. intros; apply Hcall.
  - destruct (content_type req) as [ct|]; [|apply Hcall].
    destruct (ct =? "application/json"); [apply Hread with (f := PJson)|].
    destruct (ct =? "text/plain"); [apply Hread with (f := PText)|].
    destruct (ct =? "multipart/form-data"); [apply Hread with (f := PFormData)|].
    apply Hcall.
Qed.
Lemma appends_decode_and_fail `{Platform} req :
  appends 1 3 (decode_and_fail req : Js S JsValue).
Proof.
  assert (Hcall : appends 1 3 (call_missing_handler : Js S JsValue)).
  { apply appends_throw. }
  assert (Hread : forall A k (r : option A) msg,
    appends 1 3 (bind (read_body k r msg) (fun _ => call_missing_handler) : Js S JsValue)).
  { intros. apply appends_bind with (b := 2%nat); [lia|apply appends_read_body|].
    intros; apply appends_throw. }
  unfold decode_and_fail. destruct (method req =? "GET").
  - apply appends_bind with (b := 1%nat); [lia|apply appends_lift|]. intros; apply Hcall.
  - destruct (content_type req) as [ct|]; [|apply Hcall].
    destruct (ct =? "application/json"); [apply Hread|].
    destruct (ct =? "text/plain"); [apply Hread|].
    destruct (ct =? "multipart/form-data"); [apply Hread|].
    apply Hcall.
Qed.
End Appends.

Lemma per_route_appends_respond entry req hd u v :
  appends 3 5 (PerRoute.respond entry req hd u v).
Proof.
  unfold PerRoute.respond.
  apply appends_bind with (b := 3%nat); [lia|apply appends_lift|]. intros r.
  apply appends_bind with (b := 4%nat); [lia| |].
  { destruct (PerRoute.sign entry); [apply appends_call_sign|apply appends_ret]. }
  intros r'.
  apply appends_bind with (b := 5%nat); [lia| |intros; apply appends_ret].
  destruct (PerRoute.login entry); [apply appends_call_login|apply appends_ret].
Qed.

Lemma per_route_appends_process `{Platform} entry req :
  appends 0 5 (PerRoute.process entry req).
Proof.
  unfold PerRoute.process.
  apply appends_bind with (b := 0%nat); [lia|apply appends_gets|]. intros hd.
  apply appends_bind with (b := 1%nat); [lia| |].
  { destruct (PerRoute.verify entry); [apply appends_call_verify|apply appends_ret]. }
  intros payload.
  apply appends_bind with (b := 3%nat); [lia|apply appends_decode_and_handle|].
  intros result. apply per_route_appends_respond.
Qed.

Lemma per_route_appends_process_inherited `{Platform} req :
  appends 0 5 (PerRoute.process_inherited req).
Proof.
  unfold PerRoute.process_inherited.
  apply appends_bind with (b := 0%nat); [lia|apply appends_gets|]. intros hd.
  apply appends_bind with (b := 3%nat); [lia| |intros; apply appends_lift].
  eapply appends_weaken; [| |apply appends_decode_and_fail]; lia.
Qed.

Lemma per_route_appends_on_error e : appends 5 6 (PerRoute.on_error e).
Proof.
  destruct e as [msg c|msg]; cbn [PerRoute.on_error].
  - apply appends_bind with (b := 5%nat); [lia| |intros; apply appends_lift].
    unfold PerRoute.Object_assign_DEFAULT_HEADERS.
    apply appends_bind with (b := 5%nat); [lia|apply appends_modify|].
    intros; apply appends_gets.
  - apply appends_bind with (b := 6%nat); [lia|apply appends_emit; cbn; lia|].
    intros _. apply appends_bind with (b := 6%nat); [lia|apply appends_gets|].
    intros; apply appends_lift.
Qed.

Lemma per_route_appends_on_request `{Platform} req : appends 0 6 (PerRoute.on_request req).
Proof.
  unfold PerRoute.on_request.
  apply appends_bind with (b := 0%nat); [lia|apply appends_gets|]. intros prefix.
  apply appends_bind with (b := 0%nat); [lia|apply appends_lift|]. intros U.
  assert (Hanswer : forall b s,
    appends 0 6 (bind (gets PerRoute.DEFAULT_HEADERS)
                      (fun h => lift (new_Response b s h)) : Js PerRoute.Router Response)).
  { intros. apply appends_bind with (b := 0%nat); [lia|apply appends_gets|].
    intros; apply appends_lift. }
  destruct (method req =? "OPTIONS"); [apply Hanswer|].
  apply appends_bind with (b := 0%nat); [lia|apply appends_gets|]. intros map.
  destruct (map !! route_key U) as [methods|]; [|apply Hanswer].
  destruct (Object_get methods (method req)) as [entry| |]; [| |apply Hanswer].
  - apply appends_try_catch with (b := 5%nat);
      [lia|apply per_route_appends_process|apply per_route_appends_on_error].
  - apply appends_try_catch with (b := 5%nat);
      [lia|apply per_route_appends_process_inherited|apply per_route_appends_on_error].
Qed.

Lemma mod_appends_respond entry req hd v : appends 3 5 (ModJs.respond entry req hd v).
Proof.
  unfold ModJs.respond.
  apply appends_bind with (b := 3%nat); [lia|apply appends_lift|]. intros r.
  apply appends_bind with (b := 3%nat); [lia|apply appends_gets|]. intros auth_sign.
  apply appends_bind with (b := 4%nat); [lia| |intros; apply appends_ret].
  destruct (ModJs.selected _ _); [apply appends_call_sign|apply appends_ret].
Qed.

Lemma mod_appends_process `{Platform} entry req : appends 0 5 (ModJs.process entry req).
Proof.
  unfold ModJs.process.
  apply appends_bind with (b := 0%nat); [lia|apply appends_gets|]. intros hd.
  apply appends_bind with (b := 0%nat); [lia|apply appends_gets|]. intros auth_verify.
  apply appends_bind with (b := 1%nat); [lia| |].
  { destruct (ModJs.selected _ _); [apply appends_call_verify|apply appends_ret]. }
  intros user.
  apply appends_bind with (b := 3%nat); [lia|apply appends_decode_and_handle|].
  intros result. apply mod_appends_respond.
Qed.

Lemma mod_appends_process_inherited `{Platform} req :
  appends 0 5 (ModJs.process_inherited req).
Proof.
  unfold ModJs.process_inherited.
  apply appends_bind with (b := 0%nat); [lia|apply appends_gets|]. intros hd.
  apply appends_bind with (b := 3%nat); [lia| |intros; apply appends_lift].
  eapply appends_weaken; [| |apply appends_decode_and_fail]; lia.
Qed.

Lemma mod_appends_on_error e : appends 5 6 (ModJs.on_error e).
Proof.
  destruct e as [msg c|msg]; cbn [ModJs.on_error].
  - apply appends_bind with (b := 5%nat); [lia| |intros; apply appends_lift].
    unfold ModJs.Object_assign_DEFAULT_HEADERS.
    apply appends_bind with (b := 5%nat); [lia|apply appends_modify|].
    intros; apply appends_gets.
  - apply appends_bind with (b := 6%nat); [lia|apply appends_emit; cbn; lia|].
    intros _. apply appends_bind with (b := 6%nat); [lia|apply appends_gets|].
    intros; apply appends_lift.
Qed.

Lemma mod_appends_on_request `{Platform} req : appends 0 6 (ModJs.on_request req).
Proof.
  unfold ModJs.on_request.
  apply appends_bind with (b := 0%nat); [lia|apply appends_gets|]. intros prefix.
  apply appends_bind with (b := 0%nat); [lia|apply appends_lift|]. intros U.
  assert (Hanswer : forall b s,
    appends 0 6 (bind (gets ModJs.DEFAULT_HEADERS)
                      (fun h => lift (new_Response b s h)) : Js ModJs.Router Response)).
  { intros. apply appends_bind with (b := 0%nat); [lia|apply appends_gets|].
    intros; apply appends_lift. }
  destruct (method req =? "OPTIONS"); [apply Hanswer|].
  apply appends_bind with (b := 0%nat); [lia|apply appends_gets|]. intros map.
  destruct (map !! route_key U) as [methods|]; [|apply Hanswer].
  destruct (Object_get methods (method req)) as [entry| |]; [| |apply Hanswer].
  - apply appends_try_catch with (b := 5%nat);
      [lia|apply mod_appends_process|apply mod_appends_on_error].
  - apply appends_try_catch with (b := 5%nat);
      [lia|apply mod_appends_process_inherited|apply mod_appends_on_error].
Qed.

(** Nothing of a stage outside the stretch. *)
Lemma within_none {A} (f : Event -> option A) lo hi t :
  (forall ev, is_Some (f ev) -> (stage ev < lo \/ hi <= stage ev)%nat) ->
  within lo hi t -> omap f t = [].
Proof.
  intros Hf [_ Hall]. induction Hall as [|ev t Hev _ IH]; [reflexivity|].
  cbn [omap list_omap]. destruct (f ev) eqn:Hfev; [|exact IH].
  assert (stage ev < lo \/ hi <= stage ev)%nat by (apply Hf; rewrite Hfev; eauto). lia.
Qed.

Lemma once_per_stage {A} (f : Event -> option A) n t :
  (forall ev, is_Some (f ev) -> stage ev = n) ->
  in_pipeline_order t = true -> (length (omap f t) <= 1)%nat.
Proof.
  intros Hf. induction t as [|a t IH]; [cbn; lia|].
  intros [Ho Hlt]%in_pipeline_order_cons. cbn [omap list_omap].
  destruct (f a) as [x|] eqn:Hfa; [|now apply IH].
  assert (Ha : stage a = n) by (apply Hf; rewrite Hfa; eauto).
  assert (Hnone : omap f t = []).
  { clear IH Ho. induction Hlt as [|b t Hb _ IH]; [reflexivity|].
    cbn [omap list_omap]. destruct (f b) eqn:Hfb; [|exact IH].
    assert (stage b = n) by (apply Hf; rewrite Hfb; eauto). lia. }
  rewrite Hnone. cbn. lia.
Qed.

(** *** What a computation reads and writes of the statics *)

Section Observes.
Context {S V : Type} (view : S -> V).

Lemma observes_ret {A} (a : A) : observes view (ret a).
Proof. now intros s s' t _. Qed.

Lemma observes_throw {A} e : observes view (throw e : Js S A).
Proof. now intros s s' t _. Qed.

Lemma observes_lift {A} (c : Completion A) : observes view (lift c).
Proof. now intros s s' t _. Qed.

Lemma observes_emit ev : observes view (emit ev).
Proof. now intros s s' t _. Qed.

Lemma observes_gets {A} (f : S -> A) :
  (forall s s', view s = view s' -> f s = f s') -> observes view (gets f).
Proof. intros Hf s s' t Hv. unfold gets. cbn. now rewrite (Hf s s' Hv). Qed.

Lemma observes_bind {A B} (m : Js S A) (k : A -> Js S B) :
  observes view m -> (forall x, observes view (k x)) -> observes view (bind m k).
Proof.
  intros Hm Hk s s' t Hv. unfold bind.
  rewrite (Hm s s' t Hv). pose proof (Hm s s t eq_refl) as Hs.
  destruct (m s t) as [[[x|e] s1] t1]; cbn in Hs |- *; injection Hs as <-;
    [|reflexivity].
  apply Hk, Hv.
Qed.

Lemma answers_by_try_catch {A} (m : Js S A) (h : JsError -> Js S A) :
  observes view m -> (forall e, answers_by view (h e)) -> answers_by view (try_catch m h).
Proof.
  intros Hm Hh s s' t Hv. unfold try_catch.
  rewrite (Hm s s' t Hv). pose proof (Hm s s t eq_refl) as Hs.
  destruct (m s t) as [[[x|e] s1] t1]; cbn in Hs |- *; injection Hs as <-;
    [now split|].
  apply Hh, Hv.
Qed.

Lemma observes_call_verify hook req : observes view (call_verify hook req).
Proof. apply observes_bind; [apply observes_emit|intros; apply observes_lift]. Qed.

Lemma observes_call_handler h d p req : observes view (call_handler h d p req).
Proof. apply observes_bind; [apply observes_emit|intros; apply observes_lift]. Qed.

Lemma observes_call_sign hook r a : observes view (call_sign hook r a).
Proof.
  apply observes_bind; [apply observes_emit|intros _].
  apply observes_bind; [apply observes_lift|intros; apply observes_ret].
Qed.

Lemma observes_call_login hook r a : observes view (call_login hook r a).
Proof.
  apply observes_bind; [apply observes_emit|intros _].
  apply observes_bind; [apply observes_lift|intros; apply observes_ret].
Qed.

Lemma observes_read_body {A} k (r : option A) msg : observes view (read_body k r msg).
Proof.
  apply observes_bind; [apply observes_emit|intros _].
  destruct r; [apply observes_ret|apply observes_throw].
Qed.

Lemma observes_decode_and_handle `{Platform} h p req :
  observes view (decode_and_handle h p req).
Proof.
  assert (Hread : forall A k (r : option A) msg (f : A -> Payload),
    observes view (bind (read_body k r msg) (fun a => call_handler h (f a) p req))).
  { intros. apply observes_bind; [apply observes_read_body|].
    intros; apply observes_call_handler. }
  unfold decode_and_handle. destruct (method req =? "GET").
  - apply observes_bind; [apply observes_lift|intros; apply observes_call_handler].
  - destruct (content_type req) as [ct|]; [|apply observes_call_handler].
    destruct (ct =? "application/json"); [apply Hread with (f := PJson)|].
    destruct (ct =? "text/plain"); [apply Hread with (f := PText)|].
    destruct (ct =? "multipart/form-data"); [apply Hread with (f := PFormData)|].
    apply observes_call_handler.
Qed.
Lemma observes_decode_and_fail `{Platform} req : observes view (decode_and_fail req).
Proof.
  assert (Hread : forall A k (r : option A) msg,
    observes view (bind (read_body k r msg) (fun _ => call_missing_handler))).
  { intros. apply observes_bind; [apply observes_read_body|].
    intros; apply observes_throw. }
  unfold decode_and_fail. destruct (method req =? "GET").
  - apply observes_bind; [apply observes_lift|intros; apply observes_throw].
  - destruct (content_type req) as [ct|]; [|apply observes_throw].
    destruct (ct =? "application/json"); [apply Hread|].
    destruct (ct =? "text/plain"); [apply Hread|].
    destruct (ct =? "multipart/form-data"); [apply Hread|].
    apply observes_throw.
Qed.
End Observes.

(** The [try] block reads the header template and nothing else of the
    statics, and writes nothing. *)
Lemma per_route_observes_process `{Platform} entry req :
  observes PerRoute.DEFAULT_HEADERS (PerRoute.process entry req).
Proof.
  unfold PerRoute.process.
  apply observes_bind; [now apply observes_gets|]. intros hd.
  apply observes_bind.
  { destruct (PerRoute.verify entry); [apply observes_call_verify|apply observes_ret]. }
  intros payload. apply observes_bind; [apply observes_decode_and_handle|].
  intros result. unfold PerRoute.respond.
  apply observes_bind; [apply observes_lift|]. intros r.
  apply observes_bind.
  { destruct (PerRoute.sign entry); [apply observes_call_sign|apply observes_ret]. }
  intros r'. apply observes_bind; [|intros; apply observes_ret].
  destruct (PerRoute.login entry); [apply observes_call_login|apply observes_ret].
Qed.

Lemma per_route_observes_process_inherited `{Platform} req :
  observes PerRoute.DEFAULT_HEADERS (PerRoute.process_inherited req).
Proof.
  unfold PerRoute.process_inherited.
  apply observes_bind; [now apply observes_gets|]. intros hd.
  apply observes_bind; [apply observes_decode_and_fail|intros; apply observes_lift].
Qed.

Lemma per_route_answers_by_on_error e :
  answers_by PerRoute.DEFAULT_HEADERS (PerRoute.on_error e).
Proof.
  intros s s' t Hv. rewrite !PerRouteFacts.on_error_run.
  destruct e; cbn; rewrite Hv; now split.
Qed.

Lemma mod_observes_process `{Platform} entry req :
  observes mod_view (ModJs.process entry req).
Proof.
  unfold ModJs.process.
  apply observes_bind; [apply observes_gets; unfold mod_view; congruence|]. intros hd.
  apply observes_bind; [apply observes_gets; unfold mod_view; congruence|]. intros av.
  apply observes_bind.
  { destruct (ModJs.selected _ _); [apply observes_call_verify|apply observes_ret]. }
  intros payload. apply observes_bind; [apply observes_decode_and_handle|].
  intros result. unfold ModJs.respond.
  apply observes_bind; [apply observes_lift|]. intros r.
  apply observes_bind; [apply observes_gets; unfold mod_view; congruence|]. intros asg.
  apply observes_bind; [|intros; apply observes_ret].
  destruct (ModJs.selected _ _); [apply observes_call_sign|apply observes_ret].
Qed.

Lemma mod_observes_process_inherited `{Platform} req :
  observes mod_view (ModJs.process_inherited req).
Proof.
  unfold ModJs.process_inherited.
  apply observes_bind; [apply observes_gets; unfold mod_view; congruence|]. intros hd.
  apply observes_bind; [apply observes_decode_and_fail|intros; apply observes_lift].
Qed.

Lemma mod_answers_by_on_error e : answers_by mod_view (ModJs.on_error e).
Proof.
  intros s s' t Hv. rewrite !ModJsFacts.mod_on_error_run.
  assert (ModJs.DEFAULT_HEADERS s = ModJs.DEFAULT_HEADERS s') as -> by (unfold mod_view in Hv; congruence).
  destruct e; cbn; now split.
Qed.

(** *** The closure, case by case *)

(** The closure, with the reads of the statics written out. *)
Lemma per_route_on_request_unfold `{Platform} req R t :
  PerRoute.on_request req R t =
  match request_URL (PerRoute.API_PREFIX R) req with
  | Throw e => (Throw e, R, t)
  | Normal U =>
      if method req =? "OPTIONS" then
        (new_Response None 200%Z (PerRoute.DEFAULT_HEADERS R), R, t)
      else
        match PerRoute.ROUTER_MAP R !! route_key U with
        | None =>
            (new_Response (Some ("Request path " +:+ route_key U +:+ " does not exist"))
               404%Z (PerRoute.DEFAULT_HEADERS R), R, t)
        | Some methods =>
            match Object_get methods (method req) with
            | Undefined =>
                (new_Response
                   (Some ("Request method " +:+ method req +:+ " does not exist on path "
                          +:+ route_key U)) 405%Z (PerRoute.DEFAULT_HEADERS R), R, t)
            | Own entry => try_catch (PerRoute.process entry req) PerRoute.on_error R t
            | Inherited => try_catch (PerRoute.process_inherited req) PerRoute.on_error R t
            end
        end
  end.
Proof.
  unfold PerRoute.on_request, bind, gets, lift.
  destruct (request_URL (PerRoute.API_PREFIX R) req) as [U|e]; [|reflexivity].
  destruct (method req =? "OPTIONS"); [reflexivity|].
  destruct (PerRoute.ROUTER_MAP R !! route_key U) as [methods|]; [|reflexivity].
  destruct (Object_get methods (method req)); reflexivity.
Qed.

Lemma mod_on_request_unfold `{Platform} req R t :
  ModJs.on_request req R t =
  match request_URL (ModJs.API_PREFIX R) req with
  | Throw e => (Throw e, R, t)
  | Normal U =>
      if method req =? "OPTIONS" then
        (new_Response None 200%Z (ModJs.DEFAULT_HEADERS R), R, t)
      else
        match ModJs.ROUTER_MAP R !! route_key U with
        | None =>
            (new_Response (Some ("Request path " +:+ route_key U +:+ " does not exist"))
               404%Z (ModJs.DEFAULT_HEADERS R), R, t)
        | Some methods =>
            match Object_get methods (method req) with
            | Undefined =>
                (new_Response
                   (Some ("Request method " +:+ method req +:+ " does not exist on path "
                          +:+ route_key U)) 405%Z (ModJs.DEFAULT_HEADERS R), R, t)
            | Own entry => try_catch (ModJs.process entry req) ModJs.on_error R t
            | Inherited => try_catch (ModJs.process_inherited req) ModJs.on_error R t
            end
        end
  end.
Proof.
  unfold ModJs.on_request, bind, gets, lift.
  destruct (request_URL (ModJs.API_PREFIX R) req) as [U|e]; [|reflexivity].
  destruct (method req =? "OPTIONS"); [reflexivity|].
  destruct (ModJs.ROUTER_MAP R !! route_key U) as [methods|]; [|reflexivity].
  destruct (Object_get methods (method req)); reflexivity.
Qed.



(** *** The route key and the prefix *)

Lemma String_split_free sep s :
  string_has sep s = false -> String_split sep s = [s].
Proof.
  induction s as [|c s IH]; [reflexivity|]. cbn.
  intros [Hc Hs]%orb_false_iff. rewrite Hc, (IH Hs). reflexivity.
Qed.

Lemma String_split_segment sep a b :
  string_has sep a = false ->
  String_split sep (a +:+ String sep b) = a :: String_split sep b.
Proof.
  induction a as [|c a IH]; simpl.
  - intros _. now rewrite Ascii.eqb_refl.
  - intros [Hc Ha]%orb_false_iff. rewrite Hc, (IH Ha). reflexivity.
Qed.

Lemma String_split_pieces sep s :
  String_split sep s <> [] /\
  Forall (fun piece => string_has sep piece = false) (String_split sep s).
Proof.
  induction s as [|c s [Hne IH]]; cbn.
  - split; [discriminate|]. repeat constructor.
  - destruct (Ascii.eqb c sep) eqn:Hc.
    + split; [discriminate|]. constructor; [reflexivity|exact IH].
    + destruct (String_split sep s) as [|x xs]; [contradiction|].
      split; [discriminate|]. inversion IH; subst.
      constructor; [|assumption]. cbn. now rewrite Hc.
Qed.

Lemma route_key_shape U :
  exists seg, route_key U = "/" +:+ seg /\ string_has "/" seg = false.
Proof.
  unfold route_key.
  destruct (String_split_pieces "/" (pathname U)) as [_ Hall].
  destruct (String_split "/" (pathname U) !! 1%nat) as [seg|] eqn:Hseg; cbn.
  - exists seg. split; [reflexivity|].
    rewrite Forall_forall in Hall. apply Hall.
    eapply list_elem_of_lookup_2; eassumption.
  - exists "undefined". split; reflexivity.
Qed.

Lemma route_key_first_segment seg rest q :
  string_has "/" seg = false ->
  route_key (mkURL ("/" +:+ seg) q) = "/" +:+ seg /\
  route_key (mkURL ("/" +:+ seg +:+ String "/" rest) q) = "/" +:+ seg.
Proof.
  intros Hseg. unfold route_key. cbn [pathname]. split.
  - change ("/" +:+ seg) with (String "/" seg). cbn.
    now rewrite (String_split_free _ _ Hseg).
  - change ("/" +:+ seg +:+ String "/" rest) with (String "/" (seg +:+ String "/" rest)).
    cbn. now rewrite (String_split_segment _ _ _ Hseg).
Qed.

Lemma String_replace_absent s pat rep :
  occurs pat s = false -> String_replace s pat rep = s.
Proof.
  induction s as [|c s IH]; cbn.
  - intros [Hp _]%orb_false_iff. destruct pat; [discriminate|reflexivity].
  - intros [Hp Ho]%orb_false_iff.
    destruct pat as [|x pat]; [discriminate|].
    cbn in Hp. destruct (ascii_dec x c) as [->|Hne].
    + rewrite Hp. now rewrite (IH Ho).
    + now rewrite (IH Ho).
Qed.

Lemma String_replace_unfold s pat rep :
  String_replace s pat rep =
  if String.prefix pat s then rep +:+ string_drop (String.length pat) s
  else match s with
       | EmptyString => EmptyString
       | String c s' => String c (String_replace s' pat rep)
       end.
Proof. destruct s; reflexivity. Qed.


(** What [Route] leaves of the statics. *)
Lemma per_route_Route_statics path method handler o R t :
  let R' := statics (PerRoute.Route path method handler o R t) in
  PerRoute.API_PREFIX R' = PerRoute.API_PREFIX R /\
  PerRoute.DEFAULT_HEADERS R' = PerRoute.DEFAULT_HEADERS R /\
  (R' = R \/
   PerRoute.ROUTER_MAP R' =
     <[path := <[method := PerRoute.mkEntry handler (as_hook (PerRoute.opt_verify o))
                             (as_hook (PerRoute.opt_sign o))
                             (as_hook (PerRoute.opt_login o)) (PerRoute.opt_raw o)]>
                 (default ∅ (PerRoute.ROUTER_MAP R !! path))]> (PerRoute.ROUTER_MAP R)).
Proof.
  unfold PerRoute.Route.
  repeat match goal with
         | |- context [if ?c then _ else _] => destruct c; [cbn; auto|]
         end.
  cbn. auto.
Qed.




Lemma String_replace_first_at n s pat rep :
  first_at n pat s = true ->
  String_replace s pat rep
  = substring 0 n s +:+ rep +:+ string_drop (n + String.length pat) s.
Proof.
  revert s. induction n as [|n IH]; intros s.
  - cbn [first_at]. intros Hp. rewrite String_replace_unfold, Hp.
    now destruct s.
  - cbn [first_at]. intros [Hp Hrest]%andb_true_iff. apply negb_true_iff in Hp.
    rewrite String_replace_unfold, Hp.
    destruct s as [|c s]; [discriminate|].
    rewrite (IH s Hrest). reflexivity.
Qed.

Lemma request_URL_unprefixed `{Platform} p req :
  p = EmptyString \/ occurs p (url req) = false ->
  request_URL (Some p) req = request_URL None req.
Proof.
  intros [->|Habsent]; [reflexivity|]. unfold request_URL.
  destruct (truthy_string p); [|reflexivity].
  now rewrite String_replace_absent.
Qed.

Lemma per_route_on_request_prefix `{Platform} R R' req t :
  request_URL (PerRoute.API_PREFIX R') req = request_URL (PerRoute.API_PREFIX R) req ->
  PerRoute.DEFAULT_HEADERS R' = PerRoute.DEFAULT_HEADERS R ->
  PerRoute.ROUTER_MAP R' = PerRoute.ROUTER_MAP R ->
  outcome (PerRoute.on_request req R' t) = outcome (PerRoute.on_request req R t) /\
  trace (PerRoute.on_request req R' t) = trace (PerRoute.on_request req R t).
Proof.
  intros Hp Hh Hm. rewrite !per_route_on_request_unfold, Hp, Hh, Hm.
  destruct (request_URL (PerRoute.API_PREFIX R) req) as [U|e]; [|now split].
  destruct (method req =? "OPTIONS"); [now split|].
  destruct (PerRoute.ROUTER_MAP R !! route_key U) as [methods|]; [|now split].
  destruct (Object_get methods (method req)) as [entry| |]; [| |now split];
    apply (answers_by_try_catch PerRoute.DEFAULT_HEADERS);
    first [apply per_route_observes_process|apply per_route_observes_process_inherited
          |apply per_route_answers_by_on_error|now symmetry].
Qed.

Lemma mod_on_request_prefix `{Platform} R R' req t :
  request_URL (ModJs.API_PREFIX R') req = request_URL (ModJs.API_PREFIX R) req ->
  mod_view R' = mod_view R ->
  ModJs.ROUTER_MAP R' = ModJs.ROUTER_MAP R ->
  outcome (ModJs.on_request req R' t) = outcome (ModJs.on_request req R t) /\
  trace (ModJs.on_request req R' t) = trace (ModJs.on_request req R t).
Proof.
  intros Hp Hv Hm. rewrite !mod_on_request_unfold, Hp, Hm.
  assert (ModJs.DEFAULT_HEADERS R' = ModJs.DEFAULT_HEADERS R) as ->
    by (unfold mod_view in Hv; congruence).
  destruct (request_URL (ModJs.API_PREFIX R) req) as [U|e]; [|now split].
  destruct (method req =? "OPTIONS"); [now split|].
  destruct (ModJs.ROUTER_MAP R !! route_key U) as [methods|]; [|now split].
  destruct (Object_get methods (method req)) as [entry| |]; [| |now split];
    apply (answers_by_try_catch mod_view);
    first [apply mod_observes_process|apply mod_observes_process_inherited
          |apply mod_answers_by_on_error|now symmetry].
Qed.

(** *** Registration *)

Lemma register_twice {E} (M : gmap string (gmap string E)) p m e1 e2 :
  let M1 := <[p := <[m := e1]> (default ∅ (M !! p))]> M in
  <[p := <[m := e2]> (default ∅ (M1 !! p))]> M1 = <[p := <[m := e2]> (default ∅ (M !! p))]> M.
Proof.
  cbv zeta. rewrite lookup_insert_eq. cbn [from_option id].
  now rewrite !insert_insert_eq.
Qed.

Lemma register_commute {E} (M : gmap string (gmap string E)) p1 m1 e1 p2 m2 e2 :
  (p1, m1) <> (p2, m2) ->
  let M1 := <[p1 := <[m1 := e1]> (default ∅ (M !! p1))]> M in
  let M2 := <[p2 := <[m2 := e2]> (default ∅ (M !! p2))]> M in
  <[p2 := <[m2 := e2]> (default ∅ (M1 !! p2))]> M1
  = <[p1 := <[m1 := e1]> (default ∅ (M2 !! p1))]> M2.
Proof.
  intros Hne. cbv zeta. destruct (decide (p1 = p2)) as [->|Hp].
  - assert (m1 <> m2) by congruence.
    rewrite !lookup_insert_eq. cbn [from_option id]. rewrite !insert_insert_eq.
    f_equal. now apply insert_insert_ne.
  - rewrite !lookup_insert_ne by congruence. now apply insert_insert_ne.
Qed.

Lemma per_route_Route_run path m handler o R t :
  statics (PerRoute.Route path m handler o R t) =
  if PerRoute.hooks_callable o then
    PerRoute.set_ROUTER_MAP
      (<[path := <[m := PerRoute.mkEntry handler (as_hook (PerRoute.opt_verify o))
                          (as_hook (PerRoute.opt_sign o))
                          (as_hook (PerRoute.opt_login o)) (PerRoute.opt_raw o)]>
                  (default ∅ (PerRoute.ROUTER_MAP R !! path))]> (PerRoute.ROUTER_MAP R)) R
  else R.
Proof.
  unfold PerRoute.Route, PerRoute.hooks_callable.
  destruct (provided (PerRoute.opt_verify o) && _); [reflexivity|].
  destruct (provided (PerRoute.opt_sign o) && _); [reflexivity|].
  destruct (provided (PerRoute.opt_login o) && _); reflexivity.
Qed.

(** *** The try block, stage by stage *)

Lemma logged_app t1 t2 : logged (t1 ++ t2) = logged t1 ++ logged t2.
Proof. apply omap_app. Qed.

Lemma verify_calls_app t1 t2 : verify_calls (t1 ++ t2) = verify_calls t1 ++ verify_calls t2.
Proof. apply omap_app. Qed.

Lemma per_route_process_run `{Platform} entry req R t :
  exists ext,
    PerRoute.process entry req R t = (outcome (PerRoute.process entry req R t), R, t ++ ext) /\
    within 0 5 ext.
Proof.
  destruct (per_route_appends_process entry req R t) as (ext & Ht & Hw).
  exists ext. split; [|assumption].
  rewrite (per_route_observes_process entry req R R t eq_refl) at 1. now rewrite Ht.
Qed.

Lemma mod_process_run `{Platform} entry req R t :
  exists ext,
    ModJs.process entry req R t = (outcome (ModJs.process entry req R t), R, t ++ ext) /\
    within 0 5 ext.
Proof.
  destruct (mod_appends_process entry req R t) as (ext & Ht & Hw).
  exists ext. split; [|assumption].
  rewrite (mod_observes_process entry req R R t eq_refl) at 1. now rewrite Ht.
Qed.

Lemma within_not_logged lo t : within lo 5 t -> logged t = [].
Proof.
  apply within_none. intros [] [x Hx]; try discriminate. cbn. lia.
Qed.

Lemma decode_and_handle_stages `{Platform} {S} h p req (s : S) t :
  (exists reads e,
      within 1 2 reads /\
      decode_and_handle h p req s t = (Throw e, s, t ++ reads)) \/
  (exists reads d,
      within 1 2 reads /\
      decode_and_handle h p req s t = (h d p req, s, t ++ reads ++ [CallHandler d p req])).
Proof.
  unfold decode_and_handle.
  assert (Hnone : forall d, exists reads d0, within 1 2 reads /\
    call_handler h d p req s t = (h d0 p req, s, t ++ reads ++ [CallHandler d0 p req])).
  { intros d. exists [], d. split; [apply within_nil|]. run_js. reflexivity. }
  assert (Hread : forall A k (r : option A) msg (f : A -> Payload),
    (exists reads e, within 1 2 reads /\
       bind (read_body k r msg) (fun a => call_handler h (f a) p req) s t
       = (Throw e, s, t ++ reads)) \/
    (exists reads d, within 1 2 reads /\
       bind (read_body k r msg) (fun a => call_handler h (f a) p req) s t
       = (h d p req, s, t ++ reads ++ [CallHandler d p req]))).
  { intros A k [a|] msg f.
    - right. exists [ReadBody k], (f a). split; [apply within_single; cbn; lia|].
      run_js. rewrite <- app_assoc. reflexivity.
    - left. exists [ReadBody k], (CustomError_new msg (Some 400%Z)).
      split; [apply within_single; cbn; lia|]. run_js. reflexivity. }
  destruct (method req =? "GET").
  - destruct (URL_new (url req)) as [U|e] eqn:HU.
    + right. exists [], (PQuery (Object_fromEntries (searchParams U))).
      split; [apply within_nil|]. run_js. reflexivity.
    + left. exists [], e. split; [apply within_nil|]. run_js. now rewrite app_nil_r.
  - destruct (content_type req) as [ct|]; [|right; apply Hnone].
    destruct (ct =? "application/json"); [apply Hread with (f := PJson)|].
    destruct (ct =? "text/plain"); [apply Hread with (f := PText)|].
    destruct (ct =? "multipart/form-data"); [apply Hread with (f := PFormData)|].
    right; apply Hnone.
Qed.

Lemma within_reads_calls reads :
  within 1 2 reads ->
  handler_calls reads = [] /\ verify_calls reads = [] /\ logged reads = [] /\
  hook_calls reads = [].
Proof.
  intros Hw. repeat split; (eapply within_none; [|exact Hw]);
    intros [] [x Hx]; try discriminate; cbn; lia.
Qed.

Lemma within_tail_calls t :
  within 3 6 t -> handler_calls t = [] /\ verify_calls t = [] /\ body_reads t = [].
Proof.
  intros Hw. repeat split; (eapply within_none; [|exact Hw]);
    intros [] [x Hx]; try discriminate; cbn; lia.
Qed.

Module PerRouteStages.
Import PerRoute PerRouteFacts PerRouteRuns.
Section Stages.
Context `{Platform}.
Implicit Types (R : Router) (req : Request) (entry : MethodEntry) (t : list Event).

Lemma process_stages entry req R t :
  (exists hook e,
      verify entry = Some hook /\ hook req = Throw e /\
      process entry req R t = (Throw e, R, t ++ [CallVerify req])) \/
  (exists u reads e,
      verified entry req u /\ within 1 2 reads /\
      process entry req R t = (Throw e, R, t ++ verify_trace entry req ++ reads)) \/
  (exists u reads d,
      verified entry req u /\ within 1 2 reads /\
      process entry req R t =
        bind (lift (handler entry d u req)) (respond entry req (DEFAULT_HEADERS R) u) R
             (t ++ verify_trace entry req ++ reads ++ [CallHandler d u req])).
Proof.
  unfold process, verified, verify_trace.
  destruct (verify entry) as [hook|].
  - destruct (hook req) as [u|e] eqn:Hv.
    + right.
      destruct (decode_and_handle_stages (handler entry) u req R (t ++ [CallVerify req]))
        as [(reads & e & Hr & Hd)|(reads & d & Hr & Hd)].
      * left. exists u, reads, e. repeat split; [apply Hr..|].
        run_js. rewrite Hv, Hd. now rewrite <- app_assoc.
      * right. exists u, reads, d. repeat split; [apply Hr..|].
        run_js. rewrite Hv, Hd. now rewrite <- !app_assoc.
    + left. exists hook, e. repeat split; try assumption.
      run_js. now rewrite Hv.
  - right.
    destruct (decode_and_handle_stages (handler entry) VNull req R t)
      as [(reads & e & Hr & Hd)|(reads & d & Hr & Hd)].
    + left. exists VNull, reads, e. repeat split; [apply Hr..|].
      run_js. now rewrite Hd.
    + right. exists VNull, reads, d. repeat split; [apply Hr..|].
      run_js. now rewrite Hd.
Qed.

Lemma after_handler_stages entry req hd u (c : Completion JsValue) R t :
  exists t',
    trace (try_catch (bind (lift c) (respond entry req hd u)) on_error R t) = t ++ t' /\
    within 3 6 t'.
Proof.
  apply (appends_try_catch 3 5 6); [lia| |apply per_route_appends_on_error].
  apply appends_bind with (b := 3%nat); [lia|apply appends_lift|].
  intros; apply per_route_appends_respond.
Qed.

Lemma verify_trace_stages entry req :
  handler_calls (verify_trace entry req) = [] /\ logged (verify_trace entry req) = [] /\
  body_reads (verify_trace entry req) = [] /\ hook_calls (verify_trace entry req) = [].
Proof. unfold verify_trace. now destruct (verify entry). Qed.

(** A call of the handler in the trace of a matched request: it is the
    only one, it follows a completed verify step and at most one read of
    the body, and the second half of the [try] block follows it. *)
Lemma handled_stages R req entry d p r :
  matched R req entry ->
  In (d, p, r) (handler_calls (trace (on_request req R []))) ->
  r = req /\ verified entry req p /\
  exists reads,
    within 1 2 reads /\
    on_request req R [] =
      try_catch (bind (lift (handler entry d p req))
                      (respond entry req (DEFAULT_HEADERS R) p)) on_error R
        (verify_trace entry req ++ reads ++ [CallHandler d p req]).
Proof.
  intros Hm Hin. rewrite (on_request_matched _ _ _ _ Hm) in Hin |- *.
  unfold try_catch at 1 in Hin. unfold try_catch at 1.
  destruct (verify_trace_stages entry req) as (Hvc & _).
  destruct (process_stages entry req R [])
    as [(hook & e & Hv & Hh & Hp)|[(u & reads & e & Hv & Hr & Hp)|(u & reads & d0 & Hv & Hr & Hp)]];
    rewrite Hp in Hin |- *; cbn [app] in Hin |- *.
  - exfalso. destruct (on_error_trace e R [CallVerify req]) as (t' & Ht' & Hq).
    rewrite Ht', handler_calls_app, (quiet_handler_calls _ Hq) in Hin. exact Hin.
  - exfalso. destruct (on_error_trace e R (verify_trace entry req ++ reads)) as (t' & Ht' & Hq).
    destruct (within_reads_calls _ Hr) as (Hrc & _).
    rewrite Ht', !handler_calls_app, Hvc, Hrc, (quiet_handler_calls _ Hq) in Hin. exact Hin.
  - destruct (within_reads_calls _ Hr) as (Hrc & _).
    fold (try_catch (bind (lift (handler entry d0 u req))
                          (respond entry req (DEFAULT_HEADERS R) u)) on_error R
            (verify_trace entry req ++ reads ++ [CallHandler d0 u req])) in Hin |- *.
    destruct (after_handler_stages entry req (DEFAULT_HEADERS R) u (handler entry d0 u req) R
                (verify_trace entry req ++ reads ++ [CallHandler d0 u req]))
      as (t' & Ht' & Hw).
    destruct (within_tail_calls _ Hw) as (Htc & _).
    rewrite Ht', !handler_calls_app, Hvc, Hrc, Htc in Hin.
    destruct Hin as [[= <- <- <-]|[]].
    repeat split; try assumption. exists reads. split; [assumption|reflexivity].
Qed.
End Stages.
End PerRouteStages.

Module ModJsStages.
Import ModJs ModJsFacts ModJsRuns.
Section Stages.
Context `{Platform}.
Implicit Types (R : Router) (req : Request) (entry : MethodEntry) (t : list Event).

Lemma mod_process_stages entry req R t :
  (exists hook e,
      selected (verify entry) (AUTH_VERIFY R) = Some hook /\ hook req = Throw e /\
      process entry req R t = (Throw e, R, t ++ [CallVerify req])) \/
  (exists u reads e,
      verified R entry req u /\ within 1 2 reads /\
      process entry req R t = (Throw e, R, t ++ verify_trace R entry req ++ reads)) \/
  (exists u reads d,
      verified R entry req u /\ within 1 2 reads /\
      process entry req R t =
        bind (lift (handler entry d u req)) (respond entry req (DEFAULT_HEADERS R)) R
             (t ++ verify_trace R entry req ++ reads ++ [CallHandler d u req])).
Proof.
  unfold process, verified, verify_trace.
  destruct (selected (verify entry) (AUTH_VERIFY R)) as [hook|] eqn:Hsel.
  - destruct (hook req) as [u|e] eqn:Hv.
    + right.
      destruct (decode_and_handle_stages (handler entry) u req R (t ++ [CallVerify req]))
        as [(reads & e & Hr & Hd)|(reads & d & Hr & Hd)].
      * left. exists u, reads, e. repeat split; [apply Hr..|].
        run_js. rewrite Hsel, Hv, Hd. now rewrite <- app_assoc.
      * right. exists u, reads, d. repeat split; [apply Hr..|].
        run_js. rewrite Hsel, Hv, Hd. now rewrite <- !app_assoc.
    + left. exists hook, e. repeat split; try assumption.
      run_js. now rewrite Hsel, Hv.
  - right.
    destruct (decode_and_handle_stages (handler entry) VNull req R t)
      as [(reads & e & Hr & Hd)|(reads & d & Hr & Hd)].
    + left. exists VNull, reads, e. repeat split; [apply Hr..|].
      run_js. now rewrite Hsel, Hd.
    + right. exists VNull, reads, d. repeat split; [apply Hr..|].
      run_js. now rewrite Hsel, Hd.
Qed.

Lemma mod_after_handler_stages entry req hd (c : Completion JsValue) R t :
  exists t',
    trace (try_catch (bind (lift c) (respond entry req hd)) on_error R t) = t ++ t' /\
    within 3 6 t'.
Proof.
  apply (appends_try_catch 3 5 6); [lia| |apply mod_appends_on_error].
  apply appends_bind with (b := 3%nat); [lia|apply appends_lift|].
  intros; apply mod_appends_respond.
Qed.

Lemma mod_verify_trace_stages R entry req :
  handler_calls (verify_trace R entry req) = [] /\ logged (verify_trace R entry req) = [] /\
  body_reads (verify_trace R entry req) = [] /\ hook_calls (verify_trace R entry req) = [].
Proof. unfold verify_trace. now destruct (selected _ _). Qed.

Lemma mod_handled_stages R req entry d p r :
  matched R req entry ->
  In (d, p, r) (handler_calls (trace (on_request req R []))) ->
  r = req /\ verified R entry req p /\
  exists reads,
    within 1 2 reads /\
    on_request req R [] =
      try_catch (bind (lift (handler entry d p req))
                      (respond entry req (DEFAULT_HEADERS R))) on_error R
        (verify_trace R entry req ++ reads ++ [CallHandler d p req]).
Proof.
  intros Hm Hin. rewrite (mod_on_request_matched _ _ _ _ Hm) in Hin |- *.
  unfold try_catch at 1 in Hin. unfold try_catch at 1.
  destruct (mod_verify_trace_stages R entry req) as (Hvc & _).
  destruct (mod_process_stages entry req R [])
    as [(hook & e & Hv & Hh & Hp)|[(u & reads & e & Hv & Hr & Hp)|(u & reads & d0 & Hv & Hr & Hp)]];
    rewrite Hp in Hin |- *; cbn [app] in Hin |- *.
  - exfalso. destruct (mod_on_error_trace e R [CallVerify req]) as (t' & Ht' & Hq).
    rewrite Ht', handler_calls_app, (quiet_handler_calls _ Hq) in Hin. exact Hin.
  - exfalso.
    destruct (mod_on_error_trace e R (verify_trace R entry req ++ reads)) as (t' & Ht' & Hq).
    destruct (within_reads_calls _ Hr) as (Hrc & _).
    rewrite Ht', !handler_calls_app, Hvc, Hrc, (quiet_handler_calls _ Hq) in Hin. exact Hin.
  - destruct (within_reads_calls _ Hr) as (Hrc & _).
    fold (try_catch (bind (lift (handler entry d0 u req))
                          (respond entry req (DEFAULT_HEADERS R))) on_error R
            (verify_trace R entry req ++ reads ++ [CallHandler d0 u req])) in Hin |- *.
    destruct (mod_after_handler_stages entry req (DEFAULT_HEADERS R) (handler entry d0 u req) R
                (verify_trace R entry req ++ reads ++ [CallHandler d0 u req]))
      as (t' & Ht' & Hw).
    destruct (within_tail_calls _ Hw) as (Htc & _).
    rewrite Ht', !handler_calls_app, Hvc, Hrc, Htc in Hin.
    destruct Hin as [[= <- <- <-]|[]].
    repeat split; try assumption. exists reads. split; [assumption|reflexivity].
Qed.
End Stages.
End ModJsStages.

(** *** The encoder and the decoder *)

Lemma encode_headers v st hd r :
  encode v st hd = Normal r ->
  match v with
  | VResponse given => r = given
  | VObject _ => headers r = <["Content-Type" := "application/json"]> hd
  | _ => headers r = <["Content-Type" := "text/plain"]> hd
  end.
Proof.
  intros He. unfold encode, new_Response in He. cbv zeta in He.
  destruct v as [| | | | | | | | | |[b|e]]; try discriminate;
    repeat match type of He with
           | (if ?c then _ else _) = _ => destruct c; try discriminate
           end; inversion He; subst; cbn [headers];
    first [reflexivity|apply Response_headers_typed].
Qed.

(** The encoder fails in its default branch and when [JSON.stringify]
    throws, and never otherwise: the constructor of the response accepts
    both default statuses with any body. *)
Lemma encode_succeeds v req hd :
  typeof v <> "number" -> typeof v <> "symbol" -> typeof v <> "function" ->
  (forall e, v <> VObject (Throw e)) ->
  exists r, encode v (responseStatus req) hd = Normal r.
Proof.
  intros Hn Hs Hf Hj. unfold encode, new_Response, responseStatus.
  destruct (method req =? "POST"); cbv zeta;
    (destruct v as [| | | | | | | | | |[b|e]]; cbn in *; try contradiction;
     [eauto..| |now destruct (Hj e)]);
    destruct b; cbn; eauto.
Qed.

Lemma decode_get `{Platform} {S} h p req U (s : S) t :
  method req = "GET" -> URL_new (url req) = Normal U ->
  decode_and_handle h p req s t
  = (h (PQuery (Object_fromEntries (searchParams U))) p req, s,
     t ++ [CallHandler (PQuery (Object_fromEntries (searchParams U))) p req]).
Proof.
  intros Hget HU. unfold decode_and_handle. rewrite Hget. cbn [String.eqb Ascii.eqb Bool.eqb].
  run_js. now rewrite HU.
Qed.

Lemma decoded_run `{Platform} {S} h p req k d (s : S) t :
  method req <> "GET" -> decoded req k d ->
  decode_and_handle h p req s t = (h d p req, s, t ++ [ReadBody k; CallHandler d p req]).
Proof.
  intros Hget Hdec. unfold decode_and_handle.
  destruct (String.eqb_spec (method req) "GET") as [|_]; [contradiction|].
  destruct Hdec as [(-> & -> & v & -> & ->)|[(-> & -> & v & -> & ->)|(-> & -> & v & -> & ->)]];
    cbn; now rewrite <- app_assoc.
Qed.

Lemma per_route_verified_run `{Platform} R req entry u c T :
  PerRoute.matched R req entry ->
  PerRoute.verified entry req u ->
  decode_and_handle (PerRoute.handler entry) u req R (PerRoute.verify_trace entry req)
  = (c, R, T) ->
  PerRoute.on_request req R [] =
  try_catch (bind (lift c) (PerRoute.respond entry req (PerRoute.DEFAULT_HEADERS R) u))
            PerRoute.on_error R T.
Proof.
  intros Hm Hv Hd. rewrite (PerRouteFacts.on_request_matched _ _ _ _ Hm).
  unfold PerRoute.process, PerRoute.verified, PerRoute.verify_trace in *.
  destruct (PerRoute.verify entry) as [hook|].
  - run_js. rewrite Hv. cbn [app]. now rewrite Hd.
  - subst u. run_js. now rewrite Hd.
Qed.

Lemma mod_verified_run `{Platform} R req entry u c T :
  ModJs.matched R req entry ->
  ModJs.verified R entry req u ->
  decode_and_handle (ModJs.handler entry) u req R (ModJs.verify_trace R entry req)
  = (c, R, T) ->
  ModJs.on_request req R [] =
  try_catch (bind (lift c) (ModJs.respond entry req (ModJs.DEFAULT_HEADERS R)))
            ModJs.on_error R T.
Proof.
  intros Hm Hv Hd. rewrite (ModJsFacts.mod_on_request_matched _ _ _ _ Hm).
  unfold ModJs.process, ModJs.verified, ModJs.verify_trace in *.
  destruct (ModJs.selected (ModJs.verify entry) (ModJs.AUTH_VERIFY R)) as [hook|] eqn:Hsel.
  - run_js. rewrite Hsel, Hv. cbn [app]. now rewrite Hd.
  - subst u. run_js. rewrite Hsel. now rewrite Hd.
Qed.

Lemma mod_on_error_calls e R t :
  hook_calls (trace (ModJs.on_error e R t)) = hook_calls t /\
  verify_calls (trace (ModJs.on_error e R t)) = verify_calls t /\
  handler_calls (trace (ModJs.on_error e R t)) = handler_calls t.
Proof.
  rewrite ModJsFacts.mod_on_error_run. destruct e; cbn [trace snd]; [auto|].
  rewrite hook_calls_app, verify_calls_app, handler_calls_app. cbn.
  now rewrite !app_nil_r.
Qed.

(** *** The two variants side by side *)

Lemma decode_and_handle_frame `{Platform} {S S'} h p req (s : S) (s' : S') t :
  decode_and_handle h p req s' t
  = (outcome (decode_and_handle h p req s t), s', trace (decode_and_handle h p req s t)).
Proof.
  unfold decode_and_handle.
  destruct (method req =? "GET").
  - run_js. now destruct (URL_new (url req)).
  - destruct (content_type req) as [ct|]; [|reflexivity].
    destruct (ct =? "application/json"); [run_js; now destruct (json req)|].
    destruct (ct =? "text/plain"); [run_js; now destruct (text req)|].
    destruct (ct =? "multipart/form-data"); [run_js; now destruct (formData req)|].
    reflexivity.
Qed.

Lemma decode_and_fail_frame `{Platform} {S S'} req (s : S) (s' : S') t :
  decode_and_fail req s' t
  = (outcome (decode_and_fail req s t), s', trace (decode_and_fail req s t)).
Proof.
  unfold decode_and_fail, call_missing_handler.
  destruct (method req =? "GET").
  - run_js. now destruct (URL_new (url req)).
  - destruct (content_type req) as [ct|]; [|reflexivity].
    destruct (ct =? "application/json"); [run_js; now destruct (json req)|].
    destruct (ct =? "text/plain"); [run_js; now destruct (text req)|].
    destruct (ct =? "multipart/form-data"); [run_js; now destruct (formData req)|].
    reflexivity.
Qed.

Lemma decode_and_handle_no_login `{Platform} {S} h p req (s : S) t :
  map login_as_sign t = t ->
  map login_as_sign (trace (decode_and_handle h p req s t))
  = trace (decode_and_handle h p req s t).
Proof.
  intros Ht.
  destruct (decode_and_handle_stages h p req s t)
    as [(reads & e & [_ Hr] & ->)|(reads & d & [_ Hr] & ->)]; cbn [trace snd];
    rewrite !map_app, Ht; repeat f_equal;
    (induction Hr as [|ev reads Hev _ IH]; [reflexivity|];
     cbn [map]; rewrite IH; destruct ev; cbn in Hev; try lia; reflexivity).
Qed.

Lemma agree_on_error e R R' t t' :
  as_per_route R = R' -> t = map login_as_sign t' ->
  agree (ModJs.on_error e R t) (PerRoute.on_error e R' t').
Proof.
  intros <- ->. rewrite ModJsFacts.mod_on_error_run, PerRouteFacts.on_error_run.
  destruct e; repeat split. cbn. now rewrite map_app.
Qed.

Lemma mod_process_unfold `{Platform} entry req R t :
  ModJs.process entry req R t =
  match ModJs.selected (ModJs.verify entry) (ModJs.AUTH_VERIFY R) with
  | Some hook =>
      match hook req with
      | Normal u =>
          bind (decode_and_handle (ModJs.handler entry) u req)
               (ModJs.respond entry req (ModJs.DEFAULT_HEADERS R)) R (t ++ [CallVerify req])
      | Throw e => (Throw e, R, t ++ [CallVerify req])
      end
  | None =>
      bind (decode_and_handle (ModJs.handler entry) VNull req)
           (ModJs.respond entry req (ModJs.DEFAULT_HEADERS R)) R t
  end.
Proof.
  unfold ModJs.process. run_js.
  destruct (ModJs.selected _ _) as [hook|]; [|reflexivity]. now destruct (hook req).
Qed.

Lemma per_route_process_unfold `{Platform} entry req R t :
  PerRoute.process entry req R t =
  match PerRoute.verify entry with
  | Some hook =>
      match hook req with
      | Normal u =>
          bind (decode_and_handle (PerRoute.handler entry) u req)
               (PerRoute.respond entry req (PerRoute.DEFAULT_HEADERS R) u) R
               (t ++ [CallVerify req])
      | Throw e => (Throw e, R, t ++ [CallVerify req])
      end
  | None =>
      bind (decode_and_handle (PerRoute.handler entry) VNull req)
           (PerRoute.respond entry req (PerRoute.DEFAULT_HEADERS R) VNull) R t
  end.
Proof.
  unfold PerRoute.process. run_js.
  destruct (PerRoute.verify entry) as [hook|]; [|reflexivity]. now destruct (hook req).
Qed.

Lemma agree_after_verify `{Platform} entry req R u T :
  map login_as_sign T = T ->
  agree (try_catch (bind (decode_and_handle (ModJs.handler entry) u req)
                         (ModJs.respond entry req (ModJs.DEFAULT_HEADERS R)))
                   ModJs.on_error R T)
        (try_catch (bind (decode_and_handle (ModJs.handler entry) u req)
                         (PerRoute.respond (as_per_route_entry R entry) req
                            (ModJs.DEFAULT_HEADERS R) u))
                   PerRoute.on_error (as_per_route R) T).
Proof.
  intros HT. unfold try_catch, bind.
  rewrite (decode_and_handle_frame _ _ _ R (as_per_route R)).
  rewrite (decode_and_handle_frame _ _ _ R R) at 1.
  pose proof (decode_and_handle_no_login (ModJs.handler entry) u req R T HT) as HD.
  destruct (outcome (decode_and_handle (ModJs.handler entry) u req R T)) as [v|e];
    [|now apply agree_on_error].
  set (TD := trace (decode_and_handle (ModJs.handler entry) u req R T)) in *.
  destruct (encode v (responseStatus req) (ModJs.DEFAULT_HEADERS R)) as [r|e] eqn:He.
  - rewrite (ModJsFacts.mod_respond_encoded _ _ _ _ _ _ _ He),
      (PerRouteFacts.respond_encoded _ _ _ _ _ _ _ _ He).
    cbn [PerRoute.sign PerRoute.login as_per_route_entry].
    destruct (ModJs.selected (ModJs.sign entry) (ModJs.AUTH_SIGN R)) as [s|].
    + destruct (s r v) as [h|e].
      * repeat split. cbn. now rewrite map_app, HD.
      * apply agree_on_error; [reflexivity|]. now rewrite map_app, HD.
    + now repeat split.
  - rewrite (ModJsFacts.mod_respond_refused _ _ _ _ _ _ _ He),
      (PerRouteFacts.respond_refused _ _ _ _ _ _ _ _ He).
    now apply agree_on_error.
Qed.

Lemma agree_process_inherited `{Platform} req R :
  agree (try_catch (ModJs.process_inherited req) ModJs.on_error R [])
        (try_catch (PerRoute.process_inherited req) PerRoute.on_error (as_per_route R) []).
Proof.
  unfold try_catch, ModJs.process_inherited, PerRoute.process_inherited, bind, gets.
  rewrite (decode_and_fail_frame req R (as_per_route R)).
  destruct (decode_and_fail_spec req R []) as (reads & e & Hr & _ & ->).
  cbn [outcome trace fst snd app].
  apply agree_on_error; [reflexivity|].
  induction Hr as [|ev reads [k ->] _ IH]; [reflexivity|].
  cbn [map login_as_sign]. now rewrite <- IH.
Qed.

Lemma agree_process `{Platform} entry req R :
  agree (try_catch (ModJs.process entry req) ModJs.on_error R [])
        (try_catch (PerRoute.process (as_per_route_entry R entry) req) PerRoute.on_error
                   (as_per_route R) []).
Proof.
  unfold try_catch at 1 2. rewrite mod_process_unfold, per_route_process_unfold.
  cbn [PerRoute.verify PerRoute.handler as_per_route_entry PerRoute.DEFAULT_HEADERS
       as_per_route app].
  destruct (ModJs.selected (ModJs.verify entry) (ModJs.AUTH_VERIFY R)) as [hook|].
  - destruct (hook req) as [u|e].
    + now apply (agree_after_verify entry req R u [CallVerify req]).
    + now apply agree_on_error.
  - now apply (agree_after_verify entry req R VNull []).
Qed.

(** *** The calls the [catch] block leaves alone *)

Lemma per_route_on_error_calls e R t :
  hook_calls (trace (PerRoute.on_error e R t)) = hook_calls t /\
  verify_calls (trace (PerRoute.on_error e R t)) = verify_calls t /\
  handler_calls (trace (PerRoute.on_error e R t)) = handler_calls t /\
  body_reads (trace (PerRoute.on_error e R t)) = body_reads t.
Proof.
  rewrite PerRouteFacts.on_error_run. destruct e; cbn [trace snd]; [auto|].
  rewrite hook_calls_app, verify_calls_app, handler_calls_app, body_reads_app. cbn.
  now rewrite !app_nil_r.
Qed.

Lemma mod_on_error_reads e R t :
  body_reads (trace (ModJs.on_error e R t)) = body_reads t.
Proof.
  rewrite ModJsFacts.mod_on_error_run. destruct e; cbn [trace snd]; [auto|].
  rewrite body_reads_app. cbn. now rewrite !app_nil_r.
Qed.

(* ===================================================================== *)
(** ** Beyond the claims: more of the example application, matched *)
(* ===================================================================== *)

Lemma per_route_get_users_matched :
  @PerRoute.matched simple_platform PerRouteDemo.registered get_users
    (PerRouteDemo.plain_entry list_users).
Proof. show_matched. Qed.

Lemma mod_post_json_matched :
  @ModJs.matched simple_platform ModJsDemo.registered post_json
    (ModJs.mkEntry create_user false false).
Proof. show_matched. Qed.

Lemma per_route_get_boom_matched :
  @PerRoute.matched simple_platform PerRoute_failing get_boom (PerRouteDemo.plain_entry boom).
Proof. show_matched. Qed.

Lemma mod_get_strict_matched :
  @ModJs.matched simple_platform ModJs_failing get_strict (ModJs.mkEntry strict false false).
Proof. show_matched. Qed.

Lemma mod_hookless_get_admin_matched :
  @ModJs.matched simple_platform ModJs_hookless get_admin (ModJs.mkEntry list_users true true).
Proof. show_matched. Qed.

Lemma per_route_unsigned_post_login_matched :
  @PerRoute.matched simple_platform PerRoute_unsigned post_login unsigned_entry.
Proof. show_matched. Qed.

(* ===================================================================== *)
(** ** Beyond the claims: the properties *)
(* ===================================================================== *)

(** X1: the route key is a slash and the first segment of the path, whatever
    follows: deeper segments never take part in routing, and the root
    path has the key of the empty segment. *)
Theorem route_key_is_the_first_segment :
  (forall U, exists seg, route_key U = "/" +:+ seg /\ string_has "/" seg = false) /\
  (forall seg rest q,
      string_has "/" seg = false ->
      route_key (mkURL ("/" +:+ seg) q) = "/" +:+ seg /\
      route_key (mkURL ("/" +:+ seg +:+ "/" +:+ rest) q) = "/" +:+ seg).
Proof.
  split; [exact route_key_shape|].
  intros seg rest q Hseg. exact (route_key_first_segment seg rest q Hseg).
Qed.

(** An instance of X1: a request for [/users/7/posts] is routed by [/users]. *)
Lemma route_key_is_the_first_segment_witness :
  route_key (mkURL "/users" []) = "/users" /\
  route_key (mkURL "/users/7/posts" []) = "/users".
Proof.
  exact (proj2 route_key_is_the_first_segment "users" "7/posts" [] eq_refl).
Defined.





(** X4: registrations compose as assignments to a two-level table: a later
    registration of the same path and method replaces the earlier one and
    nothing else, and registrations of different pairs can be made in
    either order.  Both variants. *)
Theorem registrations_compose :
  (forall path m h1 o1 h2 o2 R,
      PerRoute.hooks_callable o2 = true ->
      statics (PerRoute.Route path m h2 o2 (statics (PerRoute.Route path m h1 o1 R [])) [])
      = statics (PerRoute.Route path m h2 o2 R [])) /\
  (forall p1 m1 h1 o1 p2 m2 h2 o2 R,
      (p1, m1) <> (p2, m2) ->
      statics (PerRoute.Route p2 m2 h2 o2 (statics (PerRoute.Route p1 m1 h1 o1 R [])) [])
      = statics (PerRoute.Route p1 m1 h1 o1 (statics (PerRoute.Route p2 m2 h2 o2 R [])) [])) /\
  (forall path m h1 v1 s1 h2 v2 s2 R,
      statics (ModJs.Route path m h2 v2 s2 (statics (ModJs.Route path m h1 v1 s1 R [])) [])
      = statics (ModJs.Route path m h2 v2 s2 R [])) /\
  (forall p1 m1 h1 v1 s1 p2 m2 h2 v2 s2 R,
      (p1, m1) <> (p2, m2) ->
      statics (ModJs.Route p2 m2 h2 v2 s2 (statics (ModJs.Route p1 m1 h1 v1 s1 R [])) [])
      = statics (ModJs.Route p1 m1 h1 v1 s1 (statics (ModJs.Route p2 m2 h2 v2 s2 R [])) [])).
Proof.
  repeat split.
  - intros path m h1 o1 h2 o2 R Hc. rewrite !per_route_Route_run, Hc.
    destruct (PerRoute.hooks_callable o1); [|reflexivity].
    unfold PerRoute.set_ROUTER_MAP. cbn. f_equal. apply register_twice.
  - intros p1 m1 h1 o1 p2 m2 h2 o2 R Hne. rewrite !per_route_Route_run.
    destruct (PerRoute.hooks_callable o1), (PerRoute.hooks_callable o2); try reflexivity.
    unfold PerRoute.set_ROUTER_MAP. cbn. f_equal. now apply register_commute.
  - intros. cbn. unfold ModJs.set_ROUTER_MAP. cbn. f_equal. apply register_twice.
  - intros p1 m1 h1 v1 s1 p2 m2 h2 v2 s2 R Hne. cbn. unfold ModJs.set_ROUTER_MAP. cbn.
    f_equal. now apply register_commute.
Qed.

(** An instance of X4: a second registration of POST on [/login] replaces the
    first, and two different routes can be registered in either order. *)
Lemma registrations_compose_witness :
  statics (PerRoute.Route "/login" "POST" create_user PerRouteDemo.session
             (statics (PerRoute.Route "/login" "POST" list_users PerRouteDemo.guarded
                         PerRoute.initial [])) [])
  = statics (PerRoute.Route "/login" "POST" create_user PerRouteDemo.session
               PerRoute.initial []) /\
  statics (ModJs.Route "/users" "POST" create_user false false
             (statics (ModJs.Route "/users" "GET" list_users false false ModJs.initial [])) [])
  = statics (ModJs.Route "/users" "GET" list_users false false
               (statics (ModJs.Route "/users" "POST" create_user false false
                           ModJs.initial [])) []).
Proof.
  split.
  - apply (proj1 registrations_compose). reflexivity.
  - apply (proj2 (proj2 (proj2 registrations_compose))). discriminate.
Defined.

(** X5: [Run] assigns its options and leaves the registry alone, so routes
    can be registered before or after it to the same effect; called
    without a header template and without a prefix (in mod.js: without
    hooks either) it leaves the statics as they were.  Both variants. *)
Theorem Run_and_Route_commute :
  (forall o path m handler ro R,
      statics (PerRoute.Run o (statics (PerRoute.Route path m handler ro R [])) [])
      = statics (PerRoute.Route path m handler ro (statics (PerRoute.Run o R [])) [])) /\
  (forall port R t,
      PerRoute.Run (PerRoute.mkRunOptions port None None) R t = (Normal tt, R, t)) /\
  (forall o path m handler verify sign R,
      statics (ModJs.Run o (statics (ModJs.Route path m handler verify sign R [])) [])
      = statics (ModJs.Route path m handler verify sign (statics (ModJs.Run o R [])) [])) /\
  (forall port R t,
      ModJs.Run (ModJs.mkRunOptions port None None None None) R t = (Normal tt, R, t)).
Proof.
  split; [|split; [|split]].
  - intros o path m handler ro R. rewrite !per_route_Route_run.
    now destruct (PerRoute.hooks_callable ro).
  - intros port [h p M] t. reflexivity.
  - reflexivity.
  - intros port [h p v s M] t. reflexivity.
Qed.

(** X6: a preflight request is answered before any routing: status 200, no
    body, the header template as it is, no hook and no handler called and
    nothing written, whatever is registered, a route for the method
    [OPTIONS] included; only the parsing of the URL comes first.  Both
    variants. *)
Theorem preflight_is_answered_before_routing `{Platform} :
  (forall R req t,
      method req = "OPTIONS" ->
      trace (PerRoute.on_request req R t) = t /\
      statics (PerRoute.on_request req R t) = R /\
      (forall U, request_URL (PerRoute.API_PREFIX R) req = Normal U ->
         outcome (PerRoute.on_request req R t)
         = Normal (mkResponse None 200 (PerRoute.DEFAULT_HEADERS R))) /\
      (forall e, request_URL (PerRoute.API_PREFIX R) req = Throw e ->
         outcome (PerRoute.on_request req R t) = Throw e)) /\
  (forall R req t,
      method req = "OPTIONS" ->
      trace (ModJs.on_request req R t) = t /\
      statics (ModJs.on_request req R t) = R /\
      (forall U, request_URL (ModJs.API_PREFIX R) req = Normal U ->
         outcome (ModJs.on_request req R t)
         = Normal (mkResponse None 200 (ModJs.DEFAULT_HEADERS R))) /\
      (forall e, request_URL (ModJs.API_PREFIX R) req = Throw e ->
         outcome (ModJs.on_request req R t) = Throw e)).
Proof.
  split; intros R req t Hopt.
  - rewrite per_route_on_request_unfold, Hopt.
    destruct (request_URL (PerRoute.API_PREFIX R) req) as [U|e]; cbn;
      repeat split; congruence.
  - rewrite mod_on_request_unfold, Hopt.
    destruct (request_URL (ModJs.API_PREFIX R) req) as [U|e]; cbn;
      repeat split; congruence.
Qed.

(** An instance of X6: OPTIONS on [/users]. *)
Lemma preflight_is_answered_before_routing_witness :
  trace (@PerRoute.on_request simple_platform options_users PerRouteDemo.registered []) = [] /\
  outcome (@ModJs.on_request simple_platform options_users ModJsDemo.registered [])
  = Normal (mkResponse None 200 (ModJs.DEFAULT_HEADERS ModJsDemo.registered)).
Proof.
  split.
  - apply (proj1 (@preflight_is_answered_before_routing simple_platform)
             PerRouteDemo.registered options_users [] eq_refl).
  - apply (proj2 (@preflight_is_answered_before_routing simple_platform)
             ModJsDemo.registered options_users [] eq_refl)
      with (U := mkURL "/users" []).
    vm_compute. reflexivity.
Defined.

(** X7: the prefix is stripped where it occurs but is not required: a request
    whose URL does not contain the configured prefix, and every request
    when the configured prefix is the empty string, is answered as by a
    router without a prefix.  Both variants. *)
Theorem requests_without_the_prefix_are_served `{Platform} :
  (forall R p req t,
      PerRoute.API_PREFIX R = Some p ->
      p = EmptyString \/ occurs p (url req) = false ->
      let R0 := PerRoute.mkRouter (PerRoute.DEFAULT_HEADERS R) None (PerRoute.ROUTER_MAP R) in
      outcome (PerRoute.on_request req R t) = outcome (PerRoute.on_request req R0 t) /\
      trace (PerRoute.on_request req R t) = trace (PerRoute.on_request req R0 t)) /\
  (forall R p req t,
      ModJs.API_PREFIX R = Some p ->
      p = EmptyString \/ occurs p (url req) = false ->
      let R0 := ModJs.mkRouter (ModJs.DEFAULT_HEADERS R) None (ModJs.AUTH_VERIFY R)
                               (ModJs.AUTH_SIGN R) (ModJs.ROUTER_MAP R) in
      outcome (ModJs.on_request req R t) = outcome (ModJs.on_request req R0 t) /\
      trace (ModJs.on_request req R t) = trace (ModJs.on_request req R0 t)).
Proof.
  split; intros R p req t Hp Hfree; cbv zeta.
  - apply per_route_on_request_prefix; [|reflexivity..].
    rewrite Hp. now apply request_URL_unprefixed.
  - apply mod_on_request_prefix; [|reflexivity..].
    rewrite Hp. now apply request_URL_unprefixed.
Qed.

(** An instance of X7: behind a prefix, a request without it is served. *)
Lemma requests_without_the_prefix_are_served_witness :
  outcome (@PerRoute.on_request simple_platform get_users PerRouteDemo.prefixed [])
  = outcome (@PerRoute.on_request simple_platform get_users
               (PerRoute.mkRouter (PerRoute.DEFAULT_HEADERS PerRouteDemo.prefixed) None
                                  (PerRoute.ROUTER_MAP PerRouteDemo.prefixed)) []).
Proof.
  apply (proj1 (@requests_without_the_prefix_are_served simple_platform)
           PerRouteDemo.prefixed "http://localhost:8000/api" get_users []).
  - reflexivity.
  - right. vm_compute. reflexivity.
Defined.

(** X8: the prefix is cut out of the whole URL, not of its path, and where it
    first occurs, wherever that is: what is parsed is the URL without
    these characters, and later occurrences stay. *)
Theorem prefix_is_cut_at_its_first_occurrence `{Platform} n p req :
  truthy_string p = true ->
  first_at n p (url req) = true ->
  request_URL (Some p) req
  = URL_new (substring 0 n (url req) +:+ string_drop (n + String.length p) (url req)).
Proof.
  intros Hp Hn. unfold request_URL. rewrite Hp.
  now rewrite (String_replace_first_at n _ _ _ Hn).
Qed.

(** An instance of X8: the prefix [api] is cut out of the host name. *)
Lemma prefix_is_cut_at_its_first_occurrence_witness :
  @request_URL simple_platform (Some "api") get_api_host
  = @URL_new simple_platform "http://.example.com/api/users".
Proof.
  apply (@prefix_is_cut_at_its_first_occurrence simple_platform 7 "api" get_api_host).
  - reflexivity.
  - reflexivity.
Defined.

(** X9: at most once each, and in this order: verify hook, body read,
    handler, sign hook, login hook, error log.  Every request, every
    router, both variants. *)
Theorem steps_run_once_and_in_order `{Platform} :
  (forall R req,
      let t := trace (PerRoute.on_request req R []) in
      in_pipeline_order t = true /\
      (length (verify_calls t) <= 1)%nat /\ (length (body_reads t) <= 1)%nat /\
      (length (handler_calls t) <= 1)%nat /\ (length (logged t) <= 1)%nat) /\
  (forall R req,
      let t := trace (ModJs.on_request req R []) in
      in_pipeline_order t = true /\
      (length (verify_calls t) <= 1)%nat /\ (length (body_reads t) <= 1)%nat /\
      (length (handler_calls t) <= 1)%nat /\ (length (logged t) <= 1)%nat).
Proof.
  assert (Honce : forall t, in_pipeline_order t = true ->
    in_pipeline_order t = true /\
    (length (verify_calls t) <= 1)%nat /\ (length (body_reads t) <= 1)%nat /\
    (length (handler_calls t) <= 1)%nat /\ (length (logged t) <= 1)%nat).
  { intros t Ho. split; [assumption|].
    repeat split.
    - apply (once_per_stage _ 0%nat); [|assumption]. intros [] [x Hx]; done.
    - apply (once_per_stage _ 1%nat); [|assumption]. intros [] [x Hx]; done.
    - apply (once_per_stage _ 2%nat); [|assumption]. intros [] [x Hx]; done.
    - apply (once_per_stage _ 5%nat); [|assumption]. intros [] [x Hx]; done. }
  split; intros R req; cbv zeta; apply Honce.
  - destruct (per_route_appends_on_request req R []) as (ext & -> & Ho & _). exact Ho.
  - destruct (mod_appends_on_request req R []) as (ext & -> & Ho & _). exact Ho.
Qed.

(** X10: what the handler is given.  For a matched request whose verify step
    completed, the handler is called exactly once, with the result of the
    verify step and the request itself behind the payload; the payload of
    a GET is the query of the URL as the client sent it, prefix included,
    with no read of the body whatever the content type says; the payload
    of any other request with one of the three known content types is the
    decoded body, read once.  Both variants. *)
Theorem handler_gets_the_decoded_payload `{Platform} :
  (forall R req entry u,
      PerRoute.matched R req entry ->
      PerRoute.verified entry req u ->
      let t := trace (PerRoute.on_request req R []) in
      (forall U, method req = "GET" -> URL_new (url req) = Normal U ->
         handler_calls t = [(PQuery (Object_fromEntries (searchParams U)), u, req)] /\
         body_reads t = []) /\
      (forall k d, method req <> "GET" -> decoded req k d ->
         handler_calls t = [(d, u, req)] /\ body_reads t = [k])) /\
  (forall R req entry u,
      ModJs.matched R req entry ->
      ModJs.verified R entry req u ->
      let t := trace (ModJs.on_request req R []) in
      (forall U, method req = "GET" -> URL_new (url req) = Normal U ->
         handler_calls t = [(PQuery (Object_fromEntries (searchParams U)), u, req)] /\
         body_reads t = []) /\
      (forall k d, method req <> "GET" -> decoded req k d ->
         handler_calls t = [(d, u, req)] /\ body_reads t = [k])).
Proof.
  split.
  - intros R req entry u Hm Hv. cbv zeta.
    destruct (PerRouteStages.verify_trace_stages entry req) as (Hvc & _ & Hvb & _).
    split.
    + intros U Hget HU.
      rewrite (per_route_verified_run _ _ _ _ _ _ Hm Hv (decode_get _ _ _ _ _ _ Hget HU)).
      destruct (PerRouteStages.after_handler_stages entry req (PerRoute.DEFAULT_HEADERS R) u
                  (PerRoute.handler entry (PQuery (Object_fromEntries (searchParams U))) u req)
                  R (PerRoute.verify_trace entry req
                     ++ [CallHandler (PQuery (Object_fromEntries (searchParams U))) u req]))
        as (t' & -> & Hw).
      destruct (within_tail_calls _ Hw) as (Htc & _ & Htb).
      now rewrite !handler_calls_app, !body_reads_app, Hvc, Hvb, Htc, Htb.
    + intros k d Hget Hdec.
      rewrite (per_route_verified_run _ _ _ _ _ _ Hm Hv (decoded_run _ _ _ _ _ _ _ Hget Hdec)).
      destruct (PerRouteStages.after_handler_stages entry req (PerRoute.DEFAULT_HEADERS R) u
                  (PerRoute.handler entry d u req)
                  R (PerRoute.verify_trace entry req ++ [ReadBody k; CallHandler d u req]))
        as (t' & -> & Hw).
      destruct (within_tail_calls _ Hw) as (Htc & _ & Htb).
      now rewrite !handler_calls_app, !body_reads_app, Hvc, Hvb, Htc, Htb.
  - intros R req entry u Hm Hv. cbv zeta.
    destruct (ModJsStages.mod_verify_trace_stages R entry req) as (Hvc & _ & Hvb & _).
    split.
    + intros U Hget HU.
      rewrite (mod_verified_run _ _ _ _ _ _ Hm Hv (decode_get _ _ _ _ _ _ Hget HU)).
      destruct (ModJsStages.mod_after_handler_stages entry req (ModJs.DEFAULT_HEADERS R)
                  (ModJs.handler entry (PQuery (Object_fromEntries (searchParams U))) u req)
                  R (ModJs.verify_trace R entry req
                     ++ [CallHandler (PQuery (Object_fromEntries (searchParams U))) u req]))
        as (t' & -> & Hw).
      destruct (within_tail_calls _ Hw) as (Htc & _ & Htb).
      now rewrite !handler_calls_app, !body_reads_app, Hvc, Hvb, Htc, Htb.
    + intros k d Hget Hdec.
      rewrite (mod_verified_run _ _ _ _ _ _ Hm Hv (decoded_run _ _ _ _ _ _ _ Hget Hdec)).
      destruct (ModJsStages.mod_after_handler_stages entry req (ModJs.DEFAULT_HEADERS R)
                  (ModJs.handler entry d u req)
                  R (ModJs.verify_trace R entry req ++ [ReadBody k; CallHandler d u req]))
        as (t' & -> & Hw).
      destruct (within_tail_calls _ Hw) as (Htc & _ & Htb).
      now rewrite !handler_calls_app, !body_reads_app, Hvc, Hvb, Htc, Htb.
Qed.

(** An instance of X10: a GET with a query, and a POST with a JSON body. *)
Lemma handler_gets_the_decoded_payload_witness :
  (handler_calls (trace (@PerRoute.on_request simple_platform get_users
                           PerRouteDemo.registered []))
   = [(PQuery (Object_fromEntries [("page", "2")]), VNull, get_users)] /\
   body_reads (trace (@PerRoute.on_request simple_platform get_users
                        PerRouteDemo.registered [])) = []) /\
  (handler_calls (trace (@ModJs.on_request simple_platform post_json ModJsDemo.registered []))
   = [(PJson (VString "dave"), VNull, post_json)] /\
   body_reads (trace (@ModJs.on_request simple_platform post_json ModJsDemo.registered []))
   = [AsJson]).
Proof.
  split.
  - apply (proj1 (proj1 (@handler_gets_the_decoded_payload simple_platform)
                    PerRouteDemo.registered get_users (PerRouteDemo.plain_entry list_users)
                    VNull per_route_get_users_matched eq_refl)
             (mkURL "/users" [("page", "2")]) eq_refl).
    vm_compute. reflexivity.
  - apply (proj2 (proj2 (@handler_gets_the_decoded_payload simple_platform)
                    ModJsDemo.registered post_json (ModJs.mkEntry create_user false false)
                    VNull mod_post_json_matched eq_refl)
             AsJson (PJson (VString "dave"))).
    + discriminate.
    + left. repeat split. exists (VString "dave"). split; reflexivity.
Defined.

(** X11: a result the encoder has a case for is always answered, and when no
    post-handler hook is attached the answer is what the encoder built
    from the clone of the template: a response object as the handler
    made it, without the template's headers; anything else with every
    header of the template and a content type of its own, JSON for
    objects and plain text otherwise.  Nothing is logged and the statics
    stay as they are.  Both variants. *)
Theorem results_are_answered_as_encoded `{Platform} :
  (forall R req entry d p r v,
      PerRoute.matched R req entry ->
      In (d, p, r) (handler_calls (trace (PerRoute.on_request req R []))) ->
      PerRoute.handler entry d p r = Normal v ->
      PerRoute.sign entry = None ->
      PerRoute.login entry = None ->
      typeof v <> "number" -> typeof v <> "symbol" -> typeof v <> "function" ->
      (forall e, v <> VObject (Throw e)) ->
      let run := PerRoute.on_request req R [] in
      exists resp,
        outcome run = Normal resp /\
        encode v (responseStatus req) (PerRoute.DEFAULT_HEADERS R) = Normal resp /\
        statics run = R /\ logged (trace run) = [] /\
        match v with
        | VResponse given => resp = given
        | VObject _ =>
            headers resp
            = <["Content-Type" := "application/json"]> (PerRoute.DEFAULT_HEADERS R)
        | _ => headers resp = <["Content-Type" := "text/plain"]> (PerRoute.DEFAULT_HEADERS R)
        end) /\
  (forall R req entry d p r v,
      ModJs.matched R req entry ->
      In (d, p, r) (handler_calls (trace (ModJs.on_request req R []))) ->
      ModJs.handler entry d p r = Normal v ->
      ModJs.selected (ModJs.sign entry) (ModJs.AUTH_SIGN R) = None ->
      typeof v <> "number" -> typeof v <> "symbol" -> typeof v <> "function" ->
      (forall e, v <> VObject (Throw e)) ->
      let run := ModJs.on_request req R [] in
      exists resp,
        outcome run = Normal resp /\
        encode v (responseStatus req) (ModJs.DEFAULT_HEADERS R) = Normal resp /\
        statics run = R /\ logged (trace run) = [] /\
        match v with
        | VResponse given => resp = given
        | VObject _ =>
            headers resp
            = <["Content-Type" := "application/json"]> (ModJs.DEFAULT_HEADERS R)
        | _ => headers resp = <["Content-Type" := "text/plain"]> (ModJs.DEFAULT_HEADERS R)
        end).
Proof.
  split.
  - intros R req entry d p r v Hm Hin Hh Hsign Hlogin Hn Hs Hf Hj. cbv zeta.
    destruct (PerRouteStages.handled_stages _ _ _ _ _ _ Hm Hin)
      as (-> & Hv & reads & Hr & Hrun).
    destruct (encode_succeeds v req (PerRoute.DEFAULT_HEADERS R) Hn Hs Hf Hj) as [resp He].
    unfold try_catch, bind at 1, lift at 1 in Hrun. rewrite Hh in Hrun.
    rewrite (PerRouteFacts.respond_encoded _ _ _ _ _ _ _ _ He), Hsign, Hlogin in Hrun.
    rewrite Hrun. exists resp. cbn [outcome statics trace fst snd].
    destruct (PerRouteStages.verify_trace_stages entry req) as (_ & Hvl & _).
    destruct (within_reads_calls _ Hr) as (_ & _ & Hrl & _).
    split; [reflexivity|]. split; [assumption|]. split; [reflexivity|].
    split; [|exact (encode_headers _ _ _ _ He)].
    now rewrite !logged_app, Hvl, Hrl.
  - intros R req entry d p r v Hm Hin Hh Hsign Hn Hs Hf Hj. cbv zeta.
    destruct (ModJsStages.mod_handled_stages _ _ _ _ _ _ Hm Hin)
      as (-> & Hv & reads & Hr & Hrun).
    destruct (encode_succeeds v req (ModJs.DEFAULT_HEADERS R) Hn Hs Hf Hj) as [resp He].
    unfold try_catch, bind at 1, lift at 1 in Hrun. rewrite Hh in Hrun.
    rewrite (ModJsFacts.mod_respond_encoded _ _ _ _ _ _ _ He), Hsign in Hrun.
    rewrite Hrun. exists resp. cbn [outcome statics trace fst snd].
    destruct (ModJsStages.mod_verify_trace_stages R entry req) as (_ & Hvl & _).
    destruct (within_reads_calls _ Hr) as (_ & _ & Hrl & _).
    split; [reflexivity|]. split; [assumption|]. split; [reflexivity|].
    split; [|exact (encode_headers _ _ _ _ He)].
    now rewrite !logged_app, Hvl, Hrl.
Qed.

(** An instance of X11: a POST whose handler returns a string. *)
Lemma results_are_answered_as_encoded_witness :
  exists resp,
    outcome (@PerRoute.on_request simple_platform post_user PerRouteDemo.registered [])
    = Normal resp /\
    encode (VString "created") (responseStatus post_user)
      (PerRoute.DEFAULT_HEADERS PerRouteDemo.registered) = Normal resp /\
    statics (@PerRoute.on_request simple_platform post_user PerRouteDemo.registered [])
    = PerRouteDemo.registered /\
    logged (trace (@PerRoute.on_request simple_platform post_user PerRouteDemo.registered []))
    = [] /\
    headers resp
    = <["Content-Type" := "text/plain"]> (PerRoute.DEFAULT_HEADERS PerRouteDemo.registered).
Proof.
  apply (proj1 (@results_are_answered_as_encoded simple_platform)
           PerRouteDemo.registered post_user (PerRouteDemo.plain_entry create_user)
           (PText "carol") VNull post_user (VString "created")
           per_route_post_user_matched).
  - vm_compute. left. reflexivity.
  - reflexivity.
  - reflexivity.
  - reflexivity.
  - discriminate.
  - discriminate.
  - discriminate.
  - discriminate.
Defined.

(** X12: what the [catch] block makes of an error of the [try] block: a
    [CustomError] is answered with the template plus [text/plain], which
    is written back into the template, and is not logged; any other error
    is logged once and answered from the template as it is, to which the
    constructor of the response adds the content type of text, as to any
    text body, when the template names no content type.  A [CustomError]
    built without a status carries 400, which the constructor of the
    response always accepts.  Both variants. *)
Theorem errors_are_answered_and_logged `{Platform} :
  (forall R req entry e,
      PerRoute.matched R req entry ->
      outcome (PerRoute.process entry req R []) = Throw e ->
      error_accepted e = true ->
      let run := PerRoute.on_request req R [] in
      exists resp,
        outcome run = Normal resp /\
        match e with
        | CustomError _ _ =>
            headers resp = with_text_type (PerRoute.DEFAULT_HEADERS R) /\
            logged (trace run) = [] /\
            statics run
            = PerRoute.set_DEFAULT_HEADERS (with_text_type (PerRoute.DEFAULT_HEADERS R)) R
        | Error _ =>
            (Headers_has (PerRoute.DEFAULT_HEADERS R) "content-type" = true ->
             headers resp = PerRoute.DEFAULT_HEADERS R) /\
            (Headers_has (PerRoute.DEFAULT_HEADERS R) "content-type" = false ->
             headers resp
             = <["content-type" := "text/plain;charset=UTF-8"]> (PerRoute.DEFAULT_HEADERS R)) /\
            logged (trace run) = [e] /\ statics run = R
        end) /\
  (forall R req entry e,
      ModJs.matched R req entry ->
      outcome (ModJs.process entry req R []) = Throw e ->
      error_accepted e = true ->
      let run := ModJs.on_request req R [] in
      exists resp,
        outcome run = Normal resp /\
        match e with
        | CustomError _ _ =>
            headers resp = with_text_type (ModJs.DEFAULT_HEADERS R) /\
            logged (trace run) = [] /\
            statics run
            = ModJs.set_DEFAULT_HEADERS (with_text_type (ModJs.DEFAULT_HEADERS R)) R
        | Error _ =>
            (Headers_has (ModJs.DEFAULT_HEADERS R) "content-type" = true ->
             headers resp = ModJs.DEFAULT_HEADERS R) /\
            (Headers_has (ModJs.DEFAULT_HEADERS R) "content-type" = false ->
             headers resp
             = <["content-type" := "text/plain;charset=UTF-8"]> (ModJs.DEFAULT_HEADERS R)) /\
            logged (trace run) = [e] /\ statics run = R
        end) /\
  (forall msg,
      error_accepted (CustomError_new msg None) = true /\
      error_status (CustomError_new msg None) = 400%Z).
Proof.
  split; [|split].
  - intros R req entry e Hm Hthrow Hacc. cbv zeta.
    rewrite (PerRouteFacts.on_request_matched _ _ _ _ Hm). unfold try_catch.
    destruct (per_route_process_run entry req R []) as (ext & -> & Hw).
    rewrite Hthrow, PerRouteFacts.on_error_run. cbn [app].
    pose proof (within_not_logged _ _ Hw) as Hlog.
    destruct e as [msg c|msg]; cbn in Hacc |- *.
    + rewrite (new_Response_accepted _ _ _ Hacc). eexists. split; [reflexivity|].
      cbn [headers outcome statics trace fst snd].
      split; [apply Response_headers_typed|]. split; [exact Hlog|reflexivity].
    + eexists. split; [reflexivity|]. cbn [headers has_body andb].
      unfold Response_headers. cbn [has_body andb].
      split; [now intros ->|]. split; [now intros ->|].
      split; [now rewrite logged_app, Hlog|reflexivity].
  - intros R req entry e Hm Hthrow Hacc. cbv zeta.
    rewrite (ModJsFacts.mod_on_request_matched _ _ _ _ Hm). unfold try_catch.
    destruct (mod_process_run entry req R []) as (ext & -> & Hw).
    rewrite Hthrow, ModJsFacts.mod_on_error_run. cbn [app].
    pose proof (within_not_logged _ _ Hw) as Hlog.
    destruct e as [msg c|msg]; cbn in Hacc |- *.
    + rewrite (new_Response_accepted _ _ _ Hacc). eexists. split; [reflexivity|].
      cbn [headers outcome statics trace fst snd].
      split; [apply Response_headers_typed|]. split; [exact Hlog|reflexivity].
    + eexists. split; [reflexivity|]. cbn [headers has_body andb].
      unfold Response_headers. cbn [has_body andb].
      split; [now intros ->|]. split; [now intros ->|].
      split; [now rewrite logged_app, Hlog|reflexivity].
  - intros msg. split; reflexivity.
Qed.

(** An instance of X12: a handler that throws a plain error is answered
    with 500, logged, and the answer carries the content type the
    constructor adds; one that throws a [CustomError] without a status is
    answered with the template plus [text/plain] and not logged. *)
Lemma errors_are_answered_and_logged_witness :
  (exists resp,
      outcome (@PerRoute.on_request simple_platform get_boom PerRoute_failing [])
      = Normal resp /\
      headers resp
      = <["content-type" := "text/plain;charset=UTF-8"]>
          (PerRoute.DEFAULT_HEADERS PerRoute_failing) /\
      logged (trace (@PerRoute.on_request simple_platform get_boom PerRoute_failing []))
      = [Error "boom"] /\
      statics (@PerRoute.on_request simple_platform get_boom PerRoute_failing [])
      = PerRoute_failing) /\
  (exists resp,
      outcome (@ModJs.on_request simple_platform get_strict ModJs_failing []) = Normal resp /\
      headers resp = with_text_type (ModJs.DEFAULT_HEADERS ModJs_failing) /\
      logged (trace (@ModJs.on_request simple_platform get_strict ModJs_failing [])) = [] /\
      statics (@ModJs.on_request simple_platform get_strict ModJs_failing [])
      = ModJs.set_DEFAULT_HEADERS (with_text_type (ModJs.DEFAULT_HEADERS ModJs_failing))
          ModJs_failing).
Proof.
  split.
  - destruct (proj1 (@errors_are_answered_and_logged simple_platform)
                PerRoute_failing get_boom (PerRouteDemo.plain_entry boom) (Error "boom")
                per_route_get_boom_matched
                ltac:(vm_compute; reflexivity) eq_refl)
      as (resp & Hout & _ & Hheaders & Hlog & Hstatics).
    exists resp. split; [exact Hout|]. split; [|split; assumption].
    apply Hheaders. vm_compute. reflexivity.
  - apply (proj1 (proj2 (@errors_are_answered_and_logged simple_platform))
             ModJs_failing get_strict (ModJs.mkEntry strict false false)
             (CustomError "Bad input" 400) mod_get_strict_matched).
    + vm_compute. reflexivity.
    + reflexivity.
Defined.

(** X13: serving requests, however many and whichever, leaves the prefix and
    the registry as configured and the header template as configured but
    for the content type the [CustomError] branch may have written into
    it; and once the template says [text/plain], the statics never change
    again.  Both variants. *)
Theorem requests_leave_the_configuration `{Platform} :
  (forall R reqs,
      let R' := PerRoute_after_requests R reqs in
      PerRoute.API_PREFIX R' = PerRoute.API_PREFIX R /\
      PerRoute.ROUTER_MAP R' = PerRoute.ROUTER_MAP R /\
      (PerRoute.DEFAULT_HEADERS R' = PerRoute.DEFAULT_HEADERS R \/
       PerRoute.DEFAULT_HEADERS R' = with_text_type (PerRoute.DEFAULT_HEADERS R)) /\
      (PerRoute.DEFAULT_HEADERS R !! "Content-Type" = Some "text/plain" -> R' = R)) /\
  (forall R reqs,
      let R' := ModJs_after_requests R reqs in
      ModJs.API_PREFIX R' = ModJs.API_PREFIX R /\
      ModJs.ROUTER_MAP R' = ModJs.ROUTER_MAP R /\
      ModJs.AUTH_VERIFY R' = ModJs.AUTH_VERIFY R /\
      ModJs.AUTH_SIGN R' = ModJs.AUTH_SIGN R /\
      (ModJs.DEFAULT_HEADERS R' = ModJs.DEFAULT_HEADERS R \/
       ModJs.DEFAULT_HEADERS R' = with_text_type (ModJs.DEFAULT_HEADERS R)) /\
      (ModJs.DEFAULT_HEADERS R !! "Content-Type" = Some "text/plain" -> R' = R)).
Proof.
  split; intros R reqs; cbv zeta; revert R.
  - induction reqs as [|req reqs IH]; intros R; [cbn; auto|].
    change (PerRoute_after_requests R (req :: reqs))
      with (PerRoute_after_requests (statics (PerRoute.on_request req R [])) reqs).
    destruct (IH (statics (PerRoute.on_request req R []))) as (Hp & Hm & Hh & Hfix).
    destruct (PerRouteRuns.statics_after_request R req) as [HR|HR].
    + rewrite HR in *. auto.
    + rewrite HR in *. cbn in Hp, Hm, Hh, Hfix.
      unfold with_text_type in *. rewrite insert_insert_eq in Hh.
      repeat split; [assumption..|tauto|].
      intros Hct. rewrite Hfix by apply lookup_insert_eq.
      rewrite (insert_id _ _ _ Hct). now destruct R.
  - induction reqs as [|req reqs IH]; intros R; [cbn; auto 10|].
    change (ModJs_after_requests R (req :: reqs))
      with (ModJs_after_requests (statics (ModJs.on_request req R [])) reqs).
    destruct (IH (statics (ModJs.on_request req R []))) as (Hp & Hm & Hv & Hs & Hh & Hfix).
    destruct (ModJsRuns.mod_statics_after_request R req) as [HR|HR].
    + rewrite HR in *. auto 10.
    + rewrite HR in *. cbn in Hp, Hm, Hv, Hs, Hh, Hfix.
      unfold with_text_type in *. rewrite insert_insert_eq in Hh.
      repeat split; [assumption..|tauto|].
      intros Hct. rewrite Hfix by apply lookup_insert_eq.
      rewrite (insert_id _ _ _ Hct). now destruct R.
Qed.

(** An instance of X13: once the template says [text/plain], requests of every
    kind leave the statics as they are. *)
Lemma requests_leave_the_configuration_witness :
  @PerRoute_after_requests simple_platform PerRoute_written
    [get_users; post_bad_json; get_teapot; options_users]
  = PerRoute_written.
Proof.
  apply (proj1 (@requests_leave_the_configuration simple_platform)
           PerRoute_written [get_users; post_bad_json; get_teapot; options_users]).
  vm_compute. reflexivity.
Defined.

(** X14: the [raw] option is stored by [Route] and never read by the
    dispatcher: two registrations that differ in it only are answered
    alike. *)
Theorem raw_option_is_never_read `{Platform} path m handler o raw' R req t :
  let o' := PerRoute.mkOptions (PerRoute.opt_verify o) (PerRoute.opt_sign o)
                               (PerRoute.opt_login o) raw' in
  let R1 := statics (PerRoute.Route path m handler o R []) in
  let R2 := statics (PerRoute.Route path m handler o' R []) in
  outcome (PerRoute.on_request req R2 t) = outcome (PerRoute.on_request req R1 t) /\
  trace (PerRoute.on_request req R2 t) = trace (PerRoute.on_request req R1 t).
Proof.
  cbv zeta.
  destruct (per_route_Route_statics path m handler o R []) as (Hp1 & Hh1 & HR1).
  destruct (per_route_Route_statics path m handler
              (PerRoute.mkOptions (PerRoute.opt_verify o) (PerRoute.opt_sign o)
                                  (PerRoute.opt_login o) raw') R [])
    as (Hp2 & Hh2 & HR2).
  assert (Hsame : PerRoute.hooks_callable o = false ->
    statics (PerRoute.Route path m handler o R []) = R /\
    statics (PerRoute.Route path m handler
               (PerRoute.mkOptions (PerRoute.opt_verify o) (PerRoute.opt_sign o)
                                   (PerRoute.opt_login o) raw') R []) = R).
  { unfold PerRoute.hooks_callable, PerRoute.Route. cbn.
    destruct (provided (PerRoute.opt_verify o) && _); [now split|].
    destruct (provided (PerRoute.opt_sign o) && _); [now split|].
    destruct (provided (PerRoute.opt_login o) && _); [now split|]. discriminate. }
  destruct (PerRoute.hooks_callable o) eqn:Hc;
    [|destruct (Hsame eq_refl) as [-> ->]; now split].
  clear Hsame HR1 HR2.
  rewrite !per_route_on_request_unfold, Hp1, Hp2, Hh1, Hh2.
  destruct (request_URL (PerRoute.API_PREFIX R) req) as [U|e]; [|now split].
  destruct (method req =? "OPTIONS"); [now split|].
  unfold PerRoute.hooks_callable in Hc. unfold PerRoute.Route. cbn.
  apply andb_true_iff in Hc as [[Hv Hs]%andb_true_iff Hl].
  apply negb_true_iff in Hv, Hs, Hl. rewrite Hv, Hs, Hl. cbn.
  assert (Hrun : forall (m1 m2 : Js PerRoute.Router Response) R1 R2,
    m1 = m2 -> observes PerRoute.DEFAULT_HEADERS m1 ->
    PerRoute.DEFAULT_HEADERS R1 = PerRoute.DEFAULT_HEADERS R2 ->
    outcome (try_catch m2 PerRoute.on_error R2 t) = outcome (try_catch m1 PerRoute.on_error R1 t) /\
    trace (try_catch m2 PerRoute.on_error R2 t) = trace (try_catch m1 PerRoute.on_error R1 t)).
  { intros m1 m2 R1 R2 <- Hobs Hd.
    apply (answers_by_try_catch PerRoute.DEFAULT_HEADERS);
      [assumption|apply per_route_answers_by_on_error|assumption]. }
  unfold Object_get.
  destruct (decide (route_key U = path)) as [->|Hne];
    [|rewrite !lookup_insert_ne by congruence;
      destruct (PerRoute.ROUTER_MAP R !! route_key U) as [methods|]; [|now split];
      destruct (methods !! method req) as [entry|];
      [|destruct (inherited (method req)); [|now split]];
      apply Hrun;
      first [reflexivity|apply per_route_observes_process
            |apply per_route_observes_process_inherited]].
  rewrite !lookup_insert_eq.
  destruct (decide (method req = m)) as [->|Hm];
    [|rewrite !lookup_insert_ne by congruence;
      destruct (default ∅ (PerRoute.ROUTER_MAP R !! path) !! method req) as [entry|];
      [|destruct (inherited (method req)); [|now split]];
      apply Hrun;
      first [reflexivity|apply per_route_observes_process
            |apply per_route_observes_process_inherited]].
  rewrite !lookup_insert_eq.
  apply Hrun; [reflexivity|apply per_route_observes_process|reflexivity].
Qed.

(** X15: in mod.js a route's flag does something only together with the hook
    given to [Run]: when the verify flag is off or no [auth_verify] is
    configured, no verification takes place and the handler is called
    with [null] for the user; when the sign flag is off or no
    [auth_sign] is configured, no hook runs after the handler. *)
Theorem mod_js_flags_need_the_hooks `{Platform} :
  (forall R req entry,
      ModJs.matched R req entry ->
      ModJs.verify entry = false \/ ModJs.AUTH_VERIFY R = None ->
      let t := trace (ModJs.on_request req R []) in
      verify_calls t = [] /\
      forall d p r, In (d, p, r) (handler_calls t) -> p = VNull) /\
  (forall R req entry,
      ModJs.matched R req entry ->
      ModJs.sign entry = false \/ ModJs.AUTH_SIGN R = None ->
      hook_calls (trace (ModJs.on_request req R [])) = []).
Proof.
  split.
  - intros R req entry Hm Hoff. cbv zeta.
    assert (Hsel : ModJs.selected (ModJs.verify entry) (ModJs.AUTH_VERIFY R) = None).
    { destruct Hoff as [-> | ->]; [reflexivity|now destruct (ModJs.verify entry)]. }
    rewrite (ModJsFacts.mod_on_request_matched _ _ _ _ Hm). unfold try_catch at 1 2.
    destruct (ModJsStages.mod_process_stages entry req R [])
      as [(hook & e & Hv & _)|[(u & reads & e & Hv & Hr & ->)|(u & reads & d0 & Hv & Hr & ->)]];
      [congruence| |];
      unfold ModJs.verified, ModJs.verify_trace in *; rewrite Hsel in *; subst u;
      cbn [app]; destruct (within_reads_calls _ Hr) as (Hrc & Hrv & _).
    + destruct (mod_on_error_calls e R reads) as (_ & -> & ->).
      rewrite Hrc, Hrv. split; [reflexivity|intros ? ? ? []].
    + fold (try_catch (bind (lift (ModJs.handler entry d0 VNull req))
                            (ModJs.respond entry req (ModJs.DEFAULT_HEADERS R)))
                      ModJs.on_error R (reads ++ [CallHandler d0 VNull req])).
      destruct (ModJsStages.mod_after_handler_stages entry req (ModJs.DEFAULT_HEADERS R)
                  (ModJs.handler entry d0 VNull req) R (reads ++ [CallHandler d0 VNull req]))
        as (t' & -> & Hw).
      destruct (within_tail_calls _ Hw) as (Htc & Htv & _).
      rewrite !verify_calls_app, !handler_calls_app, Hrc, Hrv, Htc, Htv.
      split; [reflexivity|]. now intros d p r [[= _ <- _]|[]].
  - intros R req entry Hm Hoff.
    assert (Hsel : ModJs.selected (ModJs.sign entry) (ModJs.AUTH_SIGN R) = None).
    { destruct Hoff as [-> | ->]; [reflexivity|now destruct (ModJs.sign entry)]. }
    rewrite (ModJsFacts.mod_on_request_matched _ _ _ _ Hm). unfold try_catch.
    destruct (ModJsStages.mod_verify_trace_stages R entry req) as (_ & _ & _ & Hvk).
    destruct (ModJsStages.mod_process_stages entry req R [])
      as [(hook & e & Hv & _ & ->)|[(u & reads & e & Hv & Hr & ->)|(u & reads & d0 & Hv & Hr & ->)]];
      cbn [app].
    + now destruct (mod_on_error_calls e R [CallVerify req]) as (-> & _).
    + destruct (mod_on_error_calls e R (ModJs.verify_trace R entry req ++ reads)) as (-> & _).
      destruct (within_reads_calls _ Hr) as (_ & _ & _ & Hrk).
      now rewrite hook_calls_app, Hvk, Hrk.
    + destruct (within_reads_calls _ Hr) as (_ & _ & _ & Hrk).
      assert (HT : hook_calls (ModJs.verify_trace R entry req ++ reads
                               ++ [CallHandler d0 u req]) = []).
      { now rewrite !hook_calls_app, Hvk, Hrk. }
      unfold bind, lift.
      destruct (ModJs.handler entry d0 u req) as [v|e];
        [|now destruct (mod_on_error_calls e R (ModJs.verify_trace R entry req ++ reads
                                                ++ [CallHandler d0 u req])) as (-> & _)].
      destruct (encode v (responseStatus req) (ModJs.DEFAULT_HEADERS R)) as [r|e] eqn:He.
      * rewrite (ModJsFacts.mod_respond_encoded _ _ _ _ _ _ _ He), Hsel. exact HT.
      * rewrite (ModJsFacts.mod_respond_refused _ _ _ _ _ _ _ He).
        now destruct (mod_on_error_calls e R (ModJs.verify_trace R entry req ++ reads
                                              ++ [CallHandler d0 u req])) as (-> & _).
Qed.

(** An instance of X15: a route flagged for verification and signing, served by
    a router that was given no hook. *)
Lemma mod_js_flags_need_the_hooks_witness :
  verify_calls (trace (@ModJs.on_request simple_platform get_admin ModJs_hookless [])) = [] /\
  hook_calls (trace (@ModJs.on_request simple_platform get_admin ModJs_hookless [])) = [].
Proof.
  split.
  - apply (proj1 (@mod_js_flags_need_the_hooks simple_platform)
             ModJs_hookless get_admin (ModJs.mkEntry list_users true true)
             mod_hookless_get_admin_matched).
    right. reflexivity.
  - apply (proj2 (@mod_js_flags_need_the_hooks simple_platform)
             ModJs_hookless get_admin (ModJs.mkEntry list_users true true)
             mod_hookless_get_admin_matched).
    right. reflexivity.
Defined.

(** X16: the two variants are one dispatcher: mod.js answers every request as
    the variant with per-route hooks does when each route is given the
    hook its flag selects, the verify hook as [verify] and the sign hook
    in the place of [login] (the hook that is handed the handler's
    result), with the same responses, the same calls in the same order
    and the same writes to the statics.  A handler is taken by what it is
    handed (the payload, the result of the verify step, the request),
    however the variant packs these into arguments. *)
Theorem mod_js_is_the_per_route_dispatcher `{Platform} R req :
  agree (ModJs.on_request req R []) (PerRoute.on_request req (as_per_route R) []).
Proof.
  rewrite mod_on_request_unfold, per_route_on_request_unfold.
  cbn [PerRoute.API_PREFIX PerRoute.DEFAULT_HEADERS PerRoute.ROUTER_MAP as_per_route].
  destruct (request_URL (ModJs.API_PREFIX R) req) as [U|e]; [|now repeat split].
  destruct (method req =? "OPTIONS"); [now repeat split|].
  rewrite lookup_fmap.
  destruct (ModJs.ROUTER_MAP R !! route_key U) as [methods|]; cbn [fmap option_fmap option_map];
    [|now repeat split].
  unfold Object_get. rewrite lookup_fmap.
  destruct (methods !! method req) as [entry|]; cbn [fmap option_fmap option_map];
    [apply agree_process|].
  destruct (inherited (method req)); [apply agree_process_inherited|now repeat split].
Qed.

(** X17: a verify hook that throws, whatever it throws, ends the request: the
    hook has been called once, the body is not read, the handler and the
    post-handler hooks are not called, and the answer is the one the
    [catch] block makes of the error.  Both variants. *)
Theorem verify_failures_end_the_request `{Platform} :
  (forall R req entry hook e,
      PerRoute.matched R req entry ->
      PerRoute.verify entry = Some hook ->
      hook req = Throw e ->
      let run := PerRoute.on_request req R [] in
      run = PerRoute.on_error e R [CallVerify req] /\
      verify_calls (trace run) = [req] /\ body_reads (trace run) = [] /\
      handler_calls (trace run) = [] /\ hook_calls (trace run) = []) /\
  (forall R req entry hook e,
      ModJs.matched R req entry ->
      ModJs.selected (ModJs.verify entry) (ModJs.AUTH_VERIFY R) = Some hook ->
      hook req = Throw e ->
      let run := ModJs.on_request req R [] in
      run = ModJs.on_error e R [CallVerify req] /\
      verify_calls (trace run) = [req] /\ body_reads (trace run) = [] /\
      handler_calls (trace run) = [] /\ hook_calls (trace run) = []).
Proof.
  split.
  - intros R req entry hook e Hm Hv Hh. cbv zeta.
    assert (Hrun : PerRoute.on_request req R [] = PerRoute.on_error e R [CallVerify req]).
    { rewrite (PerRouteFacts.on_request_matched _ _ _ _ Hm). unfold try_catch.
      rewrite per_route_process_unfold, Hv, Hh. reflexivity. }
    rewrite Hrun. split; [reflexivity|].
    destruct (per_route_on_error_calls e R [CallVerify req]) as (-> & -> & -> & ->).
    now repeat split.
  - intros R req entry hook e Hm Hv Hh. cbv zeta.
    assert (Hrun : ModJs.on_request req R [] = ModJs.on_error e R [CallVerify req]).
    { rewrite (ModJsFacts.mod_on_request_matched _ _ _ _ Hm). unfold try_catch.
      rewrite mod_process_unfold, Hv, Hh. reflexivity. }
    rewrite Hrun. split; [reflexivity|].
    destruct (mod_on_error_calls e R [CallVerify req]) as (-> & -> & ->).
    rewrite mod_on_error_reads. now repeat split.
Qed.

(** An instance of X17: the verify hook of [/admin] throws. *)
Lemma verify_failures_end_the_request_witness :
  verify_calls (trace (@PerRoute.on_request simple_platform get_admin
                         PerRouteDemo.registered [])) = [get_admin] /\
  handler_calls (trace (@ModJs.on_request simple_platform get_admin ModJsDemo.registered []))
  = [].
Proof.
  split.
  - apply (proj1 (@verify_failures_end_the_request simple_platform)
             PerRouteDemo.registered get_admin PerRouteDemo.guarded_entry forbid
             (CustomError "Forbidden" 403) per_route_get_admin_matched eq_refl eq_refl).
  - apply (proj2 (@verify_failures_end_the_request simple_platform)
             ModJsDemo.registered get_admin (ModJs.mkEntry list_users true false) forbid
             (CustomError "Forbidden" 403) mod_get_admin_matched eq_refl eq_refl).
Defined.

(** X18: a post-handler hook that throws replaces the answer: the handler has
    run and its result was encoded, but what the client gets is what the
    [catch] block makes of the hook's error; and a sign hook that throws
    keeps the login hook from being called.  Both variants. *)
Theorem hook_failures_replace_the_answer `{Platform} :
  (forall R req entry d p r v response s e,
      PerRoute.matched R req entry ->
      In (d, p, r) (handler_calls (trace (PerRoute.on_request req R []))) ->
      PerRoute.handler entry d p r = Normal v ->
      encode v (responseStatus req) (PerRoute.DEFAULT_HEADERS R) = Normal response ->
      PerRoute.sign entry = Some s ->
      s response p = Throw e ->
      exists T,
        PerRoute.on_request req R [] = PerRoute.on_error e R T /\
        hook_calls (trace (PerRoute.on_request req R [])) = [CallSign response p]) /\
  (forall R req entry d p r v response l e,
      PerRoute.matched R req entry ->
      In (d, p, r) (handler_calls (trace (PerRoute.on_request req R []))) ->
      PerRoute.handler entry d p r = Normal v ->
      encode v (responseStatus req) (PerRoute.DEFAULT_HEADERS R) = Normal response ->
      PerRoute.sign entry = None ->
      PerRoute.login entry = Some l ->
      l response v = Throw e ->
      exists T,
        PerRoute.on_request req R [] = PerRoute.on_error e R T /\
        hook_calls (trace (PerRoute.on_request req R [])) = [CallLogin response v]) /\
  (forall R req entry d p r v response s e,
      ModJs.matched R req entry ->
      In (d, p, r) (handler_calls (trace (ModJs.on_request req R []))) ->
      ModJs.handler entry d p r = Normal v ->
      encode v (responseStatus req) (ModJs.DEFAULT_HEADERS R) = Normal response ->
      ModJs.selected (ModJs.sign entry) (ModJs.AUTH_SIGN R) = Some s ->
      s response v = Throw e ->
      exists T,
        ModJs.on_request req R [] = ModJs.on_error e R T /\
        hook_calls (trace (ModJs.on_request req R [])) = [CallSign response v]).
Proof.
  split; [|split].
  - intros R req entry d p r v response s e Hm Hin Hh He Hs Hthrow.
    destruct (PerRouteStages.handled_stages _ _ _ _ _ _ Hm Hin)
      as (-> & Hv & reads & Hr & Hrun).
    unfold try_catch, bind at 1, lift at 1 in Hrun. rewrite Hh in Hrun.
    rewrite (PerRouteFacts.respond_encoded _ _ _ _ _ _ _ _ He), Hs, Hthrow in Hrun.
    eexists. split; [exact Hrun|]. rewrite Hrun.
    destruct (per_route_on_error_calls e R
                ((PerRoute.verify_trace entry req ++ reads ++ [CallHandler d p req])
                 ++ [CallSign response p])) as (-> & _).
    destruct (PerRouteStages.verify_trace_stages entry req) as (_ & _ & _ & Hvk).
    destruct (within_reads_calls _ Hr) as (_ & _ & _ & Hrk).
    now rewrite !hook_calls_app, Hvk, Hrk.
  - intros R req entry d p r v response l e Hm Hin Hh He Hs Hl Hthrow.
    destruct (PerRouteStages.handled_stages _ _ _ _ _ _ Hm Hin)
      as (-> & Hv & reads & Hr & Hrun).
    unfold try_catch, bind at 1, lift at 1 in Hrun. rewrite Hh in Hrun.
    rewrite (PerRouteFacts.respond_encoded _ _ _ _ _ _ _ _ He), Hs, Hl, Hthrow in Hrun.
    eexists. split; [exact Hrun|]. rewrite Hrun.
    destruct (per_route_on_error_calls e R
                ((PerRoute.verify_trace entry req ++ reads ++ [CallHandler d p req])
                 ++ [CallLogin response v])) as (-> & _).
    destruct (PerRouteStages.verify_trace_stages entry req) as (_ & _ & _ & Hvk).
    destruct (within_reads_calls _ Hr) as (_ & _ & _ & Hrk).
    now rewrite !hook_calls_app, Hvk, Hrk.
  - intros R req entry d p r v response s e Hm Hin Hh He Hs Hthrow.
    destruct (ModJsStages.mod_handled_stages _ _ _ _ _ _ Hm Hin)
      as (-> & Hv & reads & Hr & Hrun).
    unfold try_catch, bind at 1, lift at 1 in Hrun. rewrite Hh in Hrun.
    rewrite (ModJsFacts.mod_respond_encoded _ _ _ _ _ _ _ He), Hs, Hthrow in Hrun.
    eexists. split; [exact Hrun|]. rewrite Hrun.
    destruct (mod_on_error_calls e R
                ((ModJs.verify_trace R entry req ++ reads ++ [CallHandler d p req])
                 ++ [CallSign response v])) as (-> & _).
    destruct (ModJsStages.mod_verify_trace_stages R entry req) as (_ & _ & _ & Hvk).
    destruct (within_reads_calls _ Hr) as (_ & _ & _ & Hrk).
    now rewrite !hook_calls_app, Hvk, Hrk.
Qed.

(** An instance of X18: the sign hook of [/login] throws after the
    handler has created the user; the login hook is not called. *)
Lemma hook_failures_replace_the_answer_witness :
  hook_calls (trace (@PerRoute.on_request simple_platform post_login PerRoute_unsigned []))
  = [CallSign (mkResponse (Some "created") 201
                 (<["Content-Type" := "text/plain"]>
                    (PerRoute.DEFAULT_HEADERS PerRoute_unsigned)))
              VNull].
Proof.
  destruct (proj1 (@hook_failures_replace_the_answer simple_platform)
              PerRoute_unsigned post_login unsigned_entry
              (PText "secret") VNull post_login (VString "created")
              (mkResponse (Some "created") 201
                 (<["Content-Type" := "text/plain"]>
                    (PerRoute.DEFAULT_HEADERS PerRoute_unsigned)))
              refuse (Error "no key")
              per_route_unsigned_post_login_matched
              ltac:(vm_compute; left; reflexivity)
              eq_refl eq_refl eq_refl eq_refl) as (T & _ & Hcalls).
  exact Hcalls.
Defined.
